(** * SpontaneousConnect: the call scheduler and its schedule state

    A shallow embedding of [src/lib/scheduler.ts] (class [CallScheduler]
    and [ScheduleUtils]), of the schedule-helper operations of
    [src/lib/supabase.ts] ([DatabaseService.updateScheduleHelper],
    [getScheduleHelper], [createScheduleHelper], the query of
    [getBlockedTimes], [withRetry] and the cache), of the callbacks of
    [src/hooks/useScheduler.ts] that write the schedule state, and of the
    phone and e-mail masks of the log sanitizer, followed by the
    properties of the scheduling specification that these functions
    decide and by further properties of the code.

    Conventions of the embedding:
    - a JavaScript [Date] is [InvalidDate] or [At ms], [ms] the time value
      in milliseconds since the epoch (the bound of 8.64e15 on time values
      is not modelled);
    - local time is the time of the zone the JavaScript runtime runs in,
      a fixed offset [tz] of minutes east of UTC (no daylight saving);
    - [new Date()], [Date.now()] and [Math.random()] are oracles: the
      [n]-th read of the clock answers [clock n], the [n]-th draw answers
      [random n], an exact rational;
    - numbers are integers and exact rationals: the rounding of double
      arithmetic is not modelled;
    - an array of intervals that may hold [null] where its type says a row
      is a list of optional rows ([validateCallTimeRaw]); the typed
      functions run on the arrays without [null];
    - a thrown exception is the outcome [Thrown e]. *)

From Stdlib Require Import ZArith QArith Qround String Ascii List Bool Lia.
From Stdlib Require Import DecimalString Sorted Permutation.
Import ListNotations.

Local Open Scope string_scope.
Local Open Scope Z_scope.

(** ** JavaScript values used by the scheduler *)

Module JS.

(** *** Strings *)

(** [a < b], [a > b], [a <= b], [a >= b] on two strings: code units are
    compared from the left, a proper prefix is smaller. *)
Definition str_lt (a b : string) : bool := String.ltb a b.
Definition str_gt (a b : string) : bool := String.ltb b a.
Definition str_le (a b : string) : bool := String.leb a b.
Definition str_ge (a b : string) : bool := String.leb b a.

(** [s.includes(sub)] *)
Fixpoint includes (s sub : string) : bool :=
  String.prefix sub s ||
  match s with
  | EmptyString => false
  | String _ rest => includes rest sub
  end.

(** [arr.includes(x)] on an array of strings *)
Definition arr_includes (arr : list string) (x : string) : bool :=
  existsb (String.eqb x) arr.

(** [s.split(sep)] for a one-character separator: the accumulator holds the
    field being read. *)
Fixpoint split_acc (sep : ascii) (acc : string) (s : string) : list string :=
  match s with
  | EmptyString => [acc]
  | String c rest =>
      if Ascii.eqb c sep then acc :: split_acc sep EmptyString rest
      else split_acc sep (acc ++ String c EmptyString) rest
  end.

Definition split (sep : ascii) (s : string) : list string :=
  split_acc sep EmptyString s.

Definition is_digit (c : ascii) : bool :=
  (48 <=? Z.of_N (N_of_ascii c)) && (Z.of_N (N_of_ascii c) <=? 57).

Fixpoint digits_value (acc : Z) (s : string) : option Z :=
  match s with
  | EmptyString => Some acc
  | String c rest =>
      if is_digit c
      then digits_value (10 * acc + (Z.of_N (N_of_ascii c) - 48)) rest
      else None
  end.

(** [Number(s)] on the strings a clock column holds: a run of decimal
    digits is its value and the empty string is 0; [None] is [NaN].
    Strings outside that fragment (signs, blanks, fractions, exponents)
    are read as [NaN] here; the results below that run [Number] assume
    clock strings made of digit runs. *)
Definition Number (s : string) : option Z := digits_value 0 s.

(** [c.toLowerCase()] and [s.toLowerCase()], on ASCII letters *)
Definition lower_char (c : ascii) : ascii :=
  let n := N_of_ascii c in
  if ((65 <=? n) && (n <=? 90))%N then ascii_of_N (n + 32) else c.

Fixpoint toLowerCase (s : string) : string :=
  match s with
  | EmptyString => EmptyString
  | String c rest => String (lower_char c) (toLowerCase rest)
  end.

(** the characters that [\s] matches among the 8-bit code units *)
Definition is_space (c : ascii) : bool :=
  let n := N_of_ascii c in
  ((9 <=? n) && (n <=? 13) || (n =? 32) || (n =? 160))%N.

(** [s.replace(/\s+/g, '_')]: every maximal run of white space becomes one
    underscore; [in_run] tells that the previous character was white. *)
Fixpoint replace_spaces (in_run : bool) (s : string) : string :=
  match s with
  | EmptyString => EmptyString
  | String c rest =>
      if is_space c
      then (if in_run then replace_spaces true rest
            else String "_" (replace_spaces true rest))
      else String c (replace_spaces false rest)
  end.

(** *** Numbers *)

(** truncation towards zero, as [ToIntegerOrInfinity] does *)
Definition Qtrunc (q : Q) : Z :=
  if Qle_bool 0 q then Qfloor q else Qceiling q.

Definition Qlt_bool (a b : Q) : bool := negb (Qle_bool b a).

(** [x || dflt] on a number that may be missing: [undefined] and [0] are
    falsy. *)
Definition num_or (x : option Q) (dflt : Q) : Q :=
  match x with
  | Some q => if Qeq_bool q 0 then dflt else q
  | None => dflt
  end.

(** *** Two-digit fields *)

Definition digit_char (d : Z) : ascii := ascii_of_N (Z.to_N (48 + d)).

Definition pad2 (n : Z) : string :=
  String (digit_char (n / 10)) (String (digit_char (n mod 10)) EmptyString).

End JS.

(** *** Dates *)

Module JSDate.

Inductive Date : Type :=
| InvalidDate
| At (ms : Z).

Definition msPerMinute : Z := 60000.
Definition msPerHour : Z := 3600000.
Definition msPerDay : Z := 86400000.

Section LocalZone.

(** offset of the runtime's zone, in minutes east of UTC *)
Variable tz : Z.

Definition localTime (ms : Z) : Z := ms + tz * msPerMinute.

Definition hoursOf (ms : Z) : Z := (localTime ms mod msPerDay) / msPerHour.
Definition minutesOf (ms : Z) : Z := (localTime ms mod msPerHour) / msPerMinute.

(** 1 January 1970 was a Thursday; Sunday is day 0. *)
Definition dayOf (ms : Z) : Z := (localTime ms / msPerDay + 4) mod 7.

(** time value of the local midnight that starts the local day of [ms] *)
Definition startOfDay (ms : Z) : Z := ms - localTime ms mod msPerDay.

(** [d.toTimeString().slice(0, 5)] *)
Definition toTimeString5 (d : Date) : string :=
  match d with
  | InvalidDate => "Inval"
  | At ms => JS.pad2 (hoursOf ms) ++ ":" ++ JS.pad2 (minutesOf ms)
  end.

Definition dayNames : list string :=
  ["Sun"; "Mon"; "Tue"; "Wed"; "Thu"; "Fri"; "Sat"].

(** [dayNames[d.getDay()]]: [None] is [undefined] *)
Definition dayNameOf (d : Date) : option string :=
  match d with
  | InvalidDate => None
  | At ms => nth_error dayNames (Z.to_nat (dayOf ms))
  end.

(** [d.toLocaleDateString('en', { weekday: 'short' })] *)
Definition weekdayShort (d : Date) : string :=
  match d with
  | InvalidDate => "Invalid Date"
  | At ms => nth (Z.to_nat (dayOf ms)) dayNames ""
  end.

(** [d.setHours(h, m, 0, 0)]; a [NaN] or missing argument invalidates *)
Definition setHours (d : Date) (h m : option Z) : Date :=
  match d, h, m with
  | At ms, Some h, Some m => At (startOfDay ms + h * msPerHour + m * msPerMinute)
  | _, _, _ => InvalidDate
  end.

(** [d.setDate(d.getDate() + n)] *)
Definition addDays (d : Date) (n : Z) : Date :=
  match d with
  | InvalidDate => InvalidDate
  | At ms => At (ms + n * msPerDay)
  end.

(** [d.setMinutes(d.getMinutes() + delta)]: the sum is truncated to an
    integer, the other fields are kept *)
Definition addToMinutes (d : Date) (delta : Q) : Date :=
  match d with
  | InvalidDate => InvalidDate
  | At ms =>
      let cur := minutesOf ms in
      At (ms + (JS.Qtrunc (inject_Z cur + delta) - cur) * msPerMinute)
  end.

End LocalZone.

(** [new Date(d.getTime() + delta)], [delta] a number of milliseconds *)
Definition plusMs (d : Date) (delta : Q) : Date :=
  match d with
  | InvalidDate => InvalidDate
  | At ms => At (JS.Qtrunc (inject_Z ms + delta))
  end.

(** [a <= b] on two dates: a comparison with [NaN] is false *)
Definition date_le (a b : Date) : bool :=
  match a, b with
  | At x, At y => x <=? y
  | _, _ => false
  end.

(** the UTC calendar date of a day number (days since the epoch) *)
Definition civil (days : Z) : Z * Z * Z :=
  let z := days + 719468 in
  let era := z / 146097 in
  let doe := z - era * 146097 in
  let yoe := (doe - doe / 1460 + doe / 36524 - doe / 146096) / 365 in
  let doy := doe - (365 * yoe + yoe / 4 - yoe / 100) in
  let mp := (5 * doy + 2) / 153 in
  let d := doy - (153 * mp + 2) / 5 + 1 in
  let m := if mp <? 10 then mp + 3 else mp - 9 in
  let y := yoe + era * 400 + (if m <=? 2 then 1 else 0) in
  (y, m, d).

Definition pad4 (n : Z) : string :=
  JS.pad2 (n / 100) ++ JS.pad2 (n mod 100).

(** [new Date(ms).toISOString().split('T')[0]], for years 0 to 9999 *)
Definition isoDate (ms : Z) : string :=
  let '(y, m, d) := civil (ms / msPerDay) in
  pad4 y ++ "-" ++ JS.pad2 m ++ "-" ++ JS.pad2 d.

End JSDate.

Import JSDate.

(** ** Exceptions, the clock and the random source *)

(** the fields of a JavaScript error object that the code reads or sets *)
Record Error : Type := mkError {
  err_name : string;
  err_message : string;
  err_code : string;
  err_status : Z
}.

Definition RangeError (message : string) : Error :=
  mkError "RangeError" message "" 0.
Definition TypeError (message : string) : Error :=
  mkError "TypeError" message "" 0.
Definition AppError (message code : string) (status : Z) : Error :=
  mkError "AppError" message code status.
Definition ValidationError (message : string) : Error :=
  mkError "ValidationError" message "VALIDATION_ERROR" 400.
Definition NetworkError (message : string) : Error :=
  mkError "NetworkError" message "NETWORK_ERROR" 0.

Inductive Outcome (A : Type) : Type :=
| Returned (a : A)
| Thrown (e : Error).

Arguments Returned {A} a.
Arguments Thrown {A} e.

(** what the runtime supplies: its zone, the clock and the random source *)
Record Runtime : Type := mkRuntime {
  tz : Z;
  clock : nat -> Z;
  random : nat -> Q
}.

(** how many clock reads and random draws have been made so far *)
Record World : Type := mkWorld {
  reads : nat;
  draws : nat
}.

Definition M (A : Type) : Type := World -> Outcome A * World.

Definition ret {A : Type} (a : A) : M A := fun w => (Returned a, w).

Definition bind {A B : Type} (m : M A) (k : A -> M B) : M B :=
  fun w =>
    match m w with
    | (Returned a, w') => k a w'
    | (Thrown e, w') => (Thrown e, w')
    end.

Definition throw {A : Type} (e : Error) : M A := fun w => (Thrown e, w).

(** [try { m } catch (error) { handler(error) }] *)
Definition try_catch {A : Type} (m : M A) (handler : Error -> M A) : M A :=
  fun w =>
    match m w with
    | (Returned a, w') => (Returned a, w')
    | (Thrown e, w') => handler e w'
    end.

Notation "x <- m ;; k" := (bind m (fun x => k))
  (at level 61, m at next level, right associativity).

(** [new Date().getTime()] and [Date.now()] *)
Definition readClock (rt : Runtime) : M Z :=
  fun w => (Returned (clock rt (reads w)), mkWorld (S (reads w)) (draws w)).

(** [Math.random()] *)
Definition drawRandom (rt : Runtime) : M Q :=
  fun w => (Returned (random rt (draws w)), mkWorld (reads w) (S (draws w))).

(** [d.toISOString()] throws on an invalid date; its string is only logged *)
Definition toISOString (d : Date) : M unit :=
  match d with
  | InvalidDate => throw (RangeError "Invalid time value")
  | At _ => ret tt
  end.

(** ** Domain types ([src/types]) *)

Record User : Type := mkUser {
  id : string;
  daily_call_limit : Z;
  active_days : string;
  morning_start : string;
  evening_end : string;
  timezone : string
}.

Inductive BlockRepeatType : Type :=
| DAILY | WEEKDAYS | WEEKENDS | CUSTOM | ONCE.

Record BlockedTime : Type := mkBlockedTime {
  block_name : string;
  start_time : string;
  end_time : string;
  repeat_type : BlockRepeatType;
  days_of_week : option string;
  is_active : bool;
  priority : Z
}.

(** The timestamp columns are kept as the dates their strings denote
    ([new Date(s)]); an absent or empty column is [None]. *)
Record ScheduleHelper : Type := mkScheduleHelper {
  user_id : string;
  next_call_due : option Date;
  last_call_time : option Date;
  calls_today : Z;
  daily_reset_date : string;
  last_generated : Date;
  lock_version : Z
}.

Record CallGenerationOptions : Type := mkOptions {
  opt_minGapMinutes : option Q;
  opt_maxGapMinutes : option Q;
  opt_maxAttempts : option nat
}.

Definition noOptions : CallGenerationOptions := mkOptions None None None.

Record CallValidationResult : Type := mkValidation {
  isValid : bool;
  reason : option string;
  suggestedTime : option Date
}.

Record Metadata : Type := mkMetadata {
  attempts : nat;
  constraints : list string
}.

Record SchedulingResult : Type := mkResult {
  success : bool;
  nextCallTime : option Date;
  error : option string;
  metadata : option Metadata
}.

(** [APP_CONFIG] and [TIMING] *)
Definition MIN_CALL_GAP_MINUTES : Q := 45.
Definition MAX_CALL_GAP_MINUTES : Q := 360.
Definition RANDOMIZATION_WINDOW_MINUTES : Q := 30.

(** ** The scheduler ([src/lib/scheduler.ts]) *)

Record CallScheduler : Type := mkScheduler {
  user : User;
  minGapMinutes : Q;
  maxGapMinutes : Q;
  maxAttempts : nat
}.

(** the constructor *)
Definition createScheduler (u : User) (options : CallGenerationOptions)
  : CallScheduler :=
  mkScheduler u
    (JS.num_or (opt_minGapMinutes options) MIN_CALL_GAP_MINUTES)
    (JS.num_or (opt_maxGapMinutes options) MAX_CALL_GAP_MINUTES)
    (match opt_maxAttempts options with
     | Some (S n) => S n
     | _ => 50%nat
     end).

(** [const [hour, minute] = s.split(':').map(Number)] *)
Definition parseClock (s : string) : option Z * option Z :=
  match map JS.Number (JS.split ":" s) with
  | h :: m :: _ => (h, m)
  | h :: [] => (h, None)
  | [] => (None, None)
  end.

Record Slot : Type := mkSlot { hour : Z; minute : Z }.

Section Scheduler.

Variable rt : Runtime.
Variable this : CallScheduler.

Definition adjustToTimeWindow (time : Date) : Date :=
  let timeStr := toTimeString5 (tz rt) time in
  let '(h, m) := parseClock (morning_start (user this)) in
  if JS.str_lt timeStr (morning_start (user this)) then
    setHours (tz rt) time h m
  else if JS.str_gt timeStr (evening_end (user this)) then
    setHours (tz rt) (addDays time 1) h m
  else time.

(** the [for (let i = 1; i <= 7; i++)] loop of [getNextActiveDay] *)
Fixpoint scanActiveDays (n : nat) (activeDays : list string) (adjusted : Date)
  : option Date :=
  match n with
  | O => None
  | S n' =>
      let adjusted := addDays adjusted 1 in
      let found :=
        match dayNameOf (tz rt) adjusted with
        | Some dayName => JS.arr_includes activeDays dayName
        | None => false
        end in
      if found then
        let '(h, m) := parseClock (morning_start (user this)) in
        Some (setHours (tz rt) adjusted h m)
      else scanActiveDays n' activeDays adjusted
  end.

Definition getNextActiveDay (time : Date) : Date :=
  let activeDays := JS.split "," (active_days (user this)) in
  match scanActiveDays 7 activeDays time with
  | Some d => d
  | None => plusMs time (inject_Z (24 * 60 * 60 * 1000))
  end.

Definition isTimeInBlockedPeriod (time : Date) (block : BlockedTime) : bool :=
  let timeStr := toTimeString5 (tz rt) time in
  let dayName := weekdayShort (tz rt) time in
  let dayApplies :=
    match repeat_type block with
    | DAILY => true
    | WEEKDAYS => negb (JS.arr_includes ["Sat"; "Sun"] dayName)
    | WEEKENDS => JS.arr_includes ["Sat"; "Sun"] dayName
    | CUSTOM =>
        match days_of_week block with
        | Some days => JS.includes days dayName
        | None => false
        end
    | ONCE => true
    end in
  if dayApplies
  then JS.str_ge timeStr (start_time block) && JS.str_le timeStr (end_time block)
  else false.

Definition findNextAvailableTimeAfterBlock (time : Date) (block : BlockedTime)
  : Date :=
  let '(endHour, endMinute) := parseClock (end_time block) in
  let blockEnd := setHours (tz rt) time endHour endMinute in
  let blockEnd := addToMinutes (tz rt) blockEnd 15 in
  adjustToTimeWindow blockEnd.

Definition blockReason (block : BlockedTime) : string :=
  "blocked_" ++ JS.replace_spaces false (JS.toLowerCase (block_name block)).

Definition invalid (why : string) (suggestion : Date) : CallValidationResult :=
  mkValidation false (Some why) (Some suggestion).

(** the daily-window test of [validateCallTime] *)
Definition outsideWindow (time : Date) : bool :=
  let timeStr := toTimeString5 (tz rt) time in
  JS.str_lt timeStr (morning_start (user this))
  || JS.str_gt timeStr (evening_end (user this)).

(** the active-day test *)
Definition inactiveDay (time : Date) : bool :=
  let dayName := weekdayShort (tz rt) time in
  negb (JS.includes (active_days (user this)) dayName).

(** the minimum-gap test: the time it suggests when the gap since the last
    call is too short; a comparison with [NaN] is false *)
Definition minGapSuggestion (time : Date) (scheduleHelper : ScheduleHelper)
  : option Date :=
  match last_call_time scheduleHelper, time with
  | Some (At lastCall), At t =>
      if JS.Qlt_bool (inject_Z (t - lastCall) / 60000) (minGapMinutes this)
      then Some (plusMs (At lastCall) (minGapMinutes this * 60000))
      else None
  | _, _ => None
  end.

(** the loop over [blockedTimes.filter(b => b.is_active)]: the first
    interval of the array that blocks the time *)
Definition blockingInterval (time : Date) (blockedTimes : list BlockedTime)
  : option BlockedTime :=
  find (isTimeInBlockedPeriod time) (filter is_active blockedTimes).

(** the body of the [try] block of [validateCallTime] on an array of the
    declared type, where the filter raises nothing *)
Definition validateChecks (time : Date) (blockedTimes : list BlockedTime)
  (scheduleHelper : ScheduleHelper) : M CallValidationResult :=
  if outsideWindow time
  then ret (invalid "outside_daily_window" (adjustToTimeWindow time))
  else
  if inactiveDay time
  then ret (invalid "inactive_day" (getNextActiveDay time))
  else
  match minGapSuggestion time scheduleHelper with
  | Some suggestion => ret (invalid "min_gap_violation" suggestion)
  | None =>
  match blockingInterval time blockedTimes with
  | Some block =>
      ret (invalid (blockReason block)
             (findNextAvailableTimeAfterBlock time block))
  | None =>
      now <- readClock rt ;;
      if date_le time (At now)
      then ret (invalid "past_time"
                  (plusMs (At now) (minGapMinutes this * 60000)))
      else ret (mkValidation true None None)
  end
  end.

Definition validationError : CallValidationResult :=
  mkValidation false (Some "validation_error") None.

(** [try { body } catch (error) { logger.error(.., time.toISOString());
    return { isValid: false, reason: 'validation_error' } }] *)
Definition guardValidation (body : M CallValidationResult) (time : Date)
  : M CallValidationResult :=
  try_catch body (fun _ => _ <- toISOString time ;; ret validationError).

(** [blockedTimes.filter(b => b.is_active)] on the array as the run time
    holds it: whatever the declared type says, an element may be [null]
    ([None]), and reading [is_active] of it raises a [TypeError] *)
Fixpoint activeRows (held : list (option BlockedTime))
  : M (list BlockedTime) :=
  match held with
  | [] => ret []
  | None :: _ =>
      throw (TypeError "Cannot read properties of null (reading 'is_active')")
  | Some block :: rest =>
      rows <- activeRows rest ;;
      ret (if is_active block then block :: rows else rows)
  end.

(** the body of the [try] block of [validateCallTime], on the array as the
    run time holds it; on an array of the declared type these are the
    checks [validateChecks] *)
Definition validateChecksRaw (time : Date) (held : list (option BlockedTime))
  (scheduleHelper : ScheduleHelper) : M CallValidationResult :=
  if outsideWindow time
  then ret (invalid "outside_daily_window" (adjustToTimeWindow time))
  else
  if inactiveDay time
  then ret (invalid "inactive_day" (getNextActiveDay time))
  else
  match minGapSuggestion time scheduleHelper with
  | Some suggestion => ret (invalid "min_gap_violation" suggestion)
  | None =>
      rows <- activeRows held ;;
      match find (isTimeInBlockedPeriod time) rows with
      | Some block =>
          ret (invalid (blockReason block)
                 (findNextAvailableTimeAfterBlock time block))
      | None =>
          now <- readClock rt ;;
          if date_le time (At now)
          then ret (invalid "past_time"
                      (plusMs (At now) (minGapMinutes this * 60000)))
          else ret (mkValidation true None None)
      end
  end.

(** [validateCallTime] with its [try] and [catch], on the array as the run
    time holds it *)
Definition validateCallTimeRaw (time : Date)
  (held : list (option BlockedTime)) (scheduleHelper : ScheduleHelper)
  : M CallValidationResult :=
  guardValidation (validateChecksRaw time held scheduleHelper) time.

(** [validateCallTime] on an array of the declared type [BlockedTime[]] *)
Definition validateCallTime (time : Date) (blockedTimes : list BlockedTime)
  (scheduleHelper : ScheduleHelper) : M CallValidationResult :=
  validateCallTimeRaw time (map Some blockedTimes) scheduleHelper.

End Scheduler.

Section Strategies.

Variable rt : Runtime.
Variable this : CallScheduler.

Definition found (time : Date) (n : nat) (cs : list string) : SchedulingResult :=
  mkResult true (Some time) None (Some (mkMetadata n cs)).

Definition notFound (why : string) (n : nat) (cs : list string)
  : SchedulingResult :=
  mkResult false None (Some why) (Some (mkMetadata n cs)).

(** [if (v.reason && !cs.includes(v.reason)) cs.push(v.reason)] *)
Definition noteReason (cs : list string) (v : CallValidationResult)
  : list string :=
  match reason v with
  | Some r =>
      if negb (String.eqb r "") && negb (JS.arr_includes cs r)
      then cs ++ [r] else cs
  | None => cs
  end.

(** [Math.floor(Math.random() * (hi - lo) + lo)] *)
Definition randomBetween (lo hi : Q) : M Z :=
  r <- drawRandom rt ;;
  ret (Qfloor (r * (hi - lo) + lo)).

Definition minutesAfter (now : Z) (randomMinutes : Z) : Date :=
  At (now + randomMinutes * 60000).

(** *** Strategy 1: basic randomization *)

(** the [while (attempts < this.maxAttempts)] loop; [fuel] is the number of
    iterations left *)
Fixpoint basicLoop (fuel : nat) (now : Z) (blockedTimes : list BlockedTime)
  (scheduleHelper : ScheduleHelper) (attempts : nat) (cs : list string)
  : M SchedulingResult :=
  match fuel with
  | O => ret (notFound "Max attempts reached with basic randomization"
                attempts cs)
  | S fuel' =>
      let attempts := S attempts in
      randomMinutes <- randomBetween (minGapMinutes this) (maxGapMinutes this) ;;
      let proposedTime := minutesAfter now randomMinutes in
      validation <- validateCallTime rt this proposedTime blockedTimes
                      scheduleHelper ;;
      if isValid validation then ret (found proposedTime attempts cs)
      else
        let cs := noteReason cs validation in
        match suggestedTime validation with
        | Some suggested =>
            suggestedValidation <- validateCallTime rt this suggested
                                     blockedTimes scheduleHelper ;;
            if isValid suggestedValidation
            then ret (found suggested attempts cs)
            else basicLoop fuel' now blockedTimes scheduleHelper attempts cs
        | None => basicLoop fuel' now blockedTimes scheduleHelper attempts cs
        end
  end.

Definition findTimeWithBasicRandomization (blockedTimes : list BlockedTime)
  (scheduleHelper : ScheduleHelper) : M SchedulingResult :=
  now <- readClock rt ;;
  basicLoop (maxAttempts this) now blockedTimes scheduleHelper 0 [].

(** *** Strategy 2: preferred time slots *)

Definition getTimeSlotScore (slot : Slot) : Z :=
  let score := 0 in
  let score :=
    if (hour slot >=? 10) && (hour slot <=? 16) then score + 3 else score in
  let score :=
    if (hour slot >=? 19) && (hour slot <=? 21) then score + 4 else score in
  let score :=
    if (minute slot =? 0) || (minute slot =? 30) then score + 1 else score in
  let score :=
    if (hour slot <? 9) || (hour slot >? 22) then score - 2 else score in
  score.

(** [slots.sort((a, b) => score(b) - score(a))]: the sort is stable, a slot
    goes behind the slots that score at least as much *)
Fixpoint insertSlot (x : Slot) (sorted : list Slot) : list Slot :=
  match sorted with
  | [] => [x]
  | y :: rest =>
      if getTimeSlotScore y <? getTimeSlotScore x then x :: y :: rest
      else y :: insertSlot x rest
  end.

Definition sortSlots (slots : list Slot) : list Slot :=
  fold_left (fun sorted x => insertSlot x sorted) slots [].

Definition optimalHours : list Z := [10; 11; 14; 16; 19; 20].

(** a comparison with [NaN] is false *)
Definition hourInWindow (h : Z) (startHour endHour : option Z) : bool :=
  match startHour, endHour with
  | Some s, Some e => (h >=? s) && (h <=? e)
  | _, _ => false
  end.

Fixpoint collectSlots (hours : list Z) (startHour endHour : option Z)
  : M (list Slot) :=
  match hours with
  | [] => ret []
  | h :: hours' =>
      if hourInWindow h startHour endHour then
        r <- drawRandom rt ;;
        rest <- collectSlots hours' startHour endHour ;;
        ret (mkSlot h (Qfloor (r * 60)) :: rest)
      else collectSlots hours' startHour endHour
  end.

Definition getPreferredTimeSlots : M (list Slot) :=
  let startHour := fst (parseClock (morning_start (user this))) in
  let endHour := fst (parseClock (evening_end (user this))) in
  slots <- collectSlots optimalHours startHour endHour ;;
  ret (sortSlots slots).

Definition getNextOccurrenceOfTimeSlot (slot : Slot) : M Date :=
  now <- readClock rt ;;
  let proposedTime :=
    setHours (tz rt) (At now) (Some (hour slot)) (Some (minute slot)) in
  let proposedTime :=
    if date_le proposedTime (At now) then addDays proposedTime 1
    else proposedTime in
  r <- drawRandom rt ;;
  let randomOffset := ((r - (1 # 2)) * RANDOMIZATION_WINDOW_MINUTES)%Q in
  ret (addToMinutes (tz rt) proposedTime randomOffset).

(** the [for (const slot of preferredSlots)] loop *)
Fixpoint patternLoop (slots : list Slot) (blockedTimes : list BlockedTime)
  (scheduleHelper : ScheduleHelper) (attempts : nat) (cs : list string)
  : M SchedulingResult :=
  match slots with
  | [] => ret (notFound "No valid time slots found in preferred patterns"
                 attempts cs)
  | slot :: slots' =>
      let attempts := S attempts in
      proposedTime <- getNextOccurrenceOfTimeSlot slot ;;
      validation <- validateCallTime rt this proposedTime blockedTimes
                      scheduleHelper ;;
      if isValid validation then ret (found proposedTime attempts cs)
      else patternLoop slots' blockedTimes scheduleHelper attempts
             (noteReason cs validation)
  end.

Definition findTimeWithPatternOptimization (blockedTimes : list BlockedTime)
  (scheduleHelper : ScheduleHelper) : M SchedulingResult :=
  preferredSlots <- getPreferredTimeSlots ;;
  patternLoop preferredSlots blockedTimes scheduleHelper 0 [].

(** *** Strategy 3: constraint relaxation *)

Record Relaxation : Type := mkRelaxation {
  minGap : option Q;
  ignoreLowPriorityBlocks : bool;
  description : string
}.

Definition relaxationStrategies : list Relaxation :=
  [ mkRelaxation (Some (minGapMinutes this * (75 # 100))%Q) false
      "reduced_min_gap";
    mkRelaxation (Some (minGapMinutes this * (5 # 10))%Q) false "minimal_gap";
    mkRelaxation None true "ignore_low_priority_blocks" ].

Definition filteredBlocks (strategy : Relaxation)
  (blockedTimes : list BlockedTime) : list BlockedTime :=
  if ignoreLowPriorityBlocks strategy
  then filter (fun block => priority block >? 0) blockedTimes
  else blockedTimes.

Definition tempMinGap (strategy : Relaxation) : Q :=
  JS.num_or (minGap strategy) (minGapMinutes this).

(** the scheduler built for one relaxed validation *)
Definition relaxedScheduler (strategy : Relaxation) : CallScheduler :=
  createScheduler (user this)
    (mkOptions (Some (tempMinGap strategy)) None None).

(** The inner [while] loop of one relaxation.  It ends with a result, or
    hands on the counters: the attempts made so far by the whole strategy
    and the reasons met. *)
Fixpoint relaxLoop (fuel : nat) (strategy : Relaxation)
  (blockedTimes : list BlockedTime) (scheduleHelper : ScheduleHelper)
  (totalAttempts : nat) (cs : list string)
  : M (SchedulingResult + nat * list string) :=
  match fuel with
  | O => ret (inr (totalAttempts, cs))
  | S fuel' =>
      let totalAttempts := S totalAttempts in
      randomMinutes <- randomBetween (tempMinGap strategy)
                         (maxGapMinutes this) ;;
      now <- readClock rt ;;
      let proposedTime := minutesAfter now randomMinutes in
      validation <- validateCallTime rt (relaxedScheduler strategy)
                      proposedTime (filteredBlocks strategy blockedTimes)
                      scheduleHelper ;;
      if isValid validation
      then ret (inl (found proposedTime totalAttempts
                       (cs ++ [description strategy])))
      else relaxLoop fuel' strategy blockedTimes scheduleHelper totalAttempts
             (noteReason cs validation)
  end.

(** the [for (const strategy of relaxationStrategies)] loop; [count] is
    [relaxationStrategies.length] *)
Fixpoint relaxAll (strategies : list Relaxation) (count : nat)
  (blockedTimes : list BlockedTime) (scheduleHelper : ScheduleHelper)
  (totalAttempts : nat) (cs : list string) : M SchedulingResult :=
  match strategies with
  | [] => ret (notFound "All constraint relaxation strategies failed"
                 totalAttempts cs)
  | strategy :: rest =>
      r <- relaxLoop (Nat.div (maxAttempts this) count) strategy blockedTimes
             scheduleHelper totalAttempts cs ;;
      match r with
      | inl result => ret result
      | inr (totalAttempts, cs) =>
          relaxAll rest count blockedTimes scheduleHelper totalAttempts cs
      end
  end.

Definition findTimeWithConstraintRelaxation (blockedTimes : list BlockedTime)
  (scheduleHelper : ScheduleHelper) : M SchedulingResult :=
  relaxAll relaxationStrategies (List.length relaxationStrategies)
    blockedTimes scheduleHelper 0 [].

(** *** The orchestrator *)

Definition getNextDayFirstCall : M Date :=
  now <- readClock rt ;;
  let tomorrow := addDays (At now) 1 in
  let '(hours, minutes) := parseClock (morning_start (user this)) in
  let tomorrow := setHours (tz rt) tomorrow hours minutes in
  r <- drawRandom rt ;;
  let randomMinutes := Qfloor (r * 60) in
  ret (addToMinutes (tz rt) tomorrow (inject_Z randomMinutes)).

Definition attemptsOf (result : SchedulingResult) : nat :=
  match metadata result with
  | Some md => attempts md
  | None => 0%nat
  end.

Definition constraintsOf (result : SchedulingResult) : list string :=
  match metadata result with
  | Some md => constraints md
  | None => []
  end.

(** [{ ...result, metadata: { ...result.metadata, attempts } }] *)
Definition withAttempts (result : SchedulingResult) (n : nat)
  : SchedulingResult :=
  mkResult (success result) (nextCallTime result) (error result)
    (Some (mkMetadata n (constraintsOf result))).

(** the [for (const strategy of strategies)] loop *)
Fixpoint runStrategies (strategies : list (M SchedulingResult))
  (totalAttempts : nat) (allConstraints : list string) : M SchedulingResult :=
  match strategies with
  | [] => ret (notFound "Unable to find valid call time within constraints"
                 totalAttempts allConstraints)
  | strategy :: rest =>
      result <- strategy ;;
      let totalAttempts := (totalAttempts + attemptsOf result)%nat in
      match success result, nextCallTime result with
      | true, Some t =>
          _ <- toISOString t ;;
          ret (withAttempts result totalAttempts)
      | _, _ =>
          runStrategies rest totalAttempts
            (allConstraints ++ constraintsOf result)
      end
  end.

Definition strategySearch (blockedTimes : list BlockedTime)
  (scheduleHelper : ScheduleHelper) : M SchedulingResult :=
  runStrategies
    [ findTimeWithBasicRandomization blockedTimes scheduleHelper;
      findTimeWithPatternOptimization blockedTimes scheduleHelper;
      findTimeWithConstraintRelaxation blockedTimes scheduleHelper ]
    0 [].

Definition dailyLimitResult (nextDayTime : Date) : SchedulingResult :=
  found nextDayTime 1 ["daily_limit_reached"].

Definition generateNextCallTime (blockedTimes : list BlockedTime)
  (scheduleHelper : ScheduleHelper) : M SchedulingResult :=
  try_catch
    (if calls_today scheduleHelper >=? daily_call_limit (user this) then
       nextDayTime <- getNextDayFirstCall ;;
       _ <- toISOString nextDayTime ;;
       ret (dailyLimitResult nextDayTime)
     else strategySearch blockedTimes scheduleHelper)
    (fun _ => throw (AppError "Failed to generate call time"
                       "SCHEDULING_ERROR" 500)).

End Strategies.

(** ** The schedule-helper table ([src/lib/supabase.ts]) *)

(** [Partial<ScheduleHelper>]: the columns an update sets; for a nullable
    column [Some None] writes [null]. *)
Record ScheduleUpdates : Type := mkUpdates {
  set_next_call_due : option (option Date);
  set_last_call_time : option (option Date);
  set_calls_today : option Z;
  set_daily_reset_date : option string;
  set_last_generated : option Date
}.

Definition noUpdates : ScheduleUpdates := mkUpdates None None None None None.

(** the rows of [schedule_helper] *)
Definition Table : Type := list ScheduleHelper.

Definition DB (A : Type) : Type := Table -> Outcome A * Table.

Definition orKeep {A : Type} (new : option A) (old : A) : A :=
  match new with
  | Some a => a
  | None => old
  end.

(** the row after [SET]: a key whose value is [undefined] is not sent *)
Definition applyUpdates (updates : ScheduleUpdates) (newVersion : option Z)
  (row : ScheduleHelper) : ScheduleHelper :=
  mkScheduleHelper
    (user_id row)
    (orKeep (set_next_call_due updates) (next_call_due row))
    (orKeep (set_last_call_time updates) (last_call_time row))
    (orKeep (set_calls_today updates) (calls_today row))
    (orKeep (set_daily_reset_date updates) (daily_reset_date row))
    (orKeep (set_last_generated updates) (last_generated row))
    (orKeep newVersion (lock_version row)).

(** the filters [.eq('user_id', userId)] and, when a version is expected,
    [.eq('lock_version', expectedLockVersion)] *)
Definition rowSelected (userId : string) (expectedLockVersion : option Z)
  (row : ScheduleHelper) : bool :=
  String.eqb (user_id row) userId &&
  match expectedLockVersion with
  | Some v => lock_version row =? v
  | None => true
  end.

(** [expectedLockVersion ? expectedLockVersion + 1 : undefined] *)
Definition nextVersion (expectedLockVersion : option Z) : option Z :=
  match expectedLockVersion with
  | Some v => if v =? 0 then None else Some (v + 1)
  | None => None
  end.

Definition updateRow (userId : string) (updates : ScheduleUpdates)
  (expectedLockVersion : option Z) (row : ScheduleHelper) : ScheduleHelper :=
  if rowSelected userId expectedLockVersion row
  then applyUpdates updates (nextVersion expectedLockVersion) row
  else row.

Definition concurrentModificationMessage : string :=
  "Schedule was modified by another process. Please refresh and try again.".

(** One run of the operation that [updateScheduleHelper] hands to
    [withRetry]: the update, then [.select().single()], which answers the
    error [PGRST116] unless exactly one row was updated; the store rolls a
    statement back when its singular response fails. *)
Definition updateScheduleHelperOnce (userId : string)
  (updates : ScheduleUpdates) (expectedLockVersion : option Z)
  : DB ScheduleHelper :=
  fun table =>
    let table' := map (updateRow userId updates expectedLockVersion) table in
    match
      map (applyUpdates updates (nextVersion expectedLockVersion))
        (filter (rowSelected userId expectedLockVersion) table)
    with
    | [data] => (Returned data, table')
    | _ =>
        match expectedLockVersion with
        | Some _ =>
            (Thrown (ValidationError concurrentModificationMessage), table)
        | None =>
            (Thrown (ValidationError "Invalid request parameters"), table)
        end
    end.

Definition MAX_RETRIES : nat := 3.

Definition showNat (n : nat) : string :=
  DecimalString.NilZero.string_of_uint (Nat.to_uint n).

(** [withRetry]: the operation is run again after every failure, whatever
    the error; after the last failure a [NetworkError] is thrown that
    quotes the last message.  [left] counts the runs left. *)
Fixpoint retryLoop {A : Type} (left : nat) (maxRetries : nat)
  (operation : DB A) (lastError : string) : DB A :=
  match left with
  | O =>
      fun table =>
        (Thrown (NetworkError
                   ("Database operation failed after " ++ showNat maxRetries
                    ++ " attempts: " ++ lastError)), table)
  | S left' =>
      fun table =>
        match operation table with
        | (Returned a, table') => (Returned a, table')
        | (Thrown e, table') =>
            retryLoop left' maxRetries operation (err_message e) table'
        end
  end.

Definition withRetry {A : Type} (operation : DB A) : DB A :=
  retryLoop MAX_RETRIES MAX_RETRIES operation "".

Definition updateScheduleHelper (userId : string) (updates : ScheduleUpdates)
  (expectedLockVersion : option Z) : DB ScheduleHelper :=
  withRetry (updateScheduleHelperOnce userId updates expectedLockVersion).

(** ** The hook ([src/hooks/useScheduler.ts]) *)

(** the daily reset of [loadInitialData]; [now] is the clock read that
    gives [today] *)
Definition dailyReset (now : Z) (u : User) (scheduleHelper : ScheduleHelper)
  : DB ScheduleHelper :=
  let today := isoDate now in
  if negb (String.eqb (daily_reset_date scheduleHelper) today) then
    updateScheduleHelper (id u)
      (mkUpdates None None (Some 0) (Some today) None)
      (Some (lock_version scheduleHelper))
  else fun table => (Returned scheduleHelper, table).

(** the write of [generateNextCall] after a successful generation *)
Definition commitNextCall (now : Z) (u : User) (scheduleHelper : ScheduleHelper)
  (nextCall : Date) : DB ScheduleHelper :=
  updateScheduleHelper (id u)
    (mkUpdates (Some (Some nextCall)) None None None (Some (At now)))
    (Some (lock_version scheduleHelper)).

(** the write of [markCallAttempted]; [called] tells that the status is
    ['called'] and [callsToday] is the count the hook holds *)
Definition recordAttempt (now : Z) (u : User) (scheduleHelper : ScheduleHelper)
  (called : bool) (callsToday : Z) : DB ScheduleHelper :=
  updateScheduleHelper (id u)
    (mkUpdates (Some None) (Some (Some (At now)))
       (if called then Some (callsToday + 1) else None) None None)
    (Some (lock_version scheduleHelper)).

(** ** Notions the specification speaks of *)

(** the clock string [HH:MM] of an hour and a minute *)
Definition clock5 (h m : Z) : string := JS.pad2 h ++ ":" ++ JS.pad2 m.

(** local time of day of a time value, in minutes after midnight *)
Definition minuteOfDay (tz : Z) (ms : Z) : Z :=
  60 * hoursOf tz ms + minutesOf tz ms.

(** an hour and a minute a clock string can show *)
Definition clockField (h m : Z) : Prop := 0 <= h < 24 /\ 0 <= m < 60.

(** a clock string as the profile and the intervals hold it: [HH:MM], as
    the forms and the tests supply it, or [HH:MM:SS], as a [TIME] column
    of the store answers it *)
Definition clockText (h m : Z) (seconds : option Z) : string :=
  match seconds with
  | None => clock5 h m
  | Some s => clock5 h m ++ ":" ++ JS.pad2 s
  end.

(** the first minute of the day whose text [HH:MM] is not below a clock
    string: the minute of the string, or the minute after it when the
    string carries seconds, since a proper prefix is the smaller string *)
Definition firstMinute (h m : Z) (seconds : option Z) : Z :=
  match seconds with
  | None => 60 * h + m
  | Some _ => 60 * h + m + 1
  end.

(** local time of day of a time value, in milliseconds after midnight *)
Definition msOfDay (tz : Z) (ms : Z) : Z := localTime tz ms mod msPerDay.

(** the time of day [x], in milliseconds, lies from the start of the
    minute [first] to the end of the minute [last] *)
Definition inMinutes (first last x : Z) : bool :=
  (first * msPerMinute <=? x) && (x <? (last + 1) * msPerMinute).

(** a day list as the profile forms store it: day names joined by commas *)
Definition dayList (days : list string) : string := String.concat "," days.

Definition dayNamesOnly (days : list string) : Prop :=
  forall d, In d days -> In d dayNames.

(** Following the specification (section 4.2): the day-match rule of a
    repeat kind, on the configured day set and the weekday of the
    candidate. *)
Definition dayMatchRule (kind : BlockRepeatType) (daySet : list string)
  (weekday : string) : bool :=
  match kind with
  | DAILY => true
  | WEEKDAYS => JS.arr_includes ["Mon"; "Tue"; "Wed"; "Thu"; "Fri"] weekday
  | WEEKENDS => JS.arr_includes ["Sat"; "Sun"] weekday
  | CUSTOM => JS.arr_includes daySet weekday
  | ONCE => true
  end.

(** Following the specification: the time of day lies in the closed range
    between two minutes of the day. *)
Definition inClosedRange (lo hi x : Z) : bool := (lo <=? x) && (x <=? hi).

(** the result of a validation that found nothing wrong *)
Definition accepted : CallValidationResult := mkValidation true None None.

(** [time] passed a validation run for the profile [u], under some gap
    setting and some list of blocked intervals *)
Definition Validated (rt : Runtime) (u : User) (time : Date) : Prop :=
  exists (sch : CallScheduler) (blocks : list BlockedTime)
         (helper : ScheduleHelper) (w w' : World),
    user sch = u /\
    validateCallTime rt sch time blocks helper w = (Returned accepted, w').

(** a scheduling result that carries the accepted time [time] *)
Definition Succeeds (r : SchedulingResult) (time : Date) : Prop :=
  success r = true /\ nextCallTime r = Some time.

(** [time] passed the validation that the relaxation [strategy] runs: the
    scheduler with the relaxed gap, on the intervals the relaxation keeps *)
Definition RelaxedAccept (rt : Runtime) (this : CallScheduler)
  (strategy : Relaxation) (blockedTimes : list BlockedTime)
  (scheduleHelper : ScheduleHelper) (time : Date) : Prop :=
  exists w w' : World,
    validateCallTime rt (relaxedScheduler this strategy) time
      (filteredBlocks strategy blockedTimes) scheduleHelper w
    = (Returned accepted, w').

(** the share of the attempt budget that each relaxation gets *)
Definition relaxationShare (this : CallScheduler) : nat :=
  Nat.div (maxAttempts this) (List.length (relaxationStrategies this)).

(** the order in which [getBlockedTimes] answers: by priority, descending *)
Definition priorityDescending (blockedTimes : list BlockedTime) : Prop :=
  StronglySorted (fun a b => priority b <= priority a) blockedTimes.

(** the rows of the table that belong to a user *)
Definition rowsOf (userId : string) (table : Table) : list ScheduleHelper :=
  filter (fun row => String.eqb (user_id row) userId) table.

(** a schedule state with another [daily_reset_date] *)
Definition withResetDate (scheduleHelper : ScheduleHelper) (date : string)
  : ScheduleHelper :=
  mkScheduleHelper (user_id scheduleHelper) (next_call_due scheduleHelper)
    (last_call_time scheduleHelper) (calls_today scheduleHelper) date
    (last_generated scheduleHelper) (lock_version scheduleHelper).

(** the error that [updateScheduleHelper] ends with when the expected version
    is not the stored one: the message of the concurrent modification,
    quoted by the [NetworkError] of [withRetry] *)
Definition concurrentModificationError : Error :=
  NetworkError ("Database operation failed after 3 attempts: "
                ++ concurrentModificationMessage).

(** the [catch] of [generateNextCallTime] *)
Definition schedulingError : Error :=
  AppError "Failed to generate call time" "SCHEDULING_ERROR" 500.

(** [time] passed a validation of the scheduler [this] itself, on the list
    [blockedTimes] *)
Definition DirectAccept (rt : Runtime) (this : CallScheduler)
  (blockedTimes : list BlockedTime) (scheduleHelper : ScheduleHelper)
  (time : Date) : Prop :=
  exists w w' : World,
    validateCallTime rt this time blockedTimes scheduleHelper w
    = (Returned accepted, w').

(** the message of a generation that found nothing *)
Definition nothingFound : string :=
  "Unable to find valid call time within constraints".

(** [time] passed one of the validations that the strategy search runs:
    the scheduler's own, or the validation of one of its relaxations *)
Definition AnyAccept (rt : Runtime) (this : CallScheduler)
  (blockedTimes : list BlockedTime) (scheduleHelper : ScheduleHelper)
  (time : Date) : Prop :=
  DirectAccept rt this blockedTimes scheduleHelper time \/
  exists s, In s (relaxationStrategies this) /\
            RelaxedAccept rt this s blockedTimes scheduleHelper time.

(** ** The schedule-helper service with its cache ([src/lib/supabase.ts]) *)

Module Service.

(** an entry of the [cache] map: [{ data, timestamp, ttl }]; only the
    entries that hold schedule helpers are modelled *)
Record CacheEntry : Type := mkEntry {
  data : ScheduleHelper;
  timestamp : Z;
  ttl : Z
}.

(** the [Map] from keys to entries, in insertion order *)
Definition Cache : Type := list (string * CacheEntry).

Fixpoint mapGet (key : string) (m : Cache) : option CacheEntry :=
  match m with
  | [] => None
  | (k, e) :: rest => if String.eqb k key then Some e else mapGet key rest
  end.

Definition mapDelete (key : string) (m : Cache) : Cache :=
  filter (fun kv => negb (String.eqb (fst kv) key)) m.

(** [m.set(key, e)]: a present key keeps its place *)
Fixpoint mapSet (key : string) (e : CacheEntry) (m : Cache) : Cache :=
  match m with
  | [] => [(key, e)]
  | (k, old) :: rest =>
      if String.eqb k key then (k, e) :: rest
      else (k, old) :: mapSet key e rest
  end.

(** the service and its store: the rows of [schedule_helper], the ids of
    the rows of [users] (the rows a helper may refer to), the cache, and
    the clock reads and random draws made so far; the caller is taken to
    be allowed by the row policies, and ids to be UUIDs *)
Record State : Type := mkState {
  table : Table;
  users : list string;
  cache : Cache;
  world : World
}.

Definition Svc (A : Type) : Type := State -> Outcome A * State.

Definition CACHE_TTL : Z := 300000.

Definition quote : string := String "034" EmptyString.

(** [JSON.stringify(s)] on a string that needs no escape *)
Definition jsonString (s : string) : string := quote ++ s ++ quote.

(** [getCacheKey('schedule_helper', { userId })]:
    [`${table}_${JSON.stringify(params)}`] *)
Definition helperCacheKey (userId : string) : string :=
  "schedule_helper" ++ "_" ++
  ("{" ++ jsonString "userId" ++ ":" ++ jsonString userId ++ "}").

Section WithRuntime.

Variable rt : Runtime.

(** [Date.now()] and [new Date()] inside the service *)
Definition now : Svc Z :=
  fun st =>
    (Returned (clock rt (reads (world st))),
     mkState (table st) (users st) (cache st)
       (mkWorld (S (reads (world st))) (draws (world st)))).

Definition getFromCache (key : string) : Svc (option ScheduleHelper) :=
  fun st =>
    match mapGet key (cache st) with
    | None => (Returned None, st)
    | Some cached =>
        match now st with
        | (Returned t, st') =>
            if t - timestamp cached >? ttl cached
            then (Returned None,
                  mkState (table st') (users st')
                    (mapDelete key (cache st')) (world st'))
            else (Returned (Some (data cached)), st')
        | (Thrown e, st') => (Thrown e, st')
        end
    end.

Definition setCache (key : string) (d : ScheduleHelper) : Svc unit :=
  fun st =>
    match now st with
    | (Returned t, st') =>
        (Returned tt,
         mkState (table st') (users st')
           (mapSet key (mkEntry d t CACHE_TTL) (cache st')) (world st'))
    | (Thrown e, st') => (Thrown e, st')
    end.

(** [invalidateCache(pattern)]: every key that includes the pattern goes *)
Definition invalidateCache (pattern : string) (m : Cache) : Cache :=
  filter (fun kv => negb (JS.includes (fst kv) pattern)) m.

(** the [Math.random()] of the backoff delay *)
Definition backoff (st : State) : State :=
  mkState (table st) (users st) (cache st)
    (mkWorld (reads (world st)) (S (draws (world st)))).

(** [withRetry], for the operations of the service: a failed run that is
    not the last one is followed by the backoff delay *)
Fixpoint retryLoop {A : Type} (left : nat) (maxRetries : nat)
  (operation : Svc A) (lastError : string) : Svc A :=
  match left with
  | O =>
      fun st =>
        (Thrown (NetworkError
                   ("Database operation failed after " ++ showNat maxRetries
                    ++ " attempts: " ++ lastError)), st)
  | S left' =>
      fun st =>
        match operation st with
        | (Returned a, st') => (Returned a, st')
        | (Thrown e, st') =>
            retryLoop left' maxRetries operation (err_message e)
              (match left' with O => st' | S _ => backoff st' end)
        end
  end.

Definition withRetry {A : Type} (operation : Svc A) : Svc A :=
  retryLoop MAX_RETRIES MAX_RETRIES operation "".

(** the [insert] of [createScheduleHelper]: the row must refer to a user
    (error 23503 otherwise) and be the only one of that user (error 23505
    otherwise); [transformError] turns both into a [ValidationError] *)
Definition insertHelper (userId : string) : Svc ScheduleHelper :=
  fun st =>
    match now st with
    | (Returned t1, st1) =>
        match now st1 with
        | (Returned t2, st2) =>
            let row :=
              mkScheduleHelper userId None None 0 (isoDate t1) (At t2) 1 in
            if negb (JS.arr_includes (users st2) userId) then
              (Thrown (ValidationError "Referenced record not found"), st2)
            else if existsb (fun r => String.eqb (user_id r) userId)
                      (table st2) then
              (Thrown (ValidationError "Duplicate entry detected"), st2)
            else
              (Returned row,
               mkState ((table st2 ++ [row])%list) (users st2) (cache st2)
                 (world st2))
        | (Thrown e, st2) => (Thrown e, st2)
        end
    | (Thrown e, st1) => (Thrown e, st1)
    end.

Definition createScheduleHelper (userId : string) : Svc ScheduleHelper :=
  withRetry (insertHelper userId).

(** the operation that [getScheduleHelper] retries: the select with
    [.single()], the creation when no single row answers, else the
    caching of the row *)
Definition selectHelper (userId : string) : Svc ScheduleHelper :=
  fun st =>
    match filter (fun r => String.eqb (user_id r) userId) (table st) with
    | [row] =>
        match setCache (helperCacheKey userId) row st with
        | (Returned _, st') => (Returned row, st')
        | (Thrown e, st') => (Thrown e, st')
        end
    | _ => createScheduleHelper userId st
    end.

Definition getScheduleHelper (userId : string) : Svc ScheduleHelper :=
  fun st =>
    match getFromCache (helperCacheKey userId) st with
    | (Returned (Some cached), st') => (Returned cached, st')
    | (Returned None, st') => withRetry (selectHelper userId) st'
    | (Thrown e, st') => (Thrown e, st')
    end.

(** the operation that [updateScheduleHelper] retries: the clock read of
    [updated_at], the update of the row, then on success
    [invalidateCache(`schedule_helper_${userId}`)] *)
Definition updateOnce (userId : string) (updates : ScheduleUpdates)
  (expectedLockVersion : option Z) : Svc ScheduleHelper :=
  fun st0 =>
    match now st0 with
    | (Returned _, st) =>
        match updateScheduleHelperOnce userId updates expectedLockVersion
                (table st) with
        | (Returned row, table') =>
            (Returned row,
             mkState table' (users st)
               (invalidateCache ("schedule_helper_" ++ userId) (cache st))
               (world st))
        | (Thrown e, table') =>
            (Thrown e, mkState table' (users st) (cache st) (world st))
        end
    | (Thrown e, st) => (Thrown e, st)
    end.

Definition updateScheduleHelper (userId : string) (updates : ScheduleUpdates)
  (expectedLockVersion : option Z) : Svc ScheduleHelper :=
  withRetry (updateOnce userId updates expectedLockVersion).

End WithRuntime.

(** a row of [blocked_times]: its [user_id] and the columns that the
    scheduler reads *)
Definition BlockedRow : Type := (string * BlockedTime)%type.

(** [.order('priority', { ascending: false })]; rows of equal priority
    are kept in the order of the table (the store leaves it open) *)
Fixpoint insertByPriority (x : BlockedTime) (sorted : list BlockedTime)
  : list BlockedTime :=
  match sorted with
  | [] => [x]
  | y :: rest =>
      if priority y <? priority x then x :: y :: rest
      else y :: insertByPriority x rest
  end.

Definition orderByPriority (rows : list BlockedTime) : list BlockedTime :=
  fold_left (fun sorted x => insertByPriority x sorted) rows [].

(** the query of [getBlockedTimes]: the active intervals of the user by
    descending priority; this is what the method answers on a cache miss
    and what it caches *)
Definition selectBlockedTimes (userId : string) (rows : list BlockedRow)
  : list BlockedTime :=
  orderByPriority
    (map snd
       (filter (fun r => String.eqb (fst r) userId && is_active (snd r))
          rows)).

(** an id made of lower-case hexadecimal digits and dashes, as a UUID *)
Definition idChar (c : ascii) : bool :=
  let n := N_of_ascii c in
  ((48 <=? n) && (n <=? 57) || (97 <=? n) && (n <=? 102) || (n =? 45))%N.

Fixpoint plainId (s : string) : bool :=
  match s with
  | EmptyString => true
  | String c rest => idChar c && plainId rest
  end.

End Service.

(** ** The hook over the service ([src/hooks/useScheduler.ts]) *)

(** The callbacks of the hook as runs of the service; the React state is
    not modelled: a callback takes what the hook holds (the user, the
    scheduler, the call due, the schedule state, the intervals), each of
    the first four possibly missing, and returns what it stores. *)
Module Hook.

Definition pure {A : Type} (a : A) : Service.Svc A :=
  fun st => (Returned a, st).

Definition raise {A : Type} (e : Error) : Service.Svc A :=
  fun st => (Thrown e, st).

Definition andThen {A B : Type} (m : Service.Svc A) (k : A -> Service.Svc B)
  : Service.Svc B :=
  fun st =>
    match m st with
    | (Returned a, st') => k a st'
    | (Thrown e, st') => (Thrown e, st')
    end.

Notation "x <~ m ;; k" := (andThen m (fun x => k))
  (at level 61, m at next level, right associativity).

(** a call into the scheduler: it reads the clock and draws from the
    random source that the service reads *)
Definition scheduler {A : Type} (m : M A) : Service.Svc A :=
  fun st =>
    let (o, w) := m (Service.world st) in
    (o, Service.mkState (Service.table st) (Service.users st)
          (Service.cache st) w).

Section WithRuntime.

Variable rt : Runtime.

(** [generateNextCall]: [user] is the signed-in user, [schedulerRef] the
    scheduler and [scheduleHelper] the schedule state that the hook holds,
    each of them possibly missing *)
Definition generateNextCall (user : option User)
  (schedulerRef : option CallScheduler)
  (scheduleHelper : option ScheduleHelper)
  (blockedTimes : list BlockedTime) : Service.Svc SchedulingResult :=
  match user, schedulerRef, scheduleHelper with
  | Some u, Some this, Some held =>
      result <~ scheduler
                  (generateNextCallTime rt this blockedTimes held) ;;
      match success result, nextCallTime result with
      | true, Some next =>
          _ <~ scheduler (toISOString next) ;;
          t <~ Service.now rt ;;
          _ <~ Service.updateScheduleHelper rt (id u)
                 (mkUpdates (Some (Some next)) None None None (Some (At t)))
                 (Some (lock_version held)) ;;
          pure result
      | _, _ => pure result
      end
  | _, _, _ =>
      raise (ValidationError
               "User not authenticated or scheduler not initialized")
  end.

(** the write of [rescheduleCall]: [next] becomes the call due *)
Definition commitRescheduled (u : User) (scheduleHelper : ScheduleHelper)
  (next : Date) : Service.Svc (Date * ScheduleHelper) :=
  _ <~ scheduler (toISOString next) ;;
  t <~ Service.now rt ;;
  updated <~ Service.updateScheduleHelper rt (id u)
               (mkUpdates (Some (Some next)) None None None (Some (At t)))
               (Some (lock_version scheduleHelper)) ;;
  pure (next, updated).

(** [`${validation.reason}`] *)
Definition reasonText (r : option string) : string :=
  match r with
  | Some s => s
  | None => "undefined"
  end.

(** [rescheduleCall(delayMinutes)], for a whole number of minutes;
    [nextCallTime] is the call due that the hook holds.  The result is the
    pair of [nextCallTime] and [scheduleHelper] it stores.  The requested
    time is validated when the hook has a scheduler; after the write of the
    requested time the log entry prints the call due that was held. *)
Definition rescheduleCall (user : option User)
  (schedulerRef : option CallScheduler) (nextCallTime : option Date)
  (scheduleHelper : option ScheduleHelper)
  (blockedTimes : list BlockedTime) (delayMinutes : Z)
  : Service.Svc (Date * ScheduleHelper) :=
  match user, nextCallTime, scheduleHelper with
  | Some u, Some due, Some held =>
      now <~ Service.now rt ;;
      let newCallTime := At (now + delayMinutes * 60000) in
      let requestedPath :=
        stored <~ commitRescheduled u held newCallTime ;;
        _ <~ scheduler (toISOString due) ;;
        pure stored in
      match schedulerRef with
      | Some this =>
          validation <~ scheduler
                          (validateCallTime rt this newCallTime blockedTimes
                             held) ;;
          if negb (isValid validation) then
            match suggestedTime validation with
            | Some suggested => commitRescheduled u held suggested
            | None =>
                raise (ValidationError
                         ("Cannot reschedule to requested time: "
                          ++ reasonText (reason validation)))
            end
          else requestedPath
      | None => requestedPath
      end
  | _, _, _ => raise (ValidationError "Invalid state for rescheduling call")
  end.

End WithRuntime.

End Hook.

(** ** The masks of the log sanitizer ([maskPhoneNumber], [maskEmail]) *)

Module Sanitize.

(** [s.replace(/\D/g, '')] *)
Fixpoint removeNonDigits (s : string) : string :=
  match s with
  | EmptyString => EmptyString
  | String c rest =>
      if JS.is_digit c then String c (removeNonDigits rest)
      else removeNonDigits rest
  end.

(** [s.slice(-n)] *)
Definition sliceLast (n : nat) (s : string) : string :=
  substring (String.length s - n) n s.

(** [maskPhoneNumber(phone)]; [None] is [undefined], and the empty string
    is falsy too *)
Definition maskPhoneNumber (phone : option string) : string :=
  match phone with
  | None | Some EmptyString => "[NO_PHONE]"
  | Some phone =>
      let cleaned := removeNonDigits phone in
      if (String.length cleaned <? 4)%nat then "***"
      else "***-***-" ++ sliceLast 4 cleaned
  end.

(** [maskEmail(email)]: [domain] is the second field of the split *)
Definition maskEmail (email : option string) : string :=
  match email with
  | None | Some EmptyString => "[NO_EMAIL]"
  | Some email =>
      match JS.split "@" email with
      | _ :: domain :: _ =>
          match domain with
          | EmptyString => "***@***"
          | _ => "***@" ++ domain
          end
      | _ => "***@***"
      end
  end.

End Sanitize.

(** a string of decimal digits *)
Fixpoint allDigits (s : string) : bool :=
  match s with
  | EmptyString => true
  | String c rest => JS.is_digit c && allDigits rest
  end.

(** ** [ScheduleUtils] ([src/lib/scheduler.ts]) *)

Module ScheduleUtils.

(** [`${n}`] for a whole number that is not negative *)
Definition showInt (n : Z) : string := showNat (Z.to_nat n).

Section WithRuntime.

Variable rt : Runtime.

(** [getTimeUntilCall]: on an invalid date every difference is [NaN], both
    comparisons are false and the minutes print as [NaN] *)
Definition getTimeUntilCall (nextCallTime : Date) : M string :=
  now <- readClock rt ;;
  match nextCallTime with
  | InvalidDate => ret "NaNm"
  | At t =>
      let diff := t - now in
      if diff <=? 0 then ret "Time to call!"
      else
        let hours := diff / (1000 * 60 * 60) in
        let minutes := Z.rem diff (1000 * 60 * 60) / (1000 * 60) in
        if hours >? 0
        then ret (showInt hours ++ "h " ++ showInt minutes ++ "m")
        else ret (showInt minutes ++ "m")
  end.

(** [isTimeToCall(nextCallTime, tolerance = 5)] *)
Definition isTimeToCall (nextCallTime : Date) (tolerance : option Q)
  : M bool :=
  let tolerance := match tolerance with Some t => t | None => 5%Q end in
  now <- readClock rt ;;
  match nextCallTime with
  | InvalidDate => ret false
  | At t =>
      ret (Qle_bool (inject_Z (Z.abs (t - now))) (tolerance * 60 * 1000))
  end.

Definition getFriendlyTimeDescription (nextCallTime : Date) : M string :=
  now <- readClock rt ;;
  match nextCallTime with
  | InvalidDate => ret "tomorrow"
  | At t =>
      let hours := (inject_Z (t - now) / inject_Z (1000 * 60 * 60))%Q in
      if JS.Qlt_bool hours 1 then ret "very soon"
      else if JS.Qlt_bool hours 3 then ret "in a bit"
      else if JS.Qlt_bool hours 6 then ret "later today"
      else if JS.Qlt_bool hours 24 then ret "this evening"
      else ret "tomorrow"
  end.

End WithRuntime.

End ScheduleUtils.

(** ** Sample data, after [scheduler.test.ts] *)

Definition allDays : list string :=
  ["Mon"; "Tue"; "Wed"; "Thu"; "Fri"; "Sat"; "Sun"].

Definition sampleUser : User :=
  mkUser "user-1" 3 "Mon,Tue,Wed,Thu,Fri,Sat,Sun" "09:00" "21:00" "Asia/Tokyo".

Definition sampleHelper : ScheduleHelper :=
  mkScheduleHelper "user-1" None None 0 "2023-10-25" (At 1698192000000) 1.

Definition sampleScheduler : CallScheduler :=
  createScheduler sampleUser noOptions.

(** the same profile as a row of the store answers it: the window comes
    from [TIME] columns *)
Definition storedUser : User :=
  mkUser "user-1" 3 "Mon,Tue,Wed,Thu,Fri,Sat,Sun" "09:00:00" "21:00:00"
    "Asia/Tokyo".

Definition storedScheduler : CallScheduler :=
  createScheduler storedUser noOptions.

Definition lunch : BlockedTime :=
  mkBlockedTime "Lunch" "12:00" "13:00" DAILY None true 1.

(** the same interval as a row of the store answers it *)
Definition lunchStored : BlockedTime :=
  mkBlockedTime "Lunch" "12:00:00" "13:00:00" DAILY None true 1.

(** 2023-10-25T00:00:00Z, a Wednesday: 09:00 in Tokyo *)
Definition t0900 : Z := 1698192000000.

(** a runtime in the zone of Tokyo whose clock stands at [now] and whose
    draws are all [r] *)
Definition tokyo (now : Z) (r : Q) : Runtime :=
  mkRuntime 540 (fun _ => now) (fun _ => r).

Definition start : World := mkWorld 0 0.

(** a profile with a half-hour window, 10:30 to 10:59 *)
Definition narrowUser : User :=
  mkUser "user-2" 3 "Mon,Tue,Wed,Thu,Fri,Sat,Sun" "10:30" "10:59" "Asia/Tokyo".

Definition narrowScheduler : CallScheduler :=
  createScheduler narrowUser noOptions.

Definition meeting : BlockedTime :=
  mkBlockedTime "Team Meeting" "12:00" "13:00" DAILY None true 5.

(** a schedule state whose last call was made at [t] *)
Definition calledAt (t : Z) : ScheduleHelper :=
  mkScheduleHelper "user-1" None (Some (At t)) 0 "2023-10-25" (At t) 1.

(** a profile with no active day *)
Definition noDaysUser : User :=
  mkUser "user-3" 3 "" "09:00" "21:00" "Asia/Tokyo".

Definition noDaysScheduler : CallScheduler :=
  createScheduler noDaysUser noOptions.



(** a schedule state of the day before, with the daily limit used up *)
Definition staleHelper : ScheduleHelper :=
  mkScheduleHelper "user-1" None None 3 "2023-10-24" (At t0900) 7.

Definition setCallsToday (n : Z) : ScheduleUpdates :=
  mkUpdates None None (Some n) None None.

(** a profile whose [morning_start] was stored without its colon *)
Definition brokenUser : User :=
  mkUser "user-4" 3 "Mon,Tue,Wed,Thu,Fri,Sat,Sun" "0900" "21:00" "Asia/Tokyo".

Definition brokenScheduler : CallScheduler :=
  createScheduler brokenUser noOptions.

(** a user of the service, with the id the store gave it *)
Definition uuid : string := "6f1c2a9e-0d3b-4c5e-8a7f-123456789abc".

Definition uuidUser : User :=
  mkUser uuid 3 "Mon,Tue,Wed,Thu,Fri,Sat,Sun" "09:00" "21:00" "Asia/Tokyo".

Definition uuidScheduler : CallScheduler := createScheduler uuidUser noOptions.

Definition uuidHelper : ScheduleHelper :=
  mkScheduleHelper uuid None None 0 "2023-10-25" (At t0900) 1.

(** the service with the row of that user and an empty cache *)
Definition serviceStart : Service.State :=
  Service.mkState [uuidHelper] [uuid] [] start.

(** the service before the first read of that user's helper *)
Definition serviceNew : Service.State :=
  Service.mkState [] [uuid] [] start.

(** the service with an entry for that user that is 400 seconds old *)
Definition serviceOld : Service.State :=
  Service.mkState [uuidHelper] [uuid]
    [(Service.helperCacheKey uuid,
      Service.mkEntry staleHelper (t0900 - 400000) Service.CACHE_TTL)]
    start.

(** a generation and a rescheduling by three and a half hours, at 09:00,
    with a call due at 10:00 *)
Definition generated : Outcome SchedulingResult * Service.State :=
  Eval vm_compute in
    Hook.generateNextCall (tokyo t0900 (1 # 2)) (Some uuidUser)
      (Some uuidScheduler) (Some uuidHelper) [lunch] serviceStart.

Definition rescheduled : Outcome (Date * ScheduleHelper) * Service.State :=
  Eval vm_compute in
    Hook.rescheduleCall (tokyo t0900 (1 # 2)) (Some uuidUser)
      (Some uuidScheduler) (Some (At (t0900 + msPerHour))) (Some uuidHelper)
      [lunch] 210 serviceStart.

(** ** Properties of the JavaScript values *)

Lemma hoursOf_range (tz ms : Z) : 0 <= hoursOf tz ms < 24.
Proof.
  unfold hoursOf, msPerDay, msPerHour.
  pose proof (Z.mod_pos_bound (localTime tz ms) 86400000 eq_refl) as H.
  split.
  - apply Z.div_pos; lia.
  - apply Z.div_lt_upper_bound; lia.
Qed.

Lemma minutesOf_range (tz ms : Z) : 0 <= minutesOf tz ms < 60.
Proof.
  unfold minutesOf, msPerMinute, msPerHour.
  pose proof (Z.mod_pos_bound (localTime tz ms) 3600000 eq_refl) as H.
  split.
  - apply Z.div_pos; lia.
  - apply Z.div_lt_upper_bound; lia.
Qed.

Lemma minuteOfDay_range (tz ms : Z) : 0 <= minuteOfDay tz ms < 1440.
Proof.
  unfold minuteOfDay.
  pose proof (hoursOf_range tz ms); pose proof (minutesOf_range tz ms); lia.
Qed.

Lemma dayOf_range (tz ms : Z) : 0 <= dayOf tz ms < 7.
Proof. unfold dayOf. apply Z.mod_pos_bound. lia. Qed.

Lemma toTimeString5_clock (tz ms : Z) :
  toTimeString5 tz (At ms) = clock5 (hoursOf tz ms) (minutesOf tz ms).
Proof. reflexivity. Qed.

Lemma digit_cases (a : Z) : 0 <= a <= 9 ->
  a = 0 \/ a = 1 \/ a = 2 \/ a = 3 \/ a = 4 \/ a = 5 \/ a = 6 \/ a = 7 \/
  a = 8 \/ a = 9.
Proof. lia. Qed.

Lemma digit_char_compare (a b : Z) :
  0 <= a <= 9 -> 0 <= b <= 9 ->
  Ascii.compare (JS.digit_char a) (JS.digit_char b) = (a ?= b).
Proof.
  intros Ha Hb.
  destruct (digit_cases a Ha) as [->|[->|[->|[->|[->|[->|[->|[->|[->| ->]]]]]]]]];
  destruct (digit_cases b Hb) as [->|[->|[->|[->|[->|[->|[->|[->|[->| ->]]]]]]]]];
  reflexivity.
Qed.

Lemma two_digits (n : Z) : 0 <= n < 100 ->
  0 <= n / 10 <= 9 /\ 0 <= n mod 10 <= 9 /\ n = 10 * (n / 10) + n mod 10.
Proof.
  intros Hn.
  pose proof (Z.mod_pos_bound n 10 eq_refl).
  pose proof (Z.div_mod n 10 ltac:(lia)).
  assert (0 <= n / 10) by (apply Z.div_pos; lia).
  assert (n / 10 < 10) by (apply Z.div_lt_upper_bound; lia).
  lia.
Qed.

(** Clock strings compare as the times they show. *)
Lemma clock5_compare (h m h' m' : Z) :
  0 <= h < 100 -> 0 <= m < 60 -> 0 <= h' < 100 -> 0 <= m' < 60 ->
  String.compare (clock5 h m) (clock5 h' m') = (60 * h + m ?= 60 * h' + m').
Proof.
  intros Hh Hm Hh' Hm'.
  destruct (two_digits h Hh) as (A1 & A2 & A3).
  destruct (two_digits m ltac:(lia)) as (B1 & B2 & B3).
  destruct (two_digits h' Hh') as (C1 & C2 & C3).
  destruct (two_digits m' ltac:(lia)) as (D1 & D2 & D3).
  unfold clock5, JS.pad2. cbn [append String.compare].
  rewrite !digit_char_compare by assumption.
  change (Ascii.compare ":" ":") with Eq.
  symmetry.
  destruct (Z.compare_spec (h / 10) (h' / 10));
  destruct (Z.compare_spec (h mod 10) (h' mod 10));
  destruct (Z.compare_spec (m / 10) (m' / 10));
  destruct (Z.compare_spec (m mod 10) (m' mod 10));
  first [ apply Z.compare_eq_iff | apply Z.compare_lt_iff
        | apply Z.compare_gt_iff ]; lia.
Qed.

Lemma clock5_lt (h m h' m' : Z) :
  0 <= h < 100 -> 0 <= m < 60 -> 0 <= h' < 100 -> 0 <= m' < 60 ->
  JS.str_lt (clock5 h m) (clock5 h' m') = (60 * h + m <? 60 * h' + m').
Proof.
  intros. unfold JS.str_lt, String.ltb, Z.ltb.
  rewrite clock5_compare by assumption. reflexivity.
Qed.

Lemma clock5_le (h m h' m' : Z) :
  0 <= h < 100 -> 0 <= m < 60 -> 0 <= h' < 100 -> 0 <= m' < 60 ->
  JS.str_le (clock5 h m) (clock5 h' m') = (60 * h + m <=? 60 * h' + m').
Proof.
  intros. unfold JS.str_le, String.leb, Z.leb.
  rewrite clock5_compare by assumption. reflexivity.
Qed.

Lemma dayNames_cases (d : string) : In d dayNames ->
  d = "Sun" \/ d = "Mon" \/ d = "Tue" \/ d = "Wed" \/ d = "Thu" \/ d = "Fri" \/
  d = "Sat".
Proof. simpl. intuition auto. Qed.

Lemma arr_includes_In (arr : list string) (x : string) :
  JS.arr_includes arr x = true <-> In x arr.
Proof.
  unfold JS.arr_includes. rewrite existsb_exists. split.
  - intros (y & Hy & E). apply String.eqb_eq in E. now subst.
  - intros H. exists x. split; [assumption | apply String.eqb_refl].
Qed.

Ltac each_day H :=
  destruct (dayNames_cases _ H) as [->|[->|[->|[->|[->|[->| ->]]]]]].

(** On a comma-joined list of day names, the substring test that the
    scheduler runs is the membership test. *)
Lemma includes_dayList (days : list string) (d : string) :
  dayNamesOnly days -> In d dayNames ->
  JS.includes (dayList days) d = JS.arr_includes days d.
Proof.
  intros Hdays Hd. induction days as [|x rest IH].
  - each_day Hd; reflexivity.
  - assert (Hx : In x dayNames) by (apply Hdays; now left).
    assert (Hrest : dayNamesOnly rest)
      by (intros y Hy; apply Hdays; now right).
    specialize (IH Hrest).
    destruct rest as [|y rest'].
    + each_day Hd; each_day Hx; reflexivity.
    + change (dayList (x :: y :: rest'))
        with (x ++ "," ++ dayList (y :: rest')).
      change (JS.arr_includes (x :: y :: rest') d)
        with (String.eqb d x || JS.arr_includes (y :: rest') d).
      rewrite <- IH. generalize (dayList (y :: rest')) as tail. intros tail.
      each_day Hd; each_day Hx; reflexivity.
Qed.

Lemma weekdayShort_dayName (tz ms : Z) : In (weekdayShort tz (At ms)) dayNames.
Proof.
  unfold weekdayShort. pose proof (dayOf_range tz ms) as H.
  assert (C : dayOf tz ms = 0 \/ dayOf tz ms = 1 \/ dayOf tz ms = 2 \/
              dayOf tz ms = 3 \/ dayOf tz ms = 4 \/ dayOf tz ms = 5 \/
              dayOf tz ms = 6) by lia.
  destruct C as [->|[->|[->|[->|[->|[->| ->]]]]]]; simpl; auto 10.
Qed.

Lemma dayNameOf_weekdayShort (tz ms : Z) :
  dayNameOf tz (At ms) = Some (weekdayShort tz (At ms)).
Proof.
  unfold dayNameOf, weekdayShort. pose proof (dayOf_range tz ms) as H.
  assert (C : dayOf tz ms = 0 \/ dayOf tz ms = 1 \/ dayOf tz ms = 2 \/
              dayOf tz ms = 3 \/ dayOf tz ms = 4 \/ dayOf tz ms = 5 \/
              dayOf tz ms = 6) by lia.
  destruct C as [->|[->|[->|[->|[->|[->| ->]]]]]]; reflexivity.
Qed.

(** ** The embedding on the cases of [scheduler.test.ts] *)

Example includes_substring : JS.includes "Mon,Tue,Fri" "Tue" = true.
Proof. reflexivity. Qed.

Example split_clock : JS.split ":" "09:30" = ["09"; "30"].
Proof. reflexivity. Qed.

Example split_empty : JS.split "," "" = [""].
Proof. reflexivity. Qed.

Example block_reason_slug :
  blockReason meeting = "blocked_team_meeting".
Proof. reflexivity. Qed.

Example iso_date_of_sample : isoDate t0900 = "2023-10-25".
Proof. reflexivity. Qed.

(** 'should respect timezone when validating call time', run in Tokyo *)
Example test_valid_at_window_start :
  fst (validateCallTime (tokyo (t0900 - 60000) (1 # 2)) sampleScheduler
         (At t0900) [] sampleHelper start)
  = Returned accepted.
Proof. vm_compute. reflexivity. Qed.

(** 'should reject call if outside daily window in user timezone' *)
Example test_outside_window :
  reason
    (match fst (validateCallTime
                  (tokyo (t0900 + 15 * msPerHour - 60000) (1 # 2))
                  sampleScheduler (At (t0900 + 15 * msPerHour)) []
                  sampleHelper start) with
     | Returned v => v
     | Thrown _ => accepted
     end)
  = Some "outside_daily_window".
Proof. vm_compute. reflexivity. Qed.

(** 'should respect blocked times in user timezone' *)
Example test_blocked_lunch :
  fst (validateCallTime
         (tokyo (t0900 + 3 * msPerHour + 29 * msPerMinute) (1 # 2))
         sampleScheduler (At (t0900 + 3 * msPerHour + 30 * msPerMinute))
         [lunch] sampleHelper start)
  = Returned (invalid "blocked_lunch"
                (At (t0900 + 4 * msPerHour + 15 * msPerMinute))).
Proof. vm_compute. reflexivity. Qed.

(** 'should allow call if outside blocked time' *)
Example test_after_lunch :
  fst (validateCallTime
         (tokyo (t0900 + 4 * msPerHour + 29 * msPerMinute) (1 # 2))
         sampleScheduler (At (t0900 + 4 * msPerHour + 30 * msPerMinute))
         [lunch] sampleHelper start)
  = Returned accepted.
Proof. vm_compute. reflexivity. Qed.

(** The scheduler reads local time from the zone it runs in and never
    reads [timezone]: run in UTC, the first case of the test file is
    rejected for the same Tokyo profile. *)
Example test_valid_at_window_start_in_utc :
  fst (validateCallTime (mkRuntime 0 (fun _ => t0900 - 60000) (fun _ => 1 # 2))
         sampleScheduler (At t0900) [] sampleHelper start)
  = Returned (invalid "outside_daily_window" (At (t0900 + 9 * msPerHour))).
Proof. vm_compute. reflexivity. Qed.

(** Two sessions hold the same row, of version 7: the first commit bumps
    the version to 8, the second one is refused and changes nothing. *)
Example two_commits_from_one_version :
  match commitNextCall t0900 sampleUser staleHelper
          (At (t0900 + 2 * msPerHour)) [staleHelper] with
  | (Returned first, table1) =>
      lock_version first = 8 /\
      next_call_due first = Some (At (t0900 + 2 * msPerHour)) /\
      commitNextCall t0900 sampleUser staleHelper
        (At (t0900 + 3 * msPerHour)) table1
      = (Thrown concurrentModificationError, table1)
  | (Thrown _, _) => False
  end.
Proof. vm_compute. repeat split. Qed.

(** recording a call that was made: the pending call is cleared, the last
    call time set, the count and the version incremented *)
Example record_called_attempt :
  fst (recordAttempt t0900 sampleUser staleHelper true 3 [staleHelper])
  = Returned (mkScheduleHelper "user-1" None (Some (At t0900)) 4 "2023-10-24"
                (At t0900) 8).
Proof. vm_compute. reflexivity. Qed.

(** ** Local time arithmetic *)

Lemma startOfDay_bounds (tz ms : Z) :
  startOfDay tz ms <= ms < startOfDay tz ms + msPerDay.
Proof.
  unfold startOfDay.
  pose proof (Z.mod_pos_bound (localTime tz ms) msPerDay eq_refl). lia.
Qed.

Lemma localTime_startOfDay (tz ms x : Z) :
  0 <= x < msPerDay ->
  localTime tz (startOfDay tz ms + x) mod msPerDay = x.
Proof.
  intros Hx. unfold startOfDay, localTime.
  pose proof (Z.div_mod (ms + tz * msPerMinute) msPerDay
                ltac:(unfold msPerDay; lia)) as E.
  replace (ms - (ms + tz * msPerMinute) mod msPerDay + x + tz * msPerMinute)
    with (x + (ms + tz * msPerMinute) / msPerDay * msPerDay) by lia.
  rewrite Z.mod_add by (unfold msPerDay; lia).
  apply Z.mod_small. assumption.
Qed.

Lemma mod_hour_of_day (a : Z) :
  (a mod msPerDay) mod msPerHour = a mod msPerHour.
Proof.
  unfold msPerDay, msPerHour.
  pose proof (Z.div_mod a 86400000 ltac:(lia)) as E.
  rewrite E at 2.
  replace (86400000 * (a / 86400000) + a mod 86400000)
    with (a mod 86400000 + (24 * (a / 86400000)) * 3600000) by lia.
  rewrite Z.mod_add by lia. reflexivity.
Qed.

(** the time of day in minutes is the time within the day, in whole
    minutes *)
Lemma minuteOfDay_div (tz ms : Z) :
  minuteOfDay tz ms = (localTime tz ms mod msPerDay) / msPerMinute.
Proof.
  unfold minuteOfDay, hoursOf, minutesOf.
  rewrite <- (mod_hour_of_day (localTime tz ms)).
  set (x := localTime tz ms mod msPerDay).
  unfold msPerHour, msPerMinute.
  pose proof (Z.div_mod x 3600000 ltac:(lia)) as E.
  pose proof (Z.mod_pos_bound x 3600000 eq_refl) as B.
  rewrite E at 3.
  replace (3600000 * (x / 3600000) + x mod 3600000)
    with (x mod 3600000 + (60 * (x / 3600000)) * 60000) by lia.
  rewrite Z.div_add by lia. lia.
Qed.

Lemma minuteOfDay_at (tz ms h m : Z) :
  clockField h m ->
  minuteOfDay tz (startOfDay tz ms + h * msPerHour + m * msPerMinute)
  = 60 * h + m.
Proof.
  intros [Hh Hm]. rewrite minuteOfDay_div.
  rewrite <- Z.add_assoc, localTime_startOfDay
    by (unfold msPerDay, msPerHour, msPerMinute; lia).
  unfold msPerHour, msPerMinute.
  replace (h * 3600000 + m * 60000) with ((60 * h + m) * 60000) by lia.
  apply Z.div_mul. lia.
Qed.

Lemma fields_at (tz ms h m : Z) :
  clockField h m ->
  hoursOf tz (startOfDay tz ms + h * msPerHour + m * msPerMinute) = h /\
  minutesOf tz (startOfDay tz ms + h * msPerHour + m * msPerMinute) = m.
Proof.
  intros [Hh Hm]. unfold hoursOf, minutesOf.
  rewrite <- (mod_hour_of_day (localTime tz _)).
  rewrite <- Z.add_assoc, localTime_startOfDay
    by (unfold msPerDay, msPerHour, msPerMinute; lia).
  unfold msPerHour, msPerMinute. split.
  - replace (h * 3600000 + m * 60000) with (m * 60000 + h * 3600000) by lia.
    rewrite Z.div_add by lia. rewrite Z.div_small by lia. lia.
  - replace (h * 3600000 + m * 60000) with (m * 60000 + h * 3600000) by lia.
    rewrite Z.mod_add by lia. rewrite Z.mod_small by lia.
    apply Z.div_mul. lia.
Qed.

Lemma toTimeString5_at (tz ms h m : Z) :
  clockField h m ->
  toTimeString5 tz (At (startOfDay tz ms + h * msPerHour + m * msPerMinute))
  = clock5 h m.
Proof.
  intros H. rewrite toTimeString5_clock.
  destruct (fields_at tz ms h m H) as [-> ->]. reflexivity.
Qed.

Lemma dayOf_plus_days (tz ms k : Z) :
  dayOf tz (ms + k * msPerDay) = (dayOf tz ms + k) mod 7.
Proof.
  unfold dayOf, localTime.
  replace (ms + k * msPerDay + tz * msPerMinute)
    with (ms + tz * msPerMinute + k * msPerDay) by lia.
  rewrite Z.div_add by (unfold msPerDay; lia).
  rewrite Zplus_mod_idemp_l. f_equal. lia.
Qed.

Lemma dayOf_same_day (tz ms x : Z) :
  0 <= x < msPerDay ->
  dayOf tz (startOfDay tz ms + x) = dayOf tz ms.
Proof.
  intros Hx. unfold dayOf. f_equal. f_equal.
  pose proof (localTime_startOfDay tz ms x Hx) as E.
  unfold startOfDay, localTime in *.
  set (a := ms + tz * msPerMinute) in *.
  replace (ms - a mod msPerDay + x + tz * msPerMinute)
    with (x + (a / msPerDay) * msPerDay).
  - rewrite Z.div_add by (unfold msPerDay; lia).
    rewrite Z.div_small by assumption. lia.
  - pose proof (Z.div_mod a msPerDay ltac:(unfold msPerDay; lia)). lia.
Qed.

Lemma weekdayShort_same_day (tz ms x : Z) :
  0 <= x < msPerDay ->
  weekdayShort tz (At (startOfDay tz ms + x)) = weekdayShort tz (At ms).
Proof. intros H. unfold weekdayShort. now rewrite dayOf_same_day. Qed.

Lemma minuteOfDay_at_minute (tz ms x : Z) :
  0 <= x < 1440 ->
  minuteOfDay tz (startOfDay tz ms + x * msPerMinute) = x.
Proof.
  intros Hx. rewrite minuteOfDay_div, localTime_startOfDay
    by (unfold msPerDay, msPerMinute; lia).
  apply Z.div_mul. unfold msPerMinute. lia.
Qed.

(** ** Clock strings with and without seconds *)

Lemma compare_longer_right (x y suffix : string) :
  String.length x = String.length y -> suffix <> "" ->
  String.compare x (y ++ suffix)
  = match String.compare x y with Eq => Lt | c => c end.
Proof.
  revert y. induction x as [|a x IH]; intros [|b y] L Hs; try discriminate L.
  - cbn [append String.compare]. destruct suffix; [contradiction|reflexivity].
  - cbn [append String.compare].
    destruct (Ascii.compare a b); try reflexivity.
    apply IH; [now injection L|exact Hs].
Qed.

Lemma compare_longer_left (x y suffix : string) :
  String.length x = String.length y -> suffix <> "" ->
  String.compare (y ++ suffix) x
  = match String.compare y x with Eq => Gt | c => c end.
Proof.
  revert y. induction x as [|a x IH]; intros [|b y] L Hs; try discriminate L.
  - cbn [append String.compare]. destruct suffix; [contradiction|reflexivity].
  - cbn [append String.compare].
    destruct (Ascii.compare b a); try reflexivity.
    apply IH; [now injection L|exact Hs].
Qed.

Lemma clock5_length (h m : Z) : String.length (clock5 h m) = 5%nat.
Proof. reflexivity. Qed.

Lemma seconds_suffix (s : Z) : (":" ++ JS.pad2 s)%string <> "".
Proof. discriminate. Qed.

(** How the text [HH:MM] of a time compares with a clock string. *)
Lemma clockText_lt (a b h m : Z) (seconds : option Z) :
  0 <= a < 100 -> 0 <= b < 60 -> 0 <= h < 100 -> 0 <= m < 60 ->
  JS.str_lt (clock5 a b) (clockText h m seconds)
  = (60 * a + b <? firstMinute h m seconds).
Proof.
  intros Ha Hb Hh Hm. destruct seconds as [s|]; cbn [clockText firstMinute].
  - unfold JS.str_lt, String.ltb.
    rewrite compare_longer_right
      by (reflexivity || apply seconds_suffix).
    rewrite clock5_compare by assumption.
    destruct (Z.compare_spec (60 * a + b) (60 * h + m));
      symmetry; [apply Z.ltb_lt|apply Z.ltb_lt|apply Z.ltb_ge]; lia.
  - apply clock5_lt; assumption.
Qed.

Lemma clockText_gt (a b h m : Z) (seconds : option Z) :
  0 <= a < 100 -> 0 <= b < 60 -> 0 <= h < 100 -> 0 <= m < 60 ->
  JS.str_gt (clock5 a b) (clockText h m seconds)
  = (60 * h + m <? 60 * a + b).
Proof.
  intros Ha Hb Hh Hm. destruct seconds as [s|]; cbn [clockText].
  - unfold JS.str_gt, String.ltb.
    rewrite compare_longer_left
      by (reflexivity || apply seconds_suffix).
    rewrite clock5_compare by assumption.
    destruct (Z.compare_spec (60 * h + m) (60 * a + b));
      symmetry; [apply Z.ltb_ge|apply Z.ltb_lt|apply Z.ltb_ge]; lia.
  - unfold JS.str_gt. apply clock5_lt; assumption.
Qed.

Lemma clockText_ge (a b h m : Z) (seconds : option Z) :
  0 <= a < 100 -> 0 <= b < 60 -> 0 <= h < 100 -> 0 <= m < 60 ->
  JS.str_ge (clock5 a b) (clockText h m seconds)
  = (firstMinute h m seconds <=? 60 * a + b).
Proof.
  intros Ha Hb Hh Hm. destruct seconds as [s|]; cbn [clockText firstMinute].
  - unfold JS.str_ge, String.leb.
    rewrite compare_longer_left
      by (reflexivity || apply seconds_suffix).
    rewrite clock5_compare by assumption.
    destruct (Z.compare_spec (60 * h + m) (60 * a + b));
      symmetry; [apply Z.leb_gt|apply Z.leb_le|apply Z.leb_gt]; lia.
  - unfold JS.str_ge. apply clock5_le; assumption.
Qed.

Lemma clockText_le (a b h m : Z) (seconds : option Z) :
  0 <= a < 100 -> 0 <= b < 60 -> 0 <= h < 100 -> 0 <= m < 60 ->
  JS.str_le (clock5 a b) (clockText h m seconds)
  = (60 * a + b <=? 60 * h + m).
Proof.
  intros Ha Hb Hh Hm. destruct seconds as [s|]; cbn [clockText].
  - unfold JS.str_le, String.leb.
    rewrite compare_longer_right
      by (reflexivity || apply seconds_suffix).
    rewrite clock5_compare by assumption.
    destruct (Z.compare_spec (60 * a + b) (60 * h + m));
      symmetry; [apply Z.leb_le|apply Z.leb_le|apply Z.leb_gt]; lia.
  - apply clock5_le; assumption.
Qed.

(** The text of an invalid date is above every clock string. *)
Lemma invalid_date_above (eh em : Z) (seconds : option Z) :
  0 <= eh < 100 -> JS.str_gt "Inval" (clockText eh em seconds) = true.
Proof.
  intros H. destruct (two_digits eh H) as (A & _ & _).
  unfold JS.str_gt, String.ltb.
  destruct seconds; unfold clockText, clock5, JS.pad2;
    cbn [append String.compare];
    destruct (digit_cases _ A)
      as [->|[->|[->|[->|[->|[->|[->|[->|[->| ->]]]]]]]]];
    reflexivity.
Qed.

(** A range of minutes of the day, read off the exact time of day. *)
Lemma minutes_of_msOfDay (tz ms first last : Z) :
  inClosedRange first last (minuteOfDay tz ms)
  = inMinutes first last (msOfDay tz ms).
Proof.
  unfold inClosedRange, inMinutes, msOfDay. rewrite minuteOfDay_div.
  pose proof (Z.mod_pos_bound (localTime tz ms) msPerDay eq_refl) as B.
  set (x := localTime tz ms mod msPerDay) in *. unfold msPerMinute.
  pose proof (Z.div_mod x 60000 ltac:(lia)) as E.
  pose proof (Z.mod_pos_bound x 60000 eq_refl) as R.
  f_equal.
  - destruct (Z.leb_spec first (x / 60000));
      symmetry; [apply Z.leb_le|apply Z.leb_gt]; lia.
  - destruct (Z.leb_spec (x / 60000) last);
      symmetry; [apply Z.ltb_lt|apply Z.ltb_ge]; lia.
Qed.

(** *** Fields of a split string *)

Lemma append_assoc (a b c : string) : ((a ++ b) ++ c = a ++ (b ++ c))%string.
Proof. induction a as [|x a IH]; cbn [append]; [reflexivity|now rewrite IH]. Qed.

Lemma split_field (sep : ascii) (a : string) :
  JS.includes a (String sep EmptyString) = false ->
  forall acc b,
    JS.split_acc sep acc (a ++ String sep b)
    = (acc ++ a) :: JS.split_acc sep EmptyString b.
Proof.
  induction a as [|c a IH]; intros H acc b.
  - cbn [append JS.split_acc]. rewrite Ascii.eqb_refl.
    f_equal. clear. induction acc as [|x acc IH]; cbn [append];
      [reflexivity|now rewrite <- IH].
  - cbn [JS.includes String.prefix] in H.
    apply orb_false_iff in H. destruct H as [H1 H2].
    cbn [append JS.split_acc]. destruct (Ascii.eqb c sep) eqn:C.
    + apply Ascii.eqb_eq in C. subst c.
      destruct (ascii_dec sep sep) as [_|N]; [|congruence].
      destruct a; discriminate H1.
    + rewrite (IH H2). f_equal. rewrite append_assoc. reflexivity.
Qed.

(** ** Blocked intervals *)

Lemma weekdays_rule (d : string) : In d dayNames ->
  negb (JS.arr_includes ["Sat"; "Sun"] d) =
  JS.arr_includes ["Mon"; "Tue"; "Wed"; "Thu"; "Fri"] d.
Proof. intros H. each_day H; reflexivity. Qed.

(** C5, as the code has it: an interval blocks a candidate exactly when
    the day-match rule of its repeat kind passes on the candidate's
    weekday (daily and once: every day; weekdays: Monday to Friday;
    weekends: Saturday and Sunday; custom: the weekday is in the configured
    day set) and the text [HH:MM] of the candidate's local time lies
    between the two clock strings of the interval.  On the exact time of
    day that is: from the start of the first minute that is not below
    [start_time] (the minute of [start_time] for a string [HH:MM], the
    minute after it for a string [HH:MM:SS]) to the end of the minute of
    [end_time].  So a candidate exactly at [end_time], and up to 59.999 s
    after it, is blocked, and with strings that carry seconds a candidate
    exactly at [start_time] is not. *)
Theorem blocked_period_rule (rt : Runtime) (ms : Z) (block : BlockedTime)
  (days : list string) (sh sm eh em : Z) (ss es : option Z) :
  clockField sh sm -> clockField eh em ->
  start_time block = clockText sh sm ss ->
  end_time block = clockText eh em es ->
  (repeat_type block = CUSTOM ->
   days_of_week block = Some (dayList days) /\ dayNamesOnly days) ->
  isTimeInBlockedPeriod rt (At ms) block =
    dayMatchRule (repeat_type block) days (weekdayShort (tz rt) (At ms)) &&
    inMinutes (firstMinute sh sm ss) (60 * eh + em) (msOfDay (tz rt) ms)
  /\ (dayMatchRule (repeat_type block) days (weekdayShort (tz rt) (At ms))
        = true ->
      firstMinute sh sm ss <= 60 * eh + em ->
      (60 * eh + em) * msPerMinute <= msOfDay (tz rt) ms
        < (60 * eh + em + 1) * msPerMinute ->
      isTimeInBlockedPeriod rt (At ms) block = true)
  /\ (ss <> None ->
      (60 * sh + sm) * msPerMinute <= msOfDay (tz rt) ms
        < (60 * sh + sm + 1) * msPerMinute ->
      isTimeInBlockedPeriod rt (At ms) block = false).
Proof.
  intros [Hsh Hsm] [Heh Hem] Hstart Hend Hcustom.
  pose proof (hoursOf_range (tz rt) ms) as Hh.
  pose proof (minutesOf_range (tz rt) ms) as Hm.
  pose proof (weekdayShort_dayName (tz rt) ms) as Hday.
  assert (E : isTimeInBlockedPeriod rt (At ms) block =
    dayMatchRule (repeat_type block) days (weekdayShort (tz rt) (At ms)) &&
    inMinutes (firstMinute sh sm ss) (60 * eh + em) (msOfDay (tz rt) ms)).
  { rewrite <- minutes_of_msOfDay.
    unfold isTimeInBlockedPeriod, inClosedRange, minuteOfDay.
    rewrite toTimeString5_clock, Hstart, Hend.
    rewrite clockText_ge, clockText_le by lia.
    destruct (repeat_type block) eqn:K; cbn [dayMatchRule].
    - reflexivity.
    - rewrite weekdays_rule by assumption.
      destruct (JS.arr_includes _ _); reflexivity.
    - destruct (JS.arr_includes _ _); reflexivity.
    - destruct (Hcustom eq_refl) as [-> Hdays].
      rewrite includes_dayList by assumption.
      destruct (JS.arr_includes _ _); reflexivity.
    - reflexivity. }
  split; [exact E|]. split.
  - intros Hrule Hle Hat. rewrite E, Hrule. unfold inMinutes.
    cbn [andb]. apply andb_true_intro.
    split; [apply Z.leb_le|apply Z.ltb_lt]; unfold msPerMinute in *; lia.
  - intros Hs Hat. rewrite E. apply andb_false_iff. right.
    destruct ss as [s|]; [|contradiction]. unfold inMinutes.
    cbn [firstMinute]. apply andb_false_iff. left. apply Z.leb_gt.
    unfold msPerMinute in *. lia.
Qed.

(** ** Validation *)

Lemma validateChecks_returns (rt : Runtime) (this : CallScheduler)
  (time : Date) (blockedTimes : list BlockedTime)
  (scheduleHelper : ScheduleHelper) (w : World) :
  exists r w', validateChecks rt this time blockedTimes scheduleHelper w
               = (Returned r, w').
Proof.
  unfold validateChecks.
  destruct (outsideWindow rt this time); [eexists; eexists; reflexivity|].
  destruct (inactiveDay rt this time); [eexists; eexists; reflexivity|].
  destruct (minGapSuggestion this time scheduleHelper);
    [eexists; eexists; reflexivity|].
  destruct (blockingInterval rt time blockedTimes);
    [eexists; eexists; reflexivity|].
  unfold bind, readClock.
  destruct (date_le time _); eexists; eexists; reflexivity.
Qed.

Lemma activeRows_typed (blockedTimes : list BlockedTime) (w : World) :
  activeRows (map Some blockedTimes) w
  = (Returned (filter is_active blockedTimes), w).
Proof.
  induction blockedTimes as [|b bs IH]; [reflexivity|].
  cbn [map activeRows filter]. unfold bind. rewrite IH.
  destruct (is_active b); reflexivity.
Qed.



(** On an array of the declared type the raw checks are the checks. *)
Lemma validateChecksRaw_typed (rt : Runtime) (this : CallScheduler)
  (time : Date) (blockedTimes : list BlockedTime)
  (scheduleHelper : ScheduleHelper) (w : World) :
  validateChecksRaw rt this time (map Some blockedTimes) scheduleHelper w
  = validateChecks rt this time blockedTimes scheduleHelper w.
Proof.
  unfold validateChecksRaw, validateChecks, blockingInterval.
  destruct (outsideWindow rt this time); [reflexivity|].
  destruct (inactiveDay rt this time); [reflexivity|].
  destruct (minGapSuggestion this time scheduleHelper); [reflexivity|].
  unfold bind at 1. rewrite activeRows_typed. reflexivity.
Qed.

Lemma validateCallTime_checks (rt : Runtime) (this : CallScheduler)
  (time : Date) (blockedTimes : list BlockedTime)
  (scheduleHelper : ScheduleHelper) (w : World) :
  validateCallTime rt this time blockedTimes scheduleHelper w
  = validateChecks rt this time blockedTimes scheduleHelper w.
Proof.
  unfold validateCallTime, validateCallTimeRaw, guardValidation, try_catch.
  rewrite validateChecksRaw_typed.
  destruct (validateChecks_returns rt this time blockedTimes scheduleHelper w)
    as (r & w' & E).
  rewrite E. reflexivity.
Qed.

(** What a validation that reports a valid time has checked. *)
Lemma validateCallTime_valid (rt : Runtime) (this : CallScheduler)
  (time : Date) (blockedTimes : list BlockedTime)
  (scheduleHelper : ScheduleHelper) (w w' : World) (r : CallValidationResult) :
  validateCallTime rt this time blockedTimes scheduleHelper w
    = (Returned r, w') ->
  isValid r = true ->
  outsideWindow rt this time = false /\
  inactiveDay rt this time = false /\
  minGapSuggestion this time scheduleHelper = None /\
  blockingInterval rt time blockedTimes = None /\
  date_le time (At (clock rt (reads w))) = false /\
  r = accepted /\ w' = mkWorld (S (reads w)) (draws w).
Proof.
  rewrite validateCallTime_checks. unfold validateChecks.
  destruct (outsideWindow rt this time);
    [intros E V; inversion E; subst; discriminate V|].
  destruct (inactiveDay rt this time);
    [intros E V; inversion E; subst; discriminate V|].
  destruct (minGapSuggestion this time scheduleHelper);
    [intros E V; inversion E; subst; discriminate V|].
  destruct (blockingInterval rt time blockedTimes);
    [intros E V; inversion E; subst; discriminate V|].
  unfold bind, readClock.
  destruct (date_le time _);
    intros E V; inversion E; subst; [discriminate V|].
  repeat split; reflexivity.
Qed.

Lemma blockReason_not_empty (block : BlockedTime) : blockReason block <> "".
Proof. unfold blockReason. cbn [append]. discriminate. Qed.

Lemma validation_shape (rt : Runtime) (this : CallScheduler)
  (time : Date) (blockedTimes : list BlockedTime)
  (scheduleHelper : ScheduleHelper) (w w' : World) (v : CallValidationResult) :
  validateCallTime rt this time blockedTimes scheduleHelper w
    = (Returned v, w') ->
  (isValid v = false ->
   exists why suggestion,
     v = mkValidation false (Some why) (Some suggestion) /\ why <> "" /\
     (why = "validation_error" -> False))
  /\ (isValid v = true -> v = mkValidation true None None).
Proof.
  intros E. split.
  - intros V. rewrite validateCallTime_checks in E. unfold validateChecks in E.
    destruct (outsideWindow rt this time).
    { inversion E; subst. eexists; eexists. split; [reflexivity|].
      split; discriminate. }
    destruct (inactiveDay rt this time).
    { inversion E; subst. eexists; eexists. split; [reflexivity|].
      split; discriminate. }
    destruct (minGapSuggestion this time scheduleHelper).
    { inversion E; subst. eexists; eexists. split; [reflexivity|].
      split; discriminate. }
    destruct (blockingInterval rt time blockedTimes) as [block|].
    { inversion E; subst. eexists; eexists. split; [reflexivity|].
      split; [apply blockReason_not_empty|].
      unfold blockReason. cbn [append]. discriminate. }
    unfold bind, readClock in E. destruct (date_le time _).
    + inversion E; subst. eexists; eexists. split; [reflexivity|].
      split; discriminate.
    + inversion E; subst. discriminate V.
  - intros V.
    destruct (validateCallTime_valid _ _ _ _ _ _ _ _ E V)
      as (_ & _ & _ & _ & _ & -> & _).
    reflexivity.
Qed.


(** ** Every strategy hands back validated times only *)

Lemma validateCallTime_returns (rt : Runtime) (this : CallScheduler)
  (time : Date) (blockedTimes : list BlockedTime)
  (scheduleHelper : ScheduleHelper) (w : World) :
  exists r w', validateCallTime rt this time blockedTimes scheduleHelper w
               = (Returned r, w').
Proof. rewrite validateCallTime_checks. apply validateChecks_returns. Qed.

Lemma valid_Validated (rt : Runtime) (this : CallScheduler) (time : Date)
  (blockedTimes : list BlockedTime) (scheduleHelper : ScheduleHelper)
  (w w' : World) (v : CallValidationResult) :
  validateCallTime rt this time blockedTimes scheduleHelper w
    = (Returned v, w') ->
  isValid v = true ->
  Validated rt (user this) time.
Proof.
  intros E V.
  destruct (validateCallTime_valid _ _ _ _ _ _ _ _ E V)
    as (_ & _ & _ & _ & _ & -> & _).
  exists this, blockedTimes, scheduleHelper, w, w'. split; [reflexivity|exact E].
Qed.

Ltac run_validation :=
  match goal with
  | |- context [validateCallTime ?rt ?s ?t ?b ?h ?w] =>
      let v := fresh "v" in
      let w1 := fresh "w" in
      let E := fresh "E" in
      destruct (validateCallTime_returns rt s t b h w) as (v & w1 & E);
      rewrite E
  end.

Lemma found_Succeeds (t t' : Date) (n : nat) (cs : list string) :
  Succeeds (found t n cs) t' -> t = t'.
Proof. intros [_ H]. simpl in H. congruence. Qed.

Lemma notFound_fails (why : string) (n : nat) (cs : list string) (t : Date) :
  ~ Succeeds (notFound why n cs) t.
Proof. intros [H _]. discriminate H. Qed.

Lemma basicLoop_validated (rt : Runtime) (this : CallScheduler) (fuel : nat) :
  forall (now : Z) (blockedTimes : list BlockedTime)
    (scheduleHelper : ScheduleHelper) (n : nat) (cs : list string)
    (w w' : World) (r : SchedulingResult) (t : Date),
  basicLoop rt this fuel now blockedTimes scheduleHelper n cs w
    = (Returned r, w') ->
  Succeeds r t -> Validated rt (user this) t.
Proof.
  induction fuel as [|fuel IH]; intros now bs h n cs w w' r t.
  - cbn. intros E S. inversion E; subst. now apply notFound_fails in S.
  - cbn [basicLoop]. unfold randomBetween, bind at 1 2, drawRandom, ret at 1.
    unfold bind at 1. run_validation.
    destruct (isValid v) eqn:V.
    + intros R S. inversion R; subst. apply found_Succeeds in S. subst t.
      eapply valid_Validated; eassumption.
    + destruct (suggestedTime v) as [s|]; [|apply IH].
      unfold bind at 1. run_validation.
      destruct (isValid v0) eqn:V0; [|apply IH].
      intros R S. inversion R; subst. apply found_Succeeds in S. subst t.
      eapply valid_Validated; eassumption.
Qed.

Lemma findTimeWithBasicRandomization_validated (rt : Runtime)
  (this : CallScheduler) (blockedTimes : list BlockedTime)
  (scheduleHelper : ScheduleHelper) (w w' : World) (r : SchedulingResult)
  (t : Date) :
  findTimeWithBasicRandomization rt this blockedTimes scheduleHelper w
    = (Returned r, w') ->
  Succeeds r t -> Validated rt (user this) t.
Proof.
  unfold findTimeWithBasicRandomization, bind, readClock.
  apply basicLoop_validated.
Qed.

Lemma patternLoop_validated (rt : Runtime) (this : CallScheduler)
  (slots : list Slot) :
  forall (blockedTimes : list BlockedTime) (scheduleHelper : ScheduleHelper)
    (n : nat) (cs : list string) (w w' : World) (r : SchedulingResult)
    (t : Date),
  patternLoop rt this slots blockedTimes scheduleHelper n cs w
    = (Returned r, w') ->
  Succeeds r t -> Validated rt (user this) t.
Proof.
  induction slots as [|slot slots IH]; intros bs h n cs w w' r t.
  - cbn. intros E S. inversion E; subst. now apply notFound_fails in S.
  - cbn [patternLoop]. unfold getNextOccurrenceOfTimeSlot.
    unfold bind at 1 2 3, readClock, drawRandom, ret at 1.
    unfold bind at 1. run_validation.
    destruct (isValid v) eqn:V; [|apply IH].
    intros R S. inversion R; subst. apply found_Succeeds in S. subst t.
    eapply valid_Validated; eassumption.
Qed.

Lemma collectSlots_returns (rt : Runtime) (hours : list Z)
  (startHour endHour : option Z) :
  forall w, exists slots w',
    collectSlots rt hours startHour endHour w = (Returned slots, w').
Proof.
  induction hours as [|h hours IH]; intros w.
  - eexists; eexists; reflexivity.
  - cbn [collectSlots]. destruct (hourInWindow h startHour endHour).
    + unfold bind at 1, drawRandom.
      destruct (IH (mkWorld (reads w) (S (draws w)))) as (slots & w' & E).
      unfold bind at 1. rewrite E. eexists; eexists; reflexivity.
    + apply IH.
Qed.

Lemma findTimeWithPatternOptimization_validated (rt : Runtime)
  (this : CallScheduler) (blockedTimes : list BlockedTime)
  (scheduleHelper : ScheduleHelper) (w w' : World) (r : SchedulingResult)
  (t : Date) :
  findTimeWithPatternOptimization rt this blockedTimes scheduleHelper w
    = (Returned r, w') ->
  Succeeds r t -> Validated rt (user this) t.
Proof.
  unfold findTimeWithPatternOptimization, getPreferredTimeSlots.
  unfold bind at 1 2.
  destruct (collectSlots_returns rt optimalHours
              (fst (parseClock (morning_start (user this))))
              (fst (parseClock (evening_end (user this)))) w)
    as (slots & w1 & E).
  rewrite E. unfold ret at 1. apply patternLoop_validated.
Qed.

(** ** The relaxation strategy *)

Lemma validateCallTime_draws (rt : Runtime) (this : CallScheduler)
  (time : Date) (blockedTimes : list BlockedTime)
  (scheduleHelper : ScheduleHelper) (w w' : World)
  (o : Outcome CallValidationResult) :
  validateCallTime rt this time blockedTimes scheduleHelper w = (o, w') ->
  draws w' = draws w.
Proof.
  rewrite validateCallTime_checks. unfold validateChecks.
  destruct (outsideWindow rt this time); [intros E; now inversion E|].
  destruct (inactiveDay rt this time); [intros E; now inversion E|].
  destruct (minGapSuggestion this time scheduleHelper);
    [intros E; now inversion E|].
  destruct (blockingInterval rt time blockedTimes);
    [intros E; now inversion E|].
  unfold bind, readClock.
  destruct (date_le time _); intros E; now inversion E.
Qed.

Lemma relaxLoop_spec (rt : Runtime) (this : CallScheduler) (fuel : nat)
  (strategy : Relaxation) (blockedTimes : list BlockedTime)
  (scheduleHelper : ScheduleHelper) :
  forall (n : nat) (cs : list string) (w : World),
  exists res w',
    relaxLoop rt this fuel strategy blockedTimes scheduleHelper n cs w
      = (Returned res, w') /\
    match res with
    | inl r =>
        exists t cs',
          r = found t (attemptsOf r) (cs' ++ [description strategy]) /\
          RelaxedAccept rt this strategy blockedTimes scheduleHelper t /\
          (n < attemptsOf r <= n + fuel)%nat /\
          draws w' = (draws w + (attemptsOf r - n))%nat
    | inr (n', _) => n' = (n + fuel)%nat /\ draws w' = (draws w + fuel)%nat
    end.
Proof.
  induction fuel as [|fuel IH]; intros n cs w.
  - exists (inr (n, cs)), w. cbn. split; [reflexivity|]. split; lia.
  - cbn [relaxLoop]. unfold randomBetween.
    unfold bind at 1 2 3, drawRandom, readClock, ret at 1.
    cbn [reads draws]. unfold bind at 1. run_validation.
    destruct (isValid v) eqn:V.
    + eexists; eexists. split; [reflexivity|].
      destruct (validateCallTime_valid _ _ _ _ _ _ _ _ E V)
        as (_ & _ & _ & _ & _ & Hv & Hw).
      eexists; exists cs. cbn [attemptsOf metadata found attempts].
      split; [reflexivity|]. split.
      * eexists; eexists. rewrite <- Hv. exact E.
      * subst w0. cbn [draws]. split; lia.
    + destruct (IH (S n) (noteReason cs v) w0) as (res & w' & R & P).
      exists res, w'. split; [exact R|].
      assert (Hd : draws w0 = S (draws w))
        by (apply validateCallTime_draws in E; exact E).
      destruct res as [r|[n' cs']].
      * destruct P as (t & cs' & Hr & Ha & Hn & Hdr).
        exists t, cs'. repeat split; try assumption; lia.
      * destruct P as [Hn Hdr]. split; lia.
Qed.

Lemma relaxAll_spec (rt : Runtime) (this : CallScheduler) (count : nat)
  (blockedTimes : list BlockedTime) (scheduleHelper : ScheduleHelper)
  (strategies : list Relaxation) :
  let share := Nat.div (maxAttempts this) count in
  forall (n : nat) (cs : list string) (w : World),
  exists r w',
    relaxAll rt this strategies count blockedTimes scheduleHelper n cs w
      = (Returned r, w') /\
    draws w' = (draws w + (attemptsOf r - n))%nat /\
    (success r = false ->
     attemptsOf r = (n + List.length strategies * share)%nat) /\
    (success r = true ->
     exists i s t cs',
       nth_error strategies i = Some s /\
       r = found t (attemptsOf r) (cs' ++ [description s]) /\
       RelaxedAccept rt this s blockedTimes scheduleHelper t /\
       (n + i * share < attemptsOf r <= n + (i + 1) * share)%nat).
Proof.
  intros share. induction strategies as [|s rest IH]; intros n cs w.
  - exists (notFound "All constraint relaxation strategies failed" n cs), w.
    cbn. split; [reflexivity|]. split; [lia|]. split; [intros _; lia|].
    discriminate.
  - cbn [relaxAll]. fold share. unfold bind at 1.
    destruct (relaxLoop_spec rt this share s blockedTimes scheduleHelper n cs w)
      as (res & w1 & E & P).
    rewrite E. destruct res as [r|[n' cs']].
    + destruct P as (t & cs' & Hr & Ha & Hn & Hd).
      exists r, w1. split; [reflexivity|]. split; [exact Hd|]. split.
      * rewrite Hr. discriminate.
      * intros _. exists 0%nat, s, t, cs'. cbn [nth_error].
        repeat split; try assumption; lia.
    + destruct P as [-> Hd].
      destruct (IH (n + share)%nat cs' w1) as (r & w' & R & Hdr & Hf & Hs).
      exists r, w'. split; [exact R|].
      assert (Hge : (n + share <= attemptsOf r)%nat).
      { destruct (success r) eqn:Sr.
        - destruct (Hs eq_refl) as (i & s' & t & c & _ & _ & _ & Hb). lia.
        - rewrite (Hf eq_refl). lia. }
      split; [lia|]. split.
      * intros F. rewrite (Hf F). cbn [List.length]. lia.
      * intros Sr. destruct (Hs Sr) as (i & s' & t & c & Hi & Hr & Ha & Hb).
        exists (S i), s', t, c. cbn [nth_error].
        repeat split; try assumption; lia.
Qed.

Lemma createScheduler_gap (u : User) (options : CallGenerationOptions) :
  Qeq_bool (minGapMinutes (createScheduler u options)) 0 = false.
Proof.
  unfold createScheduler, JS.num_or. cbn [minGapMinutes].
  destruct (opt_minGapMinutes options) as [q|]; [|reflexivity].
  destruct (Qeq_bool q 0) eqn:E; [reflexivity|exact E].
Qed.

Lemma scaled_gap_nonzero (g : Q) (a b : positive) :
  Qeq_bool g 0 = false -> Qeq_bool (g * (Z.pos a # b)) 0 = false.
Proof.
  intros H. destruct (Qeq_bool (g * (Z.pos a # b)) 0) eqn:E; [|reflexivity].
  apply Qeq_bool_iff in E. apply Qmult_integral in E.
  destruct E as [E|E].
  - apply Qeq_bool_iff in E. congruence.
  - discriminate E.
Qed.

(** The gap that each relaxation validates with, the intervals it keeps
    and its tag. *)
Lemma relaxation_settings (this : CallScheduler)
  (blockedTimes : list BlockedTime) :
  Qeq_bool (minGapMinutes this) 0 = false ->
  map (fun s => (minGapMinutes (relaxedScheduler this s),
                 filteredBlocks s blockedTimes, description s))
      (relaxationStrategies this)
  = [ ((minGapMinutes this * (75 # 100))%Q, blockedTimes, "reduced_min_gap");
      ((minGapMinutes this * (5 # 10))%Q, blockedTimes, "minimal_gap");
      (minGapMinutes this,
       filter (fun block => priority block >? 0) blockedTimes,
       "ignore_low_priority_blocks") ].
Proof.
  intros H.
  pose proof (scaled_gap_nonzero _ 75 100 H) as H75.
  pose proof (scaled_gap_nonzero _ 5 10 H) as H50.
  unfold relaxationStrategies, relaxedScheduler, createScheduler, tempMinGap,
    filteredBlocks.
  cbn [map minGap ignoreLowPriorityBlocks description minGapMinutes
       opt_minGapMinutes JS.num_or].
  rewrite H75, H50. rewrite H75, H50, H. reflexivity.
Qed.

Lemma findTimeWithConstraintRelaxation_validated (rt : Runtime)
  (this : CallScheduler) (blockedTimes : list BlockedTime)
  (scheduleHelper : ScheduleHelper) (w w' : World) (r : SchedulingResult)
  (t : Date) :
  findTimeWithConstraintRelaxation rt this blockedTimes scheduleHelper w
    = (Returned r, w') ->
  Succeeds r t -> Validated rt (user this) t.
Proof.
  unfold findTimeWithConstraintRelaxation. intros E [S T].
  destruct (relaxAll_spec rt this (List.length (relaxationStrategies this))
              blockedTimes scheduleHelper (relaxationStrategies this)
              0%nat [] w) as (r' & w1 & E' & _ & _ & Hs).
  rewrite E in E'. inversion E'; subst r' w1.
  destruct (Hs S) as (i & s & t' & cs & _ & Hr & (wa & wb & Ha) & _).
  rewrite Hr in T. cbn in T. inversion T; subst t'.
  exists (relaxedScheduler this s), (filteredBlocks s blockedTimes),
    scheduleHelper, wa, wb.
  split; [reflexivity|exact Ha].
Qed.

Lemma runStrategies_validated (rt : Runtime) (u : User)
  (strategies : list (M SchedulingResult)) :
  (forall s, In s strategies ->
     forall w w' r t, s w = (Returned r, w') -> Succeeds r t ->
                      Validated rt u t) ->
  forall (n : nat) (cs : list string) (w w' : World) (r : SchedulingResult)
    (t : Date),
  runStrategies strategies n cs w = (Returned r, w') ->
  Succeeds r t -> Validated rt u t.
Proof.
  induction strategies as [|s rest IH]; intros Hall n cs w w' r t.
  - cbn. intros E S. inversion E; subst. now apply notFound_fails in S.
  - cbn [runStrategies]. unfold bind at 1.
    destruct (s w) as [[r0|e] w1] eqn:Es; [|discriminate].
    assert (Hrest : forall s', In s' rest ->
              forall w w' r t, s' w = (Returned r, w') -> Succeeds r t ->
                               Validated rt u t)
      by (intros s' Hs'; apply Hall; now right).
    destruct (success r0) eqn:S0; [|apply IH; assumption].
    destruct (nextCallTime r0) as [t0|] eqn:T0; [|apply IH; assumption].
    unfold bind. destruct t0 as [|ms]; cbn; [discriminate|].
    intros E [_ T]. inversion E; subst r.
    cbn [withAttempts nextCallTime] in T. rewrite T0 in T.
    inversion T; subst t.
    eapply Hall; [now left|exact Es|]. split; assumption.
Qed.

Lemma strategySearch_validated (rt : Runtime) (this : CallScheduler)
  (blockedTimes : list BlockedTime) (scheduleHelper : ScheduleHelper)
  (w w' : World) (r : SchedulingResult) (t : Date) :
  strategySearch rt this blockedTimes scheduleHelper w = (Returned r, w') ->
  Succeeds r t -> Validated rt (user this) t.
Proof.
  unfold strategySearch. apply runStrategies_validated.
  intros s [<-|[<-|[<-|[]]]].
  - apply findTimeWithBasicRandomization_validated.
  - apply findTimeWithPatternOptimization_validated.
  - apply findTimeWithConstraintRelaxation_validated.
Qed.

Lemma generateNextCallTime_search (rt : Runtime) (this : CallScheduler)
  (blockedTimes : list BlockedTime) (scheduleHelper : ScheduleHelper)
  (w w' : World) (r : SchedulingResult) :
  calls_today scheduleHelper < daily_call_limit (user this) ->
  generateNextCallTime rt this blockedTimes scheduleHelper w
    = (Returned r, w') ->
  strategySearch rt this blockedTimes scheduleHelper w = (Returned r, w').
Proof.
  intros Hlt. unfold generateNextCallTime, try_catch.
  destruct (calls_today scheduleHelper >=? daily_call_limit (user this)) eqn:G.
  - apply Z.geb_le in G. lia.
  - destruct (strategySearch rt this blockedTimes scheduleHelper w)
      as [[r0|e] w1]; [auto|discriminate].
Qed.

Lemma invalid_date_outside (eh em : Z) :
  0 <= eh < 100 -> JS.str_gt "Inval" (clock5 eh em) = true.
Proof.
  intros H. destruct (two_digits eh H) as (A & _ & _).
  unfold JS.str_gt, String.ltb, clock5, JS.pad2. cbn [append String.compare].
  destruct (digit_cases _ A) as [->|[->|[->|[->|[->|[->|[->|[->|[->| ->]]]]]]]]];
    reflexivity.
Qed.

(** A validated time lies in the daily window, read by the minute, on an
    active day. *)
Lemma Validated_window (rt : Runtime) (u : User) (t : Date)
  (mh mm eh em : Z) (msec esec : option Z) (days : list string) :
  clockField mh mm -> clockField eh em ->
  morning_start u = clockText mh mm msec ->
  evening_end u = clockText eh em esec ->
  active_days u = dayList days -> dayNamesOnly days ->
  Validated rt u t ->
  exists ms, t = At ms /\
    firstMinute mh mm msec * msPerMinute <= msOfDay (tz rt) ms
      < (60 * eh + em + 1) * msPerMinute /\
    In (weekdayShort (tz rt) (At ms)) days.
Proof.
  intros [Hmh Hmm] [Heh Hem] Hm He Ha Hdays
    (sch & bs & h & w & w' & Hu & E).
  destruct (validateCallTime_valid _ _ _ _ _ _ _ _ E eq_refl)
    as (Hw & Hd & _).
  unfold outsideWindow in Hw. unfold inactiveDay in Hd.
  rewrite Hu, Hm, He in Hw. rewrite Hu, Ha in Hd.
  apply orb_false_iff in Hw. destruct Hw as [Hlo Hhi].
  destruct t as [|ms].
  - cbn [toTimeString5] in Hhi. rewrite invalid_date_above in Hhi by lia.
    discriminate.
  - exists ms. split; [reflexivity|].
    pose proof (hoursOf_range (tz rt) ms). pose proof (minutesOf_range (tz rt) ms).
    rewrite toTimeString5_clock in Hlo, Hhi.
    rewrite clockText_lt in Hlo by lia. rewrite clockText_gt in Hhi by lia.
    apply Z.ltb_ge in Hlo, Hhi. split.
    + assert (R : inClosedRange (firstMinute mh mm msec) (60 * eh + em)
                    (minuteOfDay (tz rt) ms) = true).
      { unfold inClosedRange, minuteOfDay.
        apply andb_true_intro; split; apply Z.leb_le; lia. }
      rewrite minutes_of_msOfDay in R. unfold inMinutes in R.
      apply andb_true_iff in R. destruct R as [R1 R2].
      apply Z.leb_le in R1. apply Z.ltb_lt in R2. lia.
    + apply negb_false_iff in Hd.
      rewrite includes_dayList in Hd
        by (assumption || apply weekdayShort_dayName).
      now apply arr_includes_In.
Qed.

(** C1, as the code has it: every time that [validateCallTime] reports
    valid, and every time that [generateNextCallTime] returns from its
    strategy search, is a valid date whose local time of day lies in the
    daily window read by the minute: not before the first minute that is
    not below [morning_start] (the minute of [morning_start] for a string
    [HH:MM], the minute after it for a string [HH:MM:SS]) and before the
    end of the minute of [evening_end]; so a time at [evening_end], and up
    to 59.999 s after it, is accepted.  Its local weekday is among the
    profile's active days.  Local time is the time of the zone the
    scheduler runs in. *)
Theorem accepted_in_closed_window (rt : Runtime) (this : CallScheduler)
  (mh mm eh em : Z) (msec esec : option Z) (days : list string) :
  clockField mh mm -> clockField eh em ->
  morning_start (user this) = clockText mh mm msec ->
  evening_end (user this) = clockText eh em esec ->
  active_days (user this) = dayList days -> dayNamesOnly days ->
  (forall time blockedTimes scheduleHelper w w' v,
     validateCallTime rt this time blockedTimes scheduleHelper w
       = (Returned v, w') ->
     isValid v = true ->
     exists ms, time = At ms /\
       firstMinute mh mm msec * msPerMinute <= msOfDay (tz rt) ms
         < (60 * eh + em + 1) * msPerMinute /\
       In (weekdayShort (tz rt) (At ms)) days)
  /\
  (forall blockedTimes scheduleHelper w w' r time,
     calls_today scheduleHelper < daily_call_limit (user this) ->
     generateNextCallTime rt this blockedTimes scheduleHelper w
       = (Returned r, w') ->
     success r = true -> nextCallTime r = Some time ->
     exists ms, time = At ms /\
       firstMinute mh mm msec * msPerMinute <= msOfDay (tz rt) ms
         < (60 * eh + em + 1) * msPerMinute /\
       In (weekdayShort (tz rt) (At ms)) days).
Proof.
  intros Hm He Ems Eee Ead Hdays. split.
  - intros time bs h w w' v E V.
    eapply Validated_window; try eassumption.
    eapply valid_Validated; eassumption.
  - intros bs h w w' r time Hlt E S T.
    eapply Validated_window; try eassumption.
    eapply strategySearch_validated.
    + eapply generateNextCallTime_search; eassumption.
    + split; assumption.
Qed.

(** ** The daily limit *)

Lemma digit_not_colon (a : Z) : 0 <= a <= 9 ->
  Ascii.eqb (JS.digit_char a) ":" = false.
Proof.
  intros H.
  destruct (digit_cases a H) as [->|[->|[->|[->|[->|[->|[->|[->|[->| ->]]]]]]]]];
    reflexivity.
Qed.

Lemma Number_pad2 (n : Z) : 0 <= n < 100 -> JS.Number (JS.pad2 n) = Some n.
Proof.
  intros H. destruct (two_digits n H) as (A & B & E).
  unfold JS.pad2. rewrite E at 3.
  destruct (digit_cases _ A) as [->|[->|[->|[->|[->|[->|[->|[->|[->| ->]]]]]]]]];
  destruct (digit_cases _ B) as [->|[->|[->|[->|[->|[->|[->|[->|[->| ->]]]]]]]]];
  reflexivity.
Qed.

Lemma parseClock_clock5 (h m : Z) :
  0 <= h < 100 -> 0 <= m < 100 -> parseClock (clock5 h m) = (Some h, Some m).
Proof.
  intros Hh Hm.
  destruct (two_digits h Hh) as (A & B & _).
  destruct (two_digits m Hm) as (C & D & _).
  unfold parseClock, JS.split, clock5.
  pose proof (Number_pad2 h Hh) as Nh. pose proof (Number_pad2 m Hm) as Nm.
  unfold JS.pad2 in *. cbn [append JS.split_acc].
  rewrite !digit_not_colon by assumption.
  cbn [append JS.split_acc Ascii.eqb Bool.eqb map].
  rewrite Nh, Nm. reflexivity.
Qed.

Lemma startOfDay_next (tz ms : Z) :
  startOfDay tz (ms + msPerDay) = startOfDay tz ms + msPerDay.
Proof.
  unfold startOfDay, localTime.
  replace (ms + msPerDay + tz * msPerMinute)
    with (ms + tz * msPerMinute + 1 * msPerDay) by ring.
  rewrite Z.mod_add by (unfold msPerDay; lia). ring.
Qed.

Lemma Qtrunc_inject (a b : Z) : JS.Qtrunc (inject_Z a + inject_Z b) = a + b.
Proof.
  rewrite <- inject_Z_plus. unfold JS.Qtrunc.
  destruct (Qle_bool 0 (inject_Z (a + b))).
  - apply Qfloor_Z.
  - apply Qceiling_Z.
Qed.

Lemma jitter_range (r : Q) : (0 <= r)%Q -> (r < 1)%Q ->
  0 <= Qfloor (r * 60) <= 59.
Proof.
  intros H0 H1. split.
  - change 0 with (Qfloor 0). apply Qfloor_resp_le.
    apply Qmult_le_0_compat; [assumption|discriminate].
  - assert (L : (inject_Z (Qfloor (r * 60)) < inject_Z 60)%Q).
    { eapply Qle_lt_trans; [apply Qfloor_le|].
      change (inject_Z 60) with (1 * 60)%Q.
      apply Qmult_lt_compat_r; [reflexivity|assumption]. }
    rewrite <- Zlt_Qlt in L. lia.
Qed.

(** C3: with the daily limit reached, [generateNextCallTime] runs no
    strategy: it reads the clock once and draws once, and returns a success
    whose time is the morning start of the next local day plus a jitter of
    0 to 59 minutes, with one attempt and the constraints
    [daily_limit_reached], whatever the blocked intervals are. *)
Theorem daily_limit_short_circuit (rt : Runtime) (this : CallScheduler)
  (blockedTimes : list BlockedTime) (scheduleHelper : ScheduleHelper)
  (w : World) (mh mm : Z) :
  calls_today scheduleHelper >= daily_call_limit (user this) ->
  clockField mh mm ->
  morning_start (user this) = clock5 mh mm ->
  (0 <= random rt (draws w))%Q -> (random rt (draws w) < 1)%Q ->
  exists jitter : Z,
    0 <= jitter <= 59 /\
    generateNextCallTime rt this blockedTimes scheduleHelper w
    = (Returned
         (mkResult true
            (Some (At (startOfDay (tz rt) (clock rt (reads w)) + msPerDay
                       + mh * msPerHour + mm * msPerMinute
                       + jitter * msPerMinute)))
            None
            (Some (mkMetadata 1 ["daily_limit_reached"]))),
       mkWorld (S (reads w)) (S (draws w))).
Proof.
  intros Hlimit [Hmh Hmm] Hmorning Hr0 Hr1.
  exists (Qfloor (random rt (draws w) * 60)).
  split; [apply jitter_range; assumption|].
  unfold generateNextCallTime, try_catch.
  assert (G : (calls_today scheduleHelper >=? daily_call_limit (user this))
              = true) by (apply Z.geb_le; lia).
  rewrite G. unfold getNextDayFirstCall.
  rewrite Hmorning, parseClock_clock5 by lia.
  unfold bind, readClock, drawRandom, ret. cbn [reads draws].
  cbn [addDays setHours addToMinutes toISOString].
  unfold throw, ret. rewrite Qtrunc_inject.
  replace (clock rt (reads w) + 1 * msPerDay)
    with (clock rt (reads w) + msPerDay) by ring.
  rewrite startOfDay_next.
  unfold dailyLimitResult, found. repeat f_equal. ring.
Qed.

(** ** An empty set of active days *)

Lemma no_day_is_empty (d : string) : In d dayNames ->
  JS.includes "" d = false /\ JS.arr_includes [""] d = false.
Proof. intros H. each_day H; split; reflexivity. Qed.

Lemma scanActiveDays_empty (rt : Runtime) (this : CallScheduler) (n : nat) :
  forall d : Date, scanActiveDays rt this n [""] d = None.
Proof.
  induction n as [|n IH]; intros d; [reflexivity|].
  cbn [scanActiveDays]. destruct d as [|ms]; cbn [addDays].
  - cbn [dayNameOf]. apply IH.
  - rewrite dayNameOf_weekdayShort.
    destruct (no_day_is_empty _ (weekdayShort_dayName (tz rt)
                                   (ms + 1 * msPerDay))) as [_ ->].
    apply IH.
Qed.

(** C9, as the code has it: for a profile whose [active_days] is empty, a
    candidate inside the daily window is reported invalid with the reason
    [inactive_day]; the scan of the next seven days finds no active day
    and ends, and the suggested time is the fallback, the candidate plus
    24 hours.  The validation returns normally and reads no clock. *)
Theorem empty_active_days_fallback (rt : Runtime) (this : CallScheduler)
  (ms : Z) (blockedTimes : list BlockedTime) (scheduleHelper : ScheduleHelper)
  (w : World) :
  active_days (user this) = "" ->
  outsideWindow rt this (At ms) = false ->
  scanActiveDays rt this 7
    (JS.split "," (active_days (user this))) (At ms) = None
  /\
  validateCallTime rt this (At ms) blockedTimes scheduleHelper w
  = (Returned
       (mkValidation false (Some "inactive_day")
          (Some (At (ms + 24 * 60 * 60 * 1000)))),
     w).
Proof.
  intros Hdays Hwin. split.
  - rewrite Hdays. apply scanActiveDays_empty.
  - rewrite validateCallTime_checks. unfold validateChecks.
    rewrite Hwin. unfold inactiveDay. rewrite Hdays.
    destruct (no_day_is_empty _ (weekdayShort_dayName (tz rt) ms)) as [-> _].
    cbn [negb]. unfold getNextActiveDay. rewrite Hdays.
    change (JS.split "," "") with [""].
    rewrite scanActiveDays_empty. unfold plusMs.
    rewrite Qtrunc_inject. reflexivity.
Qed.

(** ** Validation and the exceptions of its checks *)


(** ** The order of the checks and the suggested time *)

(** C7, as the code has it: [validateCallTime] checks the daily window,
    then the active day, then the minimum gap since the last call, then
    the blocked intervals, then that the time is not past, and reports the
    reason of the first check that fails.  In the basic randomization
    strategy the time suggested with the rejection of a candidate is
    validated once: if it is valid it is returned as the accepted time,
    otherwise the loop goes on to its next candidate.  The preferred-slot
    strategy and the constraint relaxation strategy do not try the
    suggested time: after the one validation of a rejected candidate
    their loops go on to the next candidate, from the state that this
    validation left, and only the reason of the rejection is kept; a
    candidate they accept is returned itself. *)
Theorem validation_order_and_suggestion (rt : Runtime) (this : CallScheduler)
  (blockedTimes : list BlockedTime) (scheduleHelper : ScheduleHelper) :
  (forall (time : Date) (w : World),
     let result := validateCallTime rt this time blockedTimes scheduleHelper w in
     (outsideWindow rt this time = true ->
      result = (Returned (invalid "outside_daily_window"
                            (adjustToTimeWindow rt this time)), w)) /\
     (outsideWindow rt this time = false ->
      (inactiveDay rt this time = true ->
       result = (Returned (invalid "inactive_day"
                             (getNextActiveDay rt this time)), w)) /\
      (inactiveDay rt this time = false ->
       (forall s, minGapSuggestion this time scheduleHelper = Some s ->
          result = (Returned (invalid "min_gap_violation" s), w)) /\
       (minGapSuggestion this time scheduleHelper = None ->
        (forall block, blockingInterval rt time blockedTimes = Some block ->
           result = (Returned
                       (invalid (blockReason block)
                          (findNextAvailableTimeAfterBlock rt this time block)),
                     w)) /\
        (blockingInterval rt time blockedTimes = None ->
         let now := clock rt (reads w) in
         let w' := mkWorld (S (reads w)) (draws w) in
         (date_le time (At now) = true ->
          result = (Returned
                      (invalid "past_time"
                         (plusMs (At now) (minGapMinutes this * 60000))), w'))
         /\
         (date_le time (At now) = false ->
          result = (Returned accepted, w')))))))
  /\
  (forall (fuel : nat) (now : Z) (n : nat) (cs : list string)
     (w w1 w2 : World) (v sv : CallValidationResult) (suggested : Date),
     let candidate :=
       minutesAfter now
         (Qfloor (random rt (draws w)
                  * (maxGapMinutes this - minGapMinutes this)
                  + minGapMinutes this)) in
     validateCallTime rt this candidate blockedTimes scheduleHelper
       (mkWorld (reads w) (S (draws w))) = (Returned v, w1) ->
     isValid v = false ->
     suggestedTime v = Some suggested ->
     validateCallTime rt this suggested blockedTimes scheduleHelper w1
       = (Returned sv, w2) ->
     basicLoop rt this (S fuel) now blockedTimes scheduleHelper n cs w
     = if isValid sv
       then (Returned (found suggested (S n) (noteReason cs v)), w2)
       else basicLoop rt this fuel now blockedTimes scheduleHelper (S n)
              (noteReason cs v) w2)
  /\
  (forall (slot : Slot) (slots : list Slot) (n : nat) (cs : list string)
     (w w1 w2 : World) (candidate : Date) (v : CallValidationResult),
     getNextOccurrenceOfTimeSlot rt slot w = (Returned candidate, w1) ->
     validateCallTime rt this candidate blockedTimes scheduleHelper w1
       = (Returned v, w2) ->
     patternLoop rt this (slot :: slots) blockedTimes scheduleHelper n cs w
     = if isValid v
       then (Returned (found candidate (S n) cs), w2)
       else patternLoop rt this slots blockedTimes scheduleHelper (S n)
              (noteReason cs v) w2)
  /\
  (forall (fuel : nat) (strategy : Relaxation) (n : nat) (cs : list string)
     (w w1 : World) (v : CallValidationResult),
     let candidate :=
       minutesAfter (clock rt (reads w))
         (Qfloor (random rt (draws w)
                  * (maxGapMinutes this - tempMinGap this strategy)
                  + tempMinGap this strategy)) in
     validateCallTime rt (relaxedScheduler this strategy) candidate
       (filteredBlocks strategy blockedTimes) scheduleHelper
       (mkWorld (S (reads w)) (S (draws w))) = (Returned v, w1) ->
     relaxLoop rt this (S fuel) strategy blockedTimes scheduleHelper n cs w
     = if isValid v
       then (Returned (inl (found candidate (S n)
                              (cs ++ [description strategy])%list)), w1)
       else relaxLoop rt this fuel strategy blockedTimes scheduleHelper (S n)
              (noteReason cs v) w1).
Proof.
  split; [|split; [|split]].
  - intros time w result. subst result.
    rewrite validateCallTime_checks. unfold validateChecks.
    split; [intros ->; reflexivity|]. intros ->.
    split; [intros ->; reflexivity|]. intros ->.
    split; [intros s ->; reflexivity|]. intros ->.
    split; [intros block ->; reflexivity|]. intros ->.
    unfold bind, readClock. split; intros ->; reflexivity.
  - intros fuel now n cs w w1 w2 v sv suggested candidate Ev Vv Sv Esv.
    cbn [basicLoop]. unfold randomBetween.
    unfold bind at 1 2, drawRandom, ret at 1. unfold bind at 1.
    fold candidate. rewrite Ev, Vv, Sv. unfold bind at 1. rewrite Esv.
    destruct (isValid sv); reflexivity.
  - intros slot slots n cs w w1 w2 candidate v Ec Ev.
    cbn [patternLoop]. unfold bind at 1. rewrite Ec.
    unfold bind at 1. rewrite Ev. destruct (isValid v); reflexivity.
  - intros fuel strategy n cs w w1 v candidate Ev.
    cbn [relaxLoop]. unfold randomBetween.
    unfold bind at 1 2, drawRandom, ret at 1. unfold bind at 1, readClock.
    cbn [reads draws]. unfold bind at 1. fold candidate. rewrite Ev.
    destruct (isValid v); reflexivity.
Qed.

(** ** Which blocked interval is reported *)

Lemma find_first {A : Type} (p : A -> bool) (l : list A) (x : A) :
  find p l = Some x ->
  exists before after,
    l = (before ++ x :: after)%list /\ p x = true /\
    forall y, In y before -> p y = false.
Proof.
  induction l as [|a l IH]; [discriminate|]. cbn [find].
  destruct (p a) eqn:Pa.
  - intros E. inversion E; subst a. exists [], l.
    split; [reflexivity|]. split; [exact Pa|]. intros y [].
  - intros E. destruct (IH E) as (before & after & -> & Px & Hb).
    exists (a :: before), after. split; [reflexivity|]. split; [exact Px|].
    intros y [<-|Hy]; [exact Pa|now apply Hb].
Qed.

Lemma filter_sorted {A : Type} (R : A -> A -> Prop) (p : A -> bool)
  (l : list A) :
  StronglySorted R l -> StronglySorted R (filter p l).
Proof.
  induction 1 as [|a l Hs IH Ha]; cbn [filter]; [constructor|].
  destruct (p a); [|exact IH]. constructor; [exact IH|].
  rewrite Forall_forall in *. intros y Hy. apply filter_In in Hy.
  apply Ha. tauto.
Qed.

Lemma sorted_app_head {A : Type} (R : A -> A -> Prop) (before after : list A)
  (x : A) :
  StronglySorted R (before ++ x :: after)%list -> Forall (R x) after.
Proof.
  induction before as [|a before IH]; cbn [app]; intros H; inversion H; subst.
  - assumption.
  - now apply IH.
Qed.

(** C6, as the code has it: when the earlier checks pass and some active
    interval blocks the candidate, the validation reports the first such
    interval in the order of the array it was given: its reason and its
    suggested time come from that interval.  When the array is ordered by
    descending priority, as [getBlockedTimes] answers it, no active
    interval that blocks the candidate has a larger priority than the
    reported one. *)
Theorem reports_first_blocking_interval (rt : Runtime) (this : CallScheduler)
  (time : Date) (blockedTimes : list BlockedTime)
  (scheduleHelper : ScheduleHelper) (w : World) (block : BlockedTime) :
  outsideWindow rt this time = false ->
  inactiveDay rt this time = false ->
  minGapSuggestion this time scheduleHelper = None ->
  blockingInterval rt time blockedTimes = Some block ->
  validateCallTime rt this time blockedTimes scheduleHelper w
  = (Returned
       (mkValidation false (Some (blockReason block))
          (Some (findNextAvailableTimeAfterBlock rt this time block))), w)
  /\
  (exists before after,
     filter is_active blockedTimes = (before ++ block :: after)%list /\
     isTimeInBlockedPeriod rt time block = true /\
     forall b, In b before -> isTimeInBlockedPeriod rt time b = false)
  /\
  (priorityDescending blockedTimes ->
   forall b, In b blockedTimes -> is_active b = true ->
             isTimeInBlockedPeriod rt time b = true ->
             priority b <= priority block).
Proof.
  intros Hw Hd Hg Hb.
  destruct (find_first _ _ _ Hb) as (before & after & Ef & Pb & Hbefore).
  split; [|split].
  - rewrite validateCallTime_checks. unfold validateChecks.
    rewrite Hw, Hd, Hg, Hb. reflexivity.
  - exists before, after. auto.
  - intros Hs b Hin Hact Hblk.
    assert (Hf : In b (filter is_active blockedTimes))
      by (apply filter_In; auto).
    apply (filter_sorted _ is_active) in Hs. rewrite Ef in Hs, Hf.
    apply in_app_or in Hf. destruct Hf as [Hf|[<-|Hf]].
    + rewrite (Hbefore b Hf) in Hblk. discriminate.
    + lia.
    + apply sorted_app_head in Hs. rewrite Forall_forall in Hs.
      now apply Hs.
Qed.

(** ** The order and the budget of the relaxations *)

(** C8, as the code has it: the constraint relaxation strategy runs three
    relaxations in this order: the minimum gap at 75% of the nominal gap,
    then at 50%, then the nominal gap without the blocked intervals whose
    priority is not above 0.  Each relaxation makes at most
    [floor(maxAttempts / 3)] attempts, one draw each; a failure has used
    all three shares; a success found by the relaxation of index [i] has
    its time validated under that relaxation, the tag of that relaxation
    as the last of its constraints, and an attempt count within the share
    of that relaxation. *)
Theorem relaxation_order_and_budget (rt : Runtime) (u : User)
  (options : CallGenerationOptions) (blockedTimes : list BlockedTime)
  (scheduleHelper : ScheduleHelper) (w : World) :
  let this := createScheduler u options in
  let share := Nat.div (maxAttempts this) 3 in
  map (fun s => (minGapMinutes (relaxedScheduler this s),
                 filteredBlocks s blockedTimes, description s))
      (relaxationStrategies this)
  = [ ((minGapMinutes this * (75 # 100))%Q, blockedTimes, "reduced_min_gap");
      ((minGapMinutes this * (5 # 10))%Q, blockedTimes, "minimal_gap");
      (minGapMinutes this,
       filter (fun block => priority block >? 0) blockedTimes,
       "ignore_low_priority_blocks") ]
  /\
  exists r w',
    findTimeWithConstraintRelaxation rt this blockedTimes scheduleHelper w
      = (Returned r, w') /\
    draws w' = (draws w + attemptsOf r)%nat /\
    (attemptsOf r <= 3 * share)%nat /\
    (success r = false -> attemptsOf r = (3 * share)%nat) /\
    (success r = true ->
     exists i s t cs,
       nth_error (relaxationStrategies this) i = Some s /\
       r = found t (attemptsOf r) (cs ++ [description s]) /\
       RelaxedAccept rt this s blockedTimes scheduleHelper t /\
       (i * share < attemptsOf r <= (i + 1) * share)%nat).
Proof.
  intros this share. split.
  - apply relaxation_settings. apply createScheduler_gap.
  - destruct (relaxAll_spec rt this 3 blockedTimes scheduleHelper
                (relaxationStrategies this) 0%nat [] w)
      as (r & w' & E & Hd & Hf & Hs).
    exists r, w'. split; [exact E|]. split; [lia|].
    fold share in Hf, Hs. cbn [List.length relaxationStrategies] in Hf.
    split; [|split].
    + destruct (success r) eqn:Sr.
      * destruct (Hs eq_refl) as (i & s & t & cs & Hi & _ & _ & Hb).
        assert (i < 3)%nat.
        { change 3%nat with (List.length (relaxationStrategies this)).
          apply nth_error_Some. rewrite Hi. discriminate. }
        cbn [Nat.add] in Hb. nia.
      * rewrite (Hf eq_refl). lia.
    + intros F. rewrite (Hf F). lia.
    + intros Sr. destruct (Hs Sr) as (i & s & t & cs & Hi & Hr & Ha & Hb).
      exists i, s, t, cs. repeat split; try assumption; lia.
Qed.

(** ** What the scheduler reads of the schedule state *)

(** The scheduler reads two fields of the schedule state: the time of the
    last call and the count of the day. *)
Section SameSchedule.

Variable rt : Runtime.
Variables h h' : ScheduleHelper.
Hypothesis Hlast : last_call_time h = last_call_time h'.

Lemma validateCallTime_same (sch : CallScheduler) (time : Date)
  (blockedTimes : list BlockedTime) (w : World) :
  validateCallTime rt sch time blockedTimes h w
  = validateCallTime rt sch time blockedTimes h' w.
Proof.
  unfold validateCallTime, validateCallTimeRaw, guardValidation, try_catch,
    validateChecksRaw, minGapSuggestion.
  rewrite Hlast. reflexivity.
Qed.

Lemma basicLoop_same (this : CallScheduler) (now : Z)
  (blockedTimes : list BlockedTime) (fuel : nat) :
  forall (n : nat) (cs : list string) (w : World),
    basicLoop rt this fuel now blockedTimes h n cs w
    = basicLoop rt this fuel now blockedTimes h' n cs w.
Proof.
  induction fuel as [|fuel IH]; intros n cs w; [reflexivity|].
  cbn [basicLoop]. unfold bind.
  destruct (randomBetween rt _ _ w) as [[a|e] w1]; [|reflexivity].
  rewrite validateCallTime_same.
  destruct (validateCallTime rt this _ blockedTimes h' w1) as [[v|e] w2];
    [|reflexivity].
  destruct (isValid v); [reflexivity|].
  destruct (suggestedTime v) as [s|]; [|apply IH].
  rewrite validateCallTime_same.
  destruct (validateCallTime rt this s blockedTimes h' w2) as [[sv|e] w3];
    [|reflexivity].
  destruct (isValid sv); [reflexivity|apply IH].
Qed.

Lemma patternLoop_same (this : CallScheduler)
  (blockedTimes : list BlockedTime) (slots : list Slot) :
  forall (n : nat) (cs : list string) (w : World),
    patternLoop rt this slots blockedTimes h n cs w
    = patternLoop rt this slots blockedTimes h' n cs w.
Proof.
  induction slots as [|slot slots IH]; intros n cs w; [reflexivity|].
  cbn [patternLoop]. unfold bind.
  destruct (getNextOccurrenceOfTimeSlot rt slot w) as [[p|e] w1];
    [|reflexivity].
  rewrite validateCallTime_same.
  destruct (validateCallTime rt this p blockedTimes h' w1) as [[v|e] w2];
    [|reflexivity].
  destruct (isValid v); [reflexivity|apply IH].
Qed.

Lemma relaxLoop_same (this : CallScheduler) (strategy : Relaxation)
  (blockedTimes : list BlockedTime) (fuel : nat) :
  forall (n : nat) (cs : list string) (w : World),
    relaxLoop rt this fuel strategy blockedTimes h n cs w
    = relaxLoop rt this fuel strategy blockedTimes h' n cs w.
Proof.
  induction fuel as [|fuel IH]; intros n cs w; [reflexivity|].
  cbn [relaxLoop]. unfold bind.
  destruct (randomBetween rt _ _ w) as [[a|e] w1]; [|reflexivity].
  destruct (readClock rt w1) as [[now|e] w2]; [|reflexivity].
  rewrite validateCallTime_same.
  destruct (validateCallTime rt _ _ _ h' w2) as [[v|e] w3]; [|reflexivity].
  destruct (isValid v); [reflexivity|apply IH].
Qed.

Lemma relaxAll_same (this : CallScheduler) (count : nat)
  (blockedTimes : list BlockedTime) (strategies : list Relaxation) :
  forall (n : nat) (cs : list string) (w : World),
    relaxAll rt this strategies count blockedTimes h n cs w
    = relaxAll rt this strategies count blockedTimes h' n cs w.
Proof.
  induction strategies as [|s rest IH]; intros n cs w; [reflexivity|].
  cbn [relaxAll]. unfold bind. rewrite relaxLoop_same.
  destruct (relaxLoop rt this _ s blockedTimes h' n cs w)
    as [[[r|[n' cs']]|e] w1]; [reflexivity|apply IH|reflexivity].
Qed.

Lemma runStrategies_pointwise (strategies others : list (M SchedulingResult)) :
  Forall2 (fun s s' => forall w, s w = s' w) strategies others ->
  forall (n : nat) (cs : list string) (w : World),
    runStrategies strategies n cs w = runStrategies others n cs w.
Proof.
  induction 1 as [|s s' l l' Hs _ IH]; intros n cs w; [reflexivity|].
  cbn [runStrategies]. unfold bind. rewrite Hs.
  destruct (s' w) as [[r|e] w1]; [|reflexivity].
  destruct (success r); [|apply IH].
  destruct (nextCallTime r); [reflexivity|apply IH].
Qed.

Lemma strategySearch_same (this : CallScheduler)
  (blockedTimes : list BlockedTime) (w : World) :
  strategySearch rt this blockedTimes h w
  = strategySearch rt this blockedTimes h' w.
Proof.
  unfold strategySearch. apply runStrategies_pointwise.
  repeat constructor.
  - intros w0. unfold findTimeWithBasicRandomization, bind.
    destruct (readClock rt w0) as [[now|e] w1]; [|reflexivity].
    apply basicLoop_same.
  - intros w0. unfold findTimeWithPatternOptimization, bind.
    destruct (getPreferredTimeSlots rt this w0) as [[slots|e] w1];
      [|reflexivity].
    apply patternLoop_same.
  - intros w0. unfold findTimeWithConstraintRelaxation. apply relaxAll_same.
Qed.

Hypothesis Hcalls : calls_today h = calls_today h'.

Lemma generateNextCallTime_same (this : CallScheduler)
  (blockedTimes : list BlockedTime) (w : World) :
  generateNextCallTime rt this blockedTimes h w
  = generateNextCallTime rt this blockedTimes h' w.
Proof.
  unfold generateNextCallTime, try_catch. rewrite Hcalls.
  destruct (calls_today h' >=? daily_call_limit (user this));
    [reflexivity|].
  rewrite strategySearch_same. reflexivity.
Qed.

End SameSchedule.

(** ** The version token *)

Lemma filter_andb {A : Type} (f g : A -> bool) (l : list A) :
  filter (fun x => f x && g x) l = filter g (filter f l).
Proof.
  induction l as [|a l IH]; [reflexivity|]. cbn [filter].
  destruct (f a); cbn [andb filter]; [destruct (g a)|]; now rewrite IH.
Qed.

Lemma selected_rows (userId : string) (v : Z) (table : Table) :
  filter (rowSelected userId (Some v)) table
  = filter (fun row => lock_version row =? v) (rowsOf userId table).
Proof. unfold rowSelected, rowsOf. apply filter_andb. Qed.

Lemma updateRow_user (userId : string) (updates : ScheduleUpdates)
  (expected : option Z) (row : ScheduleHelper) :
  user_id (updateRow userId updates expected row) = user_id row.
Proof. unfold updateRow. destruct (rowSelected _ _ _); reflexivity. Qed.

Lemma rowsOf_map (userId : string) (f : ScheduleHelper -> ScheduleHelper)
  (table : Table) :
  (forall row, user_id (f row) = user_id row) ->
  rowsOf userId (map f table) = map f (rowsOf userId table).
Proof.
  intros Hf. unfold rowsOf. induction table as [|a table IH]; [reflexivity|].
  cbn [map filter]. rewrite Hf.
  destruct (String.eqb (user_id a) userId); cbn [map]; now rewrite IH.
Qed.

Lemma update_succeeds (table : Table) (userId : string)
  (updates : ScheduleUpdates) (v : Z) (row : ScheduleHelper) :
  v <> 0 ->
  rowsOf userId table = [row] ->
  lock_version row = v ->
  updateScheduleHelper userId updates (Some v) table
  = (Returned (applyUpdates updates (Some (v + 1)) row),
     map (updateRow userId updates (Some v)) table).
Proof.
  intros Hv Hrows Hrow.
  unfold updateScheduleHelper, withRetry, MAX_RETRIES. cbn [retryLoop].
  unfold updateScheduleHelperOnce. rewrite selected_rows, Hrows.
  cbn [filter]. apply Z.eqb_eq in Hrow. rewrite Hrow. cbn [map].
  unfold nextVersion. apply Z.eqb_neq in Hv. rewrite Hv. reflexivity.
Qed.

Lemma update_conflicts (table : Table) (userId : string)
  (updates : ScheduleUpdates) (v : Z) (row : ScheduleHelper) :
  rowsOf userId table = [row] ->
  lock_version row <> v ->
  updateScheduleHelper userId updates (Some v) table
  = (Thrown concurrentModificationError, table).
Proof.
  intros Hrows Hrow.
  assert (E : updateScheduleHelperOnce userId updates (Some v) table
              = (Thrown (ValidationError concurrentModificationMessage),
                 table)).
  { unfold updateScheduleHelperOnce. rewrite selected_rows, Hrows.
    cbn [filter]. apply Z.eqb_neq in Hrow. rewrite Hrow. reflexivity. }
  unfold updateScheduleHelper, withRetry, MAX_RETRIES. cbn [retryLoop].
  rewrite !E. reflexivity.
Qed.


(** ** Where the code departs from the specification *)

(** C1 as stated fails at the end of the window: with the window 09:00 to
    21:00, the time 21:00 is reported valid, and so is 21:00:30; neither
    is before the end of the window. *)
Lemma window_end_is_accepted :
  let rt := tokyo t0900 (1 # 2) in
  let t := t0900 + 12 * msPerHour in
  validateCallTime rt sampleScheduler (At t) [] sampleHelper start
    = (Returned accepted, mkWorld 1 0) /\
  evening_end (user sampleScheduler) = clock5 21 0 /\
  ~ (minuteOfDay (tz rt) t < 60 * 21 + 0) /\
  validateCallTime rt sampleScheduler (At (t + 30000)) [] sampleHelper start
    = (Returned accepted, mkWorld 1 0) /\
  msOfDay (tz rt) (t + 30000) = 21 * msPerHour + 30000.
Proof.
  cbv zeta. split; [vm_compute; reflexivity|].
  split; [reflexivity|]. split; [vm_compute; discriminate|].
  split; vm_compute; reflexivity.
Qed.


(** C4 as stated fails: [generateNextCallTime] does not look at
    [daily_reset_date]; on a state of the day before whose count has
    reached the limit it takes the daily-limit branch. *)
Lemma stale_date_still_short_circuits :
  let rt := tokyo t0900 (1 # 2) in
  daily_reset_date staleHelper <> isoDate (clock rt 0) /\
  calls_today staleHelper >= daily_call_limit (user sampleScheduler) /\
  generateNextCallTime rt sampleScheduler [lunch] staleHelper start
  = (Returned (found (At 1698280200000) 1 ["daily_limit_reached"]),
     mkWorld 1 1).
Proof.
  cbv zeta. split; [vm_compute; discriminate|].
  split; [vm_compute; discriminate|]. vm_compute. reflexivity.
Qed.

(** C5 as stated fails at both ends of the range.  An interval stored
    as 12:00:00 to 13:00:00 does not block the candidate at 12:00:00
    sharp, a time of day inside the closed range; and the interval 12:00
    to 13:00 blocks the candidate at 13:00:30, half a minute past its
    end. *)
Lemma range_ends_are_read_by_minute :
  let rt := tokyo t0900 (1 # 2) in
  let noon := t0900 + 3 * msPerHour in
  let afterOne := t0900 + 4 * msPerHour + 30000 in
  (start_time lunchStored = "12:00:00" /\
   end_time lunchStored = "13:00:00" /\
   dayMatchRule (repeat_type lunchStored) []
     (weekdayShort (tz rt) (At noon)) = true /\
   msOfDay (tz rt) noon = 12 * msPerHour /\
   isTimeInBlockedPeriod rt (At noon) lunchStored = false)
  /\
  (end_time lunch = "13:00" /\
   msOfDay (tz rt) afterOne = 13 * msPerHour + 30000 /\
   isTimeInBlockedPeriod rt (At afterOne) lunch = true).
Proof. cbv zeta. repeat split; vm_compute; reflexivity. Qed.

(** C6 as stated fails on an array that is not ordered by priority: of two
    active intervals that block 12:30, the one reported is the first of
    the array, of priority 1, not the one of priority 5. *)
Lemma first_match_not_highest_priority :
  let rt := tokyo t0900 (1 # 2) in
  let t := At (t0900 + 3 * msPerHour + 30 * msPerMinute) in
  isTimeInBlockedPeriod rt t lunch = true /\
  isTimeInBlockedPeriod rt t meeting = true /\
  priority lunch < priority meeting /\
  fst (validateCallTime rt sampleScheduler t [lunch; meeting] sampleHelper
         start)
  = Returned (invalid (blockReason lunch)
                (findNextAvailableTimeAfterBlock rt sampleScheduler t lunch)).
Proof.
  cbv zeta. split; [vm_compute; reflexivity|].
  split; [vm_compute; reflexivity|]. split; [vm_compute; reflexivity|].
  vm_compute. reflexivity.
Qed.

(** C7 as stated fails in the preferred-slot strategy: its only candidate,
    09:45, is rejected with the suggestion 10:30; that suggestion is valid,
    yet the strategy does not try it and fails. *)
Lemma pattern_strategy_ignores_suggestion :
  let rt := tokyo t0900 0 in
  let candidate := At (t0900 + 45 * msPerMinute) in
  let suggestion := At (t0900 + 90 * msPerMinute) in
  fst (validateCallTime rt narrowScheduler candidate [] sampleHelper
         (mkWorld 1 2))
  = Returned (invalid "outside_daily_window" suggestion) /\
  fst (validateCallTime rt narrowScheduler suggestion [] sampleHelper
         (mkWorld 1 2))
  = Returned accepted /\
  findTimeWithPatternOptimization rt narrowScheduler [] sampleHelper start
  = (Returned (notFound "No valid time slots found in preferred patterns" 1
                 ["outside_daily_window"]),
     mkWorld 1 2).
Proof.
  cbv zeta. split; [vm_compute; reflexivity|].
  split; vm_compute; reflexivity.
Qed.

(** C8 as stated fails in its first pass: the relaxation strategy accepts
    at its first attempt, under the tag [reduced_min_gap], a time 37
    minutes after the last call, which the nominal gap of 45 minutes
    rejects; no pass at 100% precedes the pass at 75%. *)
Lemma relaxation_starts_at_reduced_gap :
  let rt := tokyo t0900 (1 # 100) in
  let t := At (t0900 + 37 * msPerMinute) in
  findTimeWithConstraintRelaxation rt sampleScheduler [] (calledAt t0900) start
  = (Returned (found t 1 ["reduced_min_gap"]), mkWorld 2 1) /\
  fst (validateCallTime rt sampleScheduler t [] (calledAt t0900) start)
  = Returned (invalid "min_gap_violation" (At (t0900 + 45 * msPerMinute))) /\
  List.length (relaxationStrategies sampleScheduler) = 3%nat.
Proof.
  cbv zeta. split; [vm_compute; reflexivity|].
  split; [vm_compute; reflexivity|]. reflexivity.
Qed.

(** C9 as stated fails: with no active day the validation throws nothing;
    it returns the reason [inactive_day] with the fallback time, the
    candidate plus 24 hours, and the whole generation returns a failure
    result after its attempt budgets. *)
Lemma empty_active_days_returns_fallback :
  let rt := tokyo t0900 (1 # 2) in
  let t := t0900 + 60 * msPerMinute in
  validateCallTime rt noDaysScheduler (At t) [] sampleHelper start
  = (Returned (invalid "inactive_day" (At (t + msPerDay))), start) /\
  fst (generateNextCallTime rt noDaysScheduler [] sampleHelper start)
  = Returned (notFound "Unable to find valid call time within constraints"
                104 ["inactive_day"; "inactive_day"; "inactive_day"]).
Proof. cbv zeta. split; vm_compute; reflexivity. Qed.


(** ** The theorems at sample inputs *)

Lemma allDays_dayNamesOnly : dayNamesOnly allDays.
Proof. intros d H. simpl in *. tauto. Defined.

Lemma accepted_in_closed_window_witness :
  exists ms, At (t0900 + 12 * msPerHour + 30000) = At ms /\
    firstMinute 9 0 (Some 0) * msPerMinute
      <= msOfDay (tz (tokyo t0900 (1 # 2))) ms
      < (60 * 21 + 0 + 1) * msPerMinute /\
    In (weekdayShort (tz (tokyo t0900 (1 # 2))) (At ms)) allDays.
Proof.
  destruct (accepted_in_closed_window (tokyo t0900 (1 # 2))
              storedScheduler 9 0 21 0 (Some 0) (Some 0) allDays) as [H _].
  - unfold clockField. lia.
  - unfold clockField. lia.
  - reflexivity.
  - reflexivity.
  - reflexivity.
  - exact allDays_dayNamesOnly.
  - apply (H (At (t0900 + 12 * msPerHour + 30000)) [] sampleHelper start
             (mkWorld 1 0) accepted).
    + vm_compute. reflexivity.
    + reflexivity.
Defined.


Lemma daily_limit_short_circuit_witness :
  exists jitter : Z,
    0 <= jitter <= 59 /\
    generateNextCallTime (tokyo t0900 (1 # 2)) sampleScheduler [lunch]
      staleHelper start
    = (Returned
         (mkResult true
            (Some (At (startOfDay 540 t0900 + msPerDay
                       + 9 * msPerHour + 0 * msPerMinute
                       + jitter * msPerMinute)))
            None
            (Some (mkMetadata 1 ["daily_limit_reached"]))),
       mkWorld 1 1).
Proof.
  apply (daily_limit_short_circuit (tokyo t0900 (1 # 2)) sampleScheduler
           [lunch] staleHelper start 9 0).
  - vm_compute. discriminate.
  - unfold clockField. lia.
  - reflexivity.
  - vm_compute. discriminate.
  - vm_compute. reflexivity.
Defined.


Lemma blocked_period_rule_witness :
  isTimeInBlockedPeriod (tokyo t0900 (1 # 2)) (At (t0900 + 4 * msPerHour))
    lunchStored = true /\
  isTimeInBlockedPeriod (tokyo t0900 (1 # 2)) (At (t0900 + 3 * msPerHour))
    lunchStored = false.
Proof.
  split.
  - apply (blocked_period_rule (tokyo t0900 (1 # 2)) (t0900 + 4 * msPerHour)
             lunchStored [] 12 0 13 0 (Some 0) (Some 0)).
    + unfold clockField. lia.
    + unfold clockField. lia.
    + reflexivity.
    + reflexivity.
    + discriminate.
    + reflexivity.
    + vm_compute. discriminate.
    + vm_compute. split; [discriminate|reflexivity].
  - apply (blocked_period_rule (tokyo t0900 (1 # 2)) (t0900 + 3 * msPerHour)
             lunchStored [] 12 0 13 0 (Some 0) (Some 0)).
    + unfold clockField. lia.
    + unfold clockField. lia.
    + reflexivity.
    + reflexivity.
    + discriminate.
    + discriminate.
    + vm_compute. split; [discriminate|reflexivity].
Defined.

Lemma reports_first_blocking_interval_witness :
  let rt := tokyo t0900 (1 # 2) in
  let t := At (t0900 + 3 * msPerHour + 30 * msPerMinute) in
  validateCallTime rt sampleScheduler t [meeting; lunch] sampleHelper start
  = (Returned
       (mkValidation false (Some "blocked_team_meeting")
          (Some (findNextAvailableTimeAfterBlock rt sampleScheduler t
                   meeting))), start)
  /\ priority lunch <= priority meeting.
Proof.
  cbv zeta.
  destruct (reports_first_blocking_interval (tokyo t0900 (1 # 2))
              sampleScheduler (At (t0900 + 3 * msPerHour + 30 * msPerMinute))
              [meeting; lunch] sampleHelper start meeting)
    as (H1 & _ & H3).
  - vm_compute. reflexivity.
  - vm_compute. reflexivity.
  - reflexivity.
  - vm_compute. reflexivity.
  - split; [exact H1|]. apply H3.
    + repeat constructor. vm_compute. discriminate.
    + right. left. reflexivity.
    + reflexivity.
    + vm_compute. reflexivity.
Defined.

Lemma validation_order_and_suggestion_witness :
  let rt := tokyo t0900 0 in
  let rejection :=
    invalid "outside_daily_window" (At (t0900 + 90 * msPerMinute)) in
  let relaxation :=
    mkRelaxation (Some (minGapMinutes narrowScheduler * (75 # 100))%Q) false
      "reduced_min_gap" in
  basicLoop rt narrowScheduler 1 t0900 [] sampleHelper 0 [] start
  = (Returned (found (At (t0900 + 90 * msPerMinute)) 1
                 ["outside_daily_window"]),
     mkWorld 1 1)
  /\
  patternLoop rt narrowScheduler [mkSlot 10 0] [] sampleHelper 0 []
    (mkWorld 0 1)
  = patternLoop rt narrowScheduler [] [] sampleHelper 1
      (noteReason [] rejection) (mkWorld 1 2)
  /\
  relaxLoop rt narrowScheduler 1 relaxation [] sampleHelper 0 [] start
  = relaxLoop rt narrowScheduler 0 relaxation [] sampleHelper 1
      (noteReason [] rejection) (mkWorld 1 1).
Proof.
  cbv zeta.
  destruct (validation_order_and_suggestion (tokyo t0900 0) narrowScheduler []
              sampleHelper) as (_ & H & P & R).
  split; [|split].
  - apply (H 0%nat t0900 0%nat [] start (mkWorld 0 1) (mkWorld 1 1)
             (invalid "outside_daily_window" (At (t0900 + 90 * msPerMinute)))
             accepted (At (t0900 + 90 * msPerMinute))).
    + vm_compute. reflexivity.
    + reflexivity.
    + reflexivity.
    + vm_compute. reflexivity.
  - apply (P (mkSlot 10 0) [] 0%nat [] (mkWorld 0 1) (mkWorld 1 2)
             (mkWorld 1 2) (At (t0900 + 45 * msPerMinute))
             (invalid "outside_daily_window"
                (At (t0900 + 90 * msPerMinute)))).
    + vm_compute. reflexivity.
    + vm_compute. reflexivity.
  - apply (R 0%nat
             (mkRelaxation
                (Some (minGapMinutes narrowScheduler * (75 # 100))%Q) false
                "reduced_min_gap")
             0%nat [] start (mkWorld 1 1)
             (invalid "outside_daily_window"
                (At (t0900 + 90 * msPerMinute)))).
    vm_compute. reflexivity.
Defined.

Lemma relaxation_order_and_budget_witness :
  map (fun s => (minGapMinutes (relaxedScheduler sampleScheduler s),
                 filteredBlocks s [lunch], description s))
      (relaxationStrategies sampleScheduler)
  = [ ((minGapMinutes sampleScheduler * (75 # 100))%Q, [lunch],
       "reduced_min_gap");
      ((minGapMinutes sampleScheduler * (5 # 10))%Q, [lunch], "minimal_gap");
      (minGapMinutes sampleScheduler,
       filter (fun block => priority block >? 0) [lunch],
       "ignore_low_priority_blocks") ].
Proof.
  apply (relaxation_order_and_budget (tokyo t0900 (1 # 2)) sampleUser
           noOptions [lunch] sampleHelper start).
Defined.

Lemma empty_active_days_fallback_witness :
  validateCallTime (tokyo t0900 (1 # 2)) noDaysScheduler
    (At (t0900 + 60 * msPerMinute)) [] sampleHelper start
  = (Returned
       (mkValidation false (Some "inactive_day")
          (Some (At (t0900 + 60 * msPerMinute + 24 * 60 * 60 * 1000)))),
     start).
Proof.
  apply (empty_active_days_fallback (tokyo t0900 (1 # 2)) noDaysScheduler
           (t0900 + 60 * msPerMinute) [] sampleHelper start).
  - reflexivity.
  - vm_compute. reflexivity.
Defined.


(** ** What a validation result carries *)

(** X1: every rejection of [validateCallTime] carries a reason, which is
    not the empty string and not [validation_error], together with a
    suggested time; an acceptance carries neither. *)
Theorem rejection_carries_suggestion (rt : Runtime) (this : CallScheduler)
  (time : Date) (blockedTimes : list BlockedTime)
  (scheduleHelper : ScheduleHelper) (w w' : World) (v : CallValidationResult) :
  validateCallTime rt this time blockedTimes scheduleHelper w
    = (Returned v, w') ->
  (isValid v = false ->
   exists why suggestion,
     v = mkValidation false (Some why) (Some suggestion) /\ why <> "" /\
     (why = "validation_error" -> False))
  /\ (isValid v = true -> v = mkValidation true None None).
Proof. apply validation_shape. Qed.

Lemma find_none_all {A : Type} (p : A -> bool) (l : list A) :
  find p l = None -> forall x, In x l -> p x = false.
Proof. intros H x Hx. exact (find_none p l H x Hx). Qed.

Lemma validated_facts (rt : Runtime) (this : CallScheduler)
  (t : Z) (blockedTimes : list BlockedTime) (scheduleHelper : ScheduleHelper)
  (w w' : World) (v : CallValidationResult) :
  validateCallTime rt this (At t) blockedTimes scheduleHelper w
    = (Returned v, w') ->
  isValid v = true ->
  clock rt (reads w) < t /\
  (forall lastCall, last_call_time scheduleHelper = Some (At lastCall) ->
     (minGapMinutes this * 60000 <= inject_Z (t - lastCall))%Q) /\
  (forall block, In block blockedTimes -> is_active block = true ->
     isTimeInBlockedPeriod rt (At t) block = false).
Proof.
  intros E V.
  destruct (validateCallTime_valid _ _ _ _ _ _ _ _ E V)
    as (_ & _ & Hgap & Hblock & Hpast & _ & _).
  split; [|split].
  - cbn [date_le] in Hpast. apply Z.leb_gt in Hpast. exact Hpast.
  - intros lastCall Hlast. unfold minGapSuggestion in Hgap.
    rewrite Hlast in Hgap.
    destruct (JS.Qlt_bool _ _) eqn:Q; [discriminate|].
    unfold JS.Qlt_bool in Q. apply negb_false_iff in Q.
    apply Qle_bool_iff in Q.
    apply (Qmult_le_r _ _ 60000) in Q; [|reflexivity].
    eapply Qle_trans; [exact Q|].
    apply Qle_lteq. right. field.
  - intros block Hin Hact. unfold blockingInterval in Hblock.
    apply (find_none_all _ _ Hblock). apply filter_In. auto.
Qed.


(** X2: a time that [validateCallTime] reports valid is later than the
    clock read by the validation, lies at least [minGapMinutes] after the
    last call when there is one, and is blocked by no active interval of
    the list. *)
Theorem valid_time_guarantees (rt : Runtime) (this : CallScheduler)
  (t : Z) (blockedTimes : list BlockedTime) (scheduleHelper : ScheduleHelper)
  (w w' : World) (v : CallValidationResult) :
  validateCallTime rt this (At t) blockedTimes scheduleHelper w
    = (Returned v, w') ->
  isValid v = true ->
  clock rt (reads w) < t /\
  (forall lastCall, last_call_time scheduleHelper = Some (At lastCall) ->
     (minGapMinutes this * 60000 <= inject_Z (t - lastCall))%Q) /\
  (forall block, In block blockedTimes -> is_active block = true ->
     isTimeInBlockedPeriod rt (At t) block = false).
Proof. apply validated_facts. Qed.

(** ** Moving a time into the daily window *)

Lemma pad2_no_colon (n : Z) :
  0 <= n < 100 -> JS.includes (JS.pad2 n) ":" = false.
Proof.
  intros H. destruct (two_digits n H) as (A & B & _). unfold JS.pad2.
  destruct (digit_cases _ A) as [->|[->|[->|[->|[->|[->|[->|[->|[->| ->]]]]]]]]];
  destruct (digit_cases _ B) as [->|[->|[->|[->|[->|[->|[->|[->|[->| ->]]]]]]]]];
  reflexivity.
Qed.

(** The hour and the minute are read off a clock string whether or not
    it carries seconds. *)
Lemma parseClock_clockText (h m : Z) (seconds : option Z) :
  0 <= h < 100 -> 0 <= m < 100 ->
  parseClock (clockText h m seconds) = (Some h, Some m).
Proof.
  intros Hh Hm. destruct seconds as [s|]; cbn [clockText];
    [|now apply parseClock_clock5].
  unfold parseClock, JS.split, clock5.
  rewrite !append_assoc. cbn [append].
  rewrite (split_field ":" (JS.pad2 h)) by now apply pad2_no_colon.
  rewrite (split_field ":" (JS.pad2 m)) by now apply pad2_no_colon.
  cbn [map append]. rewrite !Number_pad2 by assumption. reflexivity.
Qed.

Lemma outsideWindow_minutes (rt : Runtime) (this : CallScheduler)
  (ms mh mm eh em : Z) (msec esec : option Z) :
  clockField mh mm -> clockField eh em ->
  morning_start (user this) = clockText mh mm msec ->
  evening_end (user this) = clockText eh em esec ->
  outsideWindow rt this (At ms)
  = (minuteOfDay (tz rt) ms <? firstMinute mh mm msec)
    || (60 * eh + em <? minuteOfDay (tz rt) ms).
Proof.
  intros [Hmh Hmm] [Heh Hem] Em Ee.
  pose proof (hoursOf_range (tz rt) ms). pose proof (minutesOf_range (tz rt) ms).
  unfold outsideWindow, minuteOfDay. rewrite Em, Ee, toTimeString5_clock.
  rewrite clockText_lt, clockText_gt by lia. reflexivity.
Qed.

Lemma adjustToTimeWindow_cases (rt : Runtime) (this : CallScheduler)
  (ms mh mm eh em : Z) (msec esec : option Z) :
  clockField mh mm -> clockField eh em ->
  morning_start (user this) = clockText mh mm msec ->
  evening_end (user this) = clockText eh em esec ->
  adjustToTimeWindow rt this (At ms)
  = if minuteOfDay (tz rt) ms <? firstMinute mh mm msec
    then At (startOfDay (tz rt) ms + mh * msPerHour + mm * msPerMinute)
    else if 60 * eh + em <? minuteOfDay (tz rt) ms
    then At (startOfDay (tz rt) ms + msPerDay
             + mh * msPerHour + mm * msPerMinute)
    else At ms.
Proof.
  intros [Hmh Hmm] [Heh Hem] Em Ee.
  pose proof (hoursOf_range (tz rt) ms).
  pose proof (minutesOf_range (tz rt) ms).
  unfold adjustToTimeWindow, minuteOfDay.
  rewrite Em, Ee, parseClock_clockText by lia.
  rewrite toTimeString5_clock.
  rewrite clockText_lt, clockText_gt by lia. cbn [addDays setHours].
  replace (ms + 1 * msPerDay) with (ms + msPerDay) by lia.
  rewrite startOfDay_next. reflexivity.
Qed.

(** X3: for a profile whose window is given by clock strings ([HH:MM] or
    [HH:MM:SS]), with the minute of [morning_start] not after the minute
    of [evening_end], [adjustToTimeWindow] leaves a time inside the window
    as it is, moves a time before the window to [morning_start] of the
    same local day and a time after the window to [morning_start] of the
    next local day.  The day is the local day of the time, the seconds of
    the result are zero.  A time after the window is moved forward; a
    time before the window is moved forward unless it lies within the
    minute of a [morning_start] that carries seconds, which is moved
    back to the start of that minute.  For a string [HH:MM] the moved
    time is inside the window; for a string [HH:MM:SS] the moved time is
    itself outside the window. *)
Theorem adjustToTimeWindow_lands (rt : Runtime) (this : CallScheduler)
  (ms mh mm eh em : Z) (msec esec : option Z) :
  clockField mh mm -> clockField eh em ->
  morning_start (user this) = clockText mh mm msec ->
  evening_end (user this) = clockText eh em esec ->
  60 * mh + mm <= 60 * eh + em ->
  let minuteNow := minuteOfDay (tz rt) ms in
  let sameDay :=
    startOfDay (tz rt) ms + mh * msPerHour + mm * msPerMinute in
  let nextDay :=
    startOfDay (tz rt) ms + msPerDay + mh * msPerHour + mm * msPerMinute in
  (firstMinute mh mm msec <= minuteNow <= 60 * eh + em ->
   outsideWindow rt this (At ms) = false /\
   adjustToTimeWindow rt this (At ms) = At ms)
  /\
  (minuteNow < firstMinute mh mm msec ->
   outsideWindow rt this (At ms) = true /\
   adjustToTimeWindow rt this (At ms) = At sameDay /\
   (minuteNow < 60 * mh + mm -> ms < sameDay) /\
   (minuteNow = 60 * mh + mm -> sameDay <= ms))
  /\
  (60 * eh + em < minuteNow ->
   outsideWindow rt this (At ms) = true /\
   adjustToTimeWindow rt this (At ms) = At nextDay /\
   ms < nextDay)
  /\
  (msOfDay (tz rt) sameDay = (60 * mh + mm) * msPerMinute /\
   msOfDay (tz rt) nextDay = (60 * mh + mm) * msPerMinute)
  /\
  (outsideWindow rt this (At sameDay)
   = match msec with None => false | Some _ => true end /\
   outsideWindow rt this (At nextDay)
   = match msec with None => false | Some _ => true end).
Proof.
  intros Hm He Em Ee Hle minuteNow sameDay nextDay.
  pose proof Hm as [Hmh Hmm]. pose proof He as [Heh Hem].
  pose proof (minuteOfDay_div (tz rt) ms) as Hdiv. fold minuteNow in Hdiv.
  pose proof (Z.mod_pos_bound (localTime (tz rt) ms) msPerDay eq_refl) as Hx.
  pose proof (startOfDay_bounds (tz rt) ms) as Hsd.
  pose proof (adjustToTimeWindow_cases rt this ms mh mm eh em msec esec
                Hm He Em Ee) as Hadj.
  pose proof (outsideWindow_minutes rt this ms mh mm eh em msec esec
                Hm He Em Ee) as Hout.
  fold minuteNow in Hadj, Hout. fold sameDay nextDay in Hadj.
  assert (Hfirst : 60 * mh + mm <= firstMinute mh mm msec <= 60 * mh + mm + 1)
    by (destruct msec; cbn [firstMinute]; lia).
  assert (Hmoved : forall x,
            outsideWindow rt this
              (At (startOfDay (tz rt) x + mh * msPerHour + mm * msPerMinute))
            = match msec with None => false | Some _ => true end).
  { intros x. rewrite (outsideWindow_minutes rt this _ mh mm eh em msec esec)
      by assumption.
    rewrite minuteOfDay_at by assumption.
    replace (60 * eh + em <? 60 * mh + mm) with false
      by (symmetry; apply Z.ltb_ge; lia).
    rewrite orb_false_r.
    destruct msec; cbn [firstMinute];
      [apply Z.ltb_lt|apply Z.ltb_ge]; lia. }
  assert (Hday : forall x,
            msOfDay (tz rt)
              (startOfDay (tz rt) x + mh * msPerHour + mm * msPerMinute)
            = (60 * mh + mm) * msPerMinute).
  { intros x. unfold msOfDay. rewrite <- Z.add_assoc.
    rewrite localTime_startOfDay
      by (unfold msPerDay, msPerHour, msPerMinute; lia).
    unfold msPerHour, msPerMinute. lia. }
  split; [|split; [|split; [|split]]].
  - intros [H1 H2]. rewrite Hout, Hadj.
    replace (minuteNow <? firstMinute mh mm msec) with false
      by (symmetry; apply Z.ltb_ge; lia).
    replace (60 * eh + em <? minuteNow) with false
      by (symmetry; apply Z.ltb_ge; lia).
    split; reflexivity.
  - intros H. rewrite Hout, Hadj.
    replace (minuteNow <? firstMinute mh mm msec) with true
      by (symmetry; apply Z.ltb_lt; lia).
    split; [reflexivity|]. split; [reflexivity|].
    pose proof (Z.mul_succ_div_gt (localTime (tz rt) ms mod msPerDay)
                  msPerMinute eq_refl) as Hs.
    pose proof (Z.mul_div_le (localTime (tz rt) ms mod msPerDay)
                  msPerMinute eq_refl) as Hl.
    unfold sameDay, startOfDay.
    split; intros; unfold msPerHour, msPerMinute in *; lia.
  - intros H. rewrite Hout, Hadj.
    replace (minuteNow <? firstMinute mh mm msec) with false
      by (symmetry; apply Z.ltb_ge; lia).
    replace (60 * eh + em <? minuteNow) with true
      by (symmetry; apply Z.ltb_lt; lia).
    split; [reflexivity|]. split; [reflexivity|].
    unfold nextDay, msPerHour, msPerMinute in *. lia.
  - split; [apply Hday|]. unfold nextDay. rewrite <- startOfDay_next.
    apply Hday.
  - split; [apply Hmoved|]. unfold nextDay. rewrite <- startOfDay_next.
    apply Hmoved.
Qed.

(** ** The next active day *)

Lemma split_dayList (days : list string) :
  dayNamesOnly days -> days <> [] -> JS.split "," (dayList days) = days.
Proof.
  intros Hdays Hne. induction days as [|x rest IH]; [congruence|].
  assert (Hx : In x dayNames) by (apply Hdays; now left).
  assert (Hrest : dayNamesOnly rest)
    by (intros y Hy; apply Hdays; now right).
  destruct rest as [|y rest'].
  - each_day Hx; reflexivity.
  - specialize (IH Hrest ltac:(discriminate)).
    change (dayList (x :: y :: rest'))
      with (x ++ "," ++ dayList (y :: rest')).
    unfold JS.split in *. revert IH.
    generalize (dayList (y :: rest')) as tail. intros tail IH.
    each_day Hx; cbn; rewrite IH; reflexivity.
Qed.

Lemma startOfDay_plus_days (tz ms : Z) (k : nat) :
  startOfDay tz (ms + Z.of_nat k * msPerDay)
  = startOfDay tz ms + Z.of_nat k * msPerDay.
Proof.
  induction k as [|k IH].
  - cbn. now rewrite !Z.add_0_r.
  - replace (ms + Z.of_nat (S k) * msPerDay)
      with (ms + Z.of_nat k * msPerDay + msPerDay) by lia.
    rewrite startOfDay_next, IH. lia.
Qed.

(** the scan stops at the first of the next [n] days that is active *)
Lemma scanActiveDays_first (rt : Runtime) (this : CallScheduler)
  (days : list string) (h m : option Z) (n : nat) :
  parseClock (morning_start (user this)) = (h, m) ->
  forall ms : Z,
  (exists k, (1 <= k <= n)%nat /\
     JS.arr_includes days
       (weekdayShort (tz rt) (At (ms + Z.of_nat k * msPerDay))) = true) ->
  exists k, (1 <= k <= n)%nat /\
    JS.arr_includes days
      (weekdayShort (tz rt) (At (ms + Z.of_nat k * msPerDay))) = true /\
    (forall j, (1 <= j < k)%nat ->
       JS.arr_includes days
         (weekdayShort (tz rt) (At (ms + Z.of_nat j * msPerDay))) = false) /\
    scanActiveDays rt this n days (At ms)
    = Some (setHours (tz rt) (At (ms + Z.of_nat k * msPerDay)) h m).
Proof.
  intros Hparse.
  induction n as [|n IH]; intros ms (k & Hk & Hact); [lia|].
  cbn [scanActiveDays addDays]. rewrite dayNameOf_weekdayShort, Hparse.
  cbv zeta.
  destruct (JS.arr_includes days
              (weekdayShort (tz rt) (At (ms + 1 * msPerDay)))) eqn:A.
  - exists 1%nat. split; [lia|]. split; [exact A|]. split; [intros j Hj; lia|].
    reflexivity.
  - assert (Hk2 : (2 <= k)%nat).
    { destruct (Nat.eq_dec k 1) as [->|]; [|lia].
      change (Z.of_nat 1) with 1 in Hact. congruence. }
    destruct (IH (ms + 1 * msPerDay)) as (k' & Hk' & Hact' & Hleast & Hscan).
    { exists (k - 1)%nat. split; [lia|].
      replace (ms + 1 * msPerDay + Z.of_nat (k - 1) * msPerDay)
        with (ms + Z.of_nat k * msPerDay) by lia.
      exact Hact. }
    exists (S k'). split; [lia|].
    replace (ms + Z.of_nat (S k') * msPerDay)
      with (ms + 1 * msPerDay + Z.of_nat k' * msPerDay) by lia.
    split; [exact Hact'|]. split; [|exact Hscan].
    intros j Hj. destruct (Nat.eq_dec j 1) as [->|Hj1]; [exact A|].
    replace (ms + Z.of_nat j * msPerDay)
      with (ms + 1 * msPerDay + Z.of_nat (j - 1) * msPerDay) by lia.
    apply Hleast. lia.
Qed.

(** every weekday comes up within the next seven days *)
Lemma weekday_within_week (tz ms : Z) (d : string) :
  In d dayNames ->
  exists k, (1 <= k <= 7)%nat /\
    weekdayShort tz (At (ms + Z.of_nat k * msPerDay)) = d.
Proof.
  intros Hd. pose proof (dayOf_range tz ms) as R.
  assert (Hk : forall i, 0 <= i < 7 ->
            exists k, (1 <= k <= 7)%nat /\
              dayOf tz (ms + Z.of_nat k * msPerDay) = i).
  { intros i Hi.
    exists (Z.to_nat (if (i - dayOf tz ms) mod 7 =? 0 then 7
                      else (i - dayOf tz ms) mod 7)).
    pose proof (Z.mod_pos_bound (i - dayOf tz ms) 7 eq_refl) as B.
    destruct ((i - dayOf tz ms) mod 7 =? 0) eqn:Z0.
    - apply Z.eqb_eq in Z0. split; [lia|].
      rewrite dayOf_plus_days. change (Z.of_nat (Z.to_nat 7)) with 7.
      rewrite <- Zplus_mod_idemp_r. change (7 mod 7) with 0.
      rewrite Z.add_0_r, Z.mod_small by lia.
      apply Z.mod_divide in Z0; [|lia]. destruct Z0 as [q Hq]. lia.
    - apply Z.eqb_neq in Z0. split; [lia|].
      rewrite dayOf_plus_days, Z2Nat.id by lia.
      rewrite Zplus_mod_idemp_r.
      replace (dayOf tz ms + (i - dayOf tz ms)) with i by lia.
      apply Z.mod_small. lia. }
  unfold weekdayShort.
  each_day Hd;
    [destruct (Hk 0 ltac:(lia)) as (k & Hk1 & E)
    |destruct (Hk 1 ltac:(lia)) as (k & Hk1 & E)
    |destruct (Hk 2 ltac:(lia)) as (k & Hk1 & E)
    |destruct (Hk 3 ltac:(lia)) as (k & Hk1 & E)
    |destruct (Hk 4 ltac:(lia)) as (k & Hk1 & E)
    |destruct (Hk 5 ltac:(lia)) as (k & Hk1 & E)
    |destruct (Hk 6 ltac:(lia)) as (k & Hk1 & E)];
    exists k; (split; [exact Hk1|]); rewrite E; reflexivity.
Qed.

(** X4: for a profile with at least one active day, [getNextActiveDay]
    returns [morning_start] of the first active day among the seven local
    days after the given time: the days skipped are inactive, the result
    passes the active-day check and shows [morning_start] on the clock. *)
Theorem getNextActiveDay_first_active (rt : Runtime) (this : CallScheduler)
  (ms mh mm : Z) (days : list string) :
  clockField mh mm ->
  morning_start (user this) = clock5 mh mm ->
  active_days (user this) = dayList days ->
  dayNamesOnly days -> days <> [] ->
  exists k : nat,
    (1 <= k <= 7)%nat /\
    getNextActiveDay rt this (At ms)
    = At (startOfDay (tz rt) ms + Z.of_nat k * msPerDay
          + mh * msPerHour + mm * msPerMinute) /\
    In (weekdayShort (tz rt) (At (ms + Z.of_nat k * msPerDay))) days /\
    (forall j, (1 <= j < k)%nat ->
       ~ In (weekdayShort (tz rt) (At (ms + Z.of_nat j * msPerDay))) days) /\
    inactiveDay rt this (getNextActiveDay rt this (At ms)) = false /\
    toTimeString5 (tz rt) (getNextActiveDay rt this (At ms)) = clock5 mh mm.
Proof.
  intros Hm Em Ea Hdays Hne. pose proof Hm as [Hmh Hmm].
  destruct days as [|d0 rest] eqn:Ed; [congruence|]. rewrite <- Ed in *.
  assert (Hd0 : In d0 days) by (rewrite Ed; now left).
  destruct (weekday_within_week (tz rt) ms d0 (Hdays d0 Hd0))
    as (k0 & Hk0 & Ek0).
  destruct (scanActiveDays_first rt this days (Some mh) (Some mm) 7
              ltac:(rewrite Em; apply parseClock_clock5; lia) ms)
    as (k & Hk & Hact & Hleast & Hscan).
  { exists k0. split; [exact Hk0|]. rewrite Ek0. now apply arr_includes_In. }
  assert (Hres : getNextActiveDay rt this (At ms)
            = At (startOfDay (tz rt) ms + Z.of_nat k * msPerDay
                  + mh * msPerHour + mm * msPerMinute)).
  { unfold getNextActiveDay. rewrite Ea, split_dayList by assumption.
    rewrite Hscan. cbn [setHours]. now rewrite startOfDay_plus_days. }
  exists k. split; [exact Hk|]. split; [exact Hres|].
  split; [now apply arr_includes_In|]. split.
  - intros j Hj Hin. apply arr_includes_In in Hin.
    rewrite (Hleast j Hj) in Hin. discriminate.
  - rewrite Hres, <- startOfDay_plus_days. split.
    + unfold inactiveDay. rewrite Ea.
      rewrite <- Z.add_assoc, weekdayShort_same_day
        by (unfold msPerDay, msPerHour, msPerMinute; lia).
      rewrite includes_dayList
        by (assumption || apply weekdayShort_dayName).
      now rewrite Hact.
    + now apply toTimeString5_at.
Qed.

(** ** The time suggested after a blocked interval *)

(** X5: when the end of a blocked interval plus 15 minutes still lies in
    the daily window of the same day, [findNextAvailableTimeAfterBlock]
    returns exactly that time of the candidate's local day, and the
    interval does not block it. *)
Theorem findNextAvailableTimeAfterBlock_escapes (rt : Runtime)
  (this : CallScheduler) (block : BlockedTime) (ms mh mm eh em bh bm : Z) :
  clockField mh mm -> clockField eh em -> clockField bh bm ->
  morning_start (user this) = clock5 mh mm ->
  evening_end (user this) = clock5 eh em ->
  end_time block = clock5 bh bm ->
  60 * mh + mm <= 60 * bh + bm + 15 <= 60 * eh + em ->
  60 * bh + bm + 15 < 1440 ->
  findNextAvailableTimeAfterBlock rt this (At ms) block
  = At (startOfDay (tz rt) ms + (60 * bh + bm + 15) * msPerMinute) /\
  minuteOfDay (tz rt)
    (startOfDay (tz rt) ms + (60 * bh + bm + 15) * msPerMinute)
  = 60 * bh + bm + 15 /\
  isTimeInBlockedPeriod rt
    (findNextAvailableTimeAfterBlock rt this (At ms) block) block = false.
Proof.
  intros Hm He Hb Em Ee Eb Hwin Hday.
  pose proof Hb as [Hbh Hbm].
  set (y := startOfDay (tz rt) ms + (60 * bh + bm + 15) * msPerMinute).
  assert (My : minuteOfDay (tz rt) y = 60 * bh + bm + 15)
    by (apply minuteOfDay_at_minute; lia).
  assert (R : findNextAvailableTimeAfterBlock rt this (At ms) block = At y).
  { unfold findNextAvailableTimeAfterBlock.
    rewrite Eb, parseClock_clock5 by lia. cbn [setHours addToMinutes].
    destruct (fields_at (tz rt) ms bh bm Hb) as [_ ->].
    change 15%Q with (inject_Z 15). rewrite Qtrunc_inject.
    replace (startOfDay (tz rt) ms + bh * msPerHour + bm * msPerMinute
             + (bm + 15 - bm) * msPerMinute) with y
      by (unfold y, msPerHour, msPerMinute; lia).
    rewrite (adjustToTimeWindow_cases rt this y mh mm eh em None None)
      by assumption.
    rewrite My. cbn [firstMinute].
    replace (60 * bh + bm + 15 <? 60 * mh + mm) with false
      by (symmetry; apply Z.ltb_ge; lia).
    replace (60 * eh + em <? 60 * bh + bm + 15) with false
      by (symmetry; apply Z.ltb_ge; lia).
    reflexivity. }
  split; [exact R|]. split; [exact My|].
  rewrite R. unfold isTimeInBlockedPeriod.
  pose proof (hoursOf_range (tz rt) y). pose proof (minutesOf_range (tz rt) y).
  rewrite toTimeString5_clock, Eb, clock5_le by lia.
  fold (minuteOfDay (tz rt) y). rewrite My.
  replace (60 * bh + bm + 15 <=? 60 * bh + bm) with false
    by (symmetry; apply Z.leb_gt; lia).
  rewrite andb_false_r.
  match goal with |- (if ?c then _ else _) = _ => destruct c end; reflexivity.
Qed.

(** ** The preferred time slots *)

Lemma insertSlot_perm (x : Slot) (l : list Slot) :
  Permutation (insertSlot x l) (x :: l).
Proof.
  induction l as [|y l IH]; cbn [insertSlot]; [reflexivity|].
  destruct (getTimeSlotScore y <? getTimeSlotScore x); [reflexivity|].
  rewrite IH. apply perm_swap.
Qed.

Lemma insertSlot_sorted (x : Slot) (l : list Slot) :
  StronglySorted (fun a b => getTimeSlotScore b <= getTimeSlotScore a) l ->
  StronglySorted (fun a b => getTimeSlotScore b <= getTimeSlotScore a)
    (insertSlot x l).
Proof.
  induction 1 as [|y l Hs IH Hy]; cbn [insertSlot].
  - repeat constructor.
  - destruct (getTimeSlotScore y <? getTimeSlotScore x) eqn:L.
    + apply Z.ltb_lt in L. constructor; [now constructor|].
      constructor; [lia|]. rewrite Forall_forall in *.
      intros z Hz. specialize (Hy z Hz). cbn in *. lia.
    + apply Z.ltb_ge in L. constructor; [exact IH|].
      rewrite Forall_forall in *. intros z Hz.
      apply (Permutation_in _ (insertSlot_perm x l)) in Hz.
      destruct Hz as [<-|Hz]; [exact L|now apply Hy].
Qed.

Lemma sortSlots_spec (slots : list Slot) :
  Permutation (sortSlots slots) slots /\
  StronglySorted (fun a b => getTimeSlotScore b <= getTimeSlotScore a)
    (sortSlots slots).
Proof.
  unfold sortSlots.
  assert (G : forall acc,
            StronglySorted
              (fun a b => getTimeSlotScore b <= getTimeSlotScore a) acc ->
            Permutation
              (fold_left (fun sorted x => insertSlot x sorted) slots acc)
              (acc ++ slots)%list /\
            StronglySorted
              (fun a b => getTimeSlotScore b <= getTimeSlotScore a)
              (fold_left (fun sorted x => insertSlot x sorted) slots acc)).
  { induction slots as [|x slots IH]; intros acc Hacc; cbn [fold_left].
    - rewrite app_nil_r. split; [reflexivity|exact Hacc].
    - destruct (IH (insertSlot x acc) (insertSlot_sorted x acc Hacc))
        as [P S].
      split; [|exact S]. rewrite P, insertSlot_perm.
      apply Permutation_cons_app. reflexivity. }
  apply (G []). constructor.
Qed.

Lemma collectSlots_spec (rt : Runtime) (startHour endHour : option Z)
  (hours : list Z) :
  (forall i, (0 <= random rt i)%Q /\ (random rt i < 1)%Q) ->
  forall w, exists slots,
    collectSlots rt hours startHour endHour w
    = (Returned slots,
       mkWorld (reads w) (draws w + List.length slots)) /\
    map hour slots
    = filter (fun h => hourInWindow h startHour endHour) hours /\
    Forall (fun s => 0 <= minute s <= 59) slots.
Proof.
  intros Hr. induction hours as [|h hours IH]; intros w.
  - exists []. cbn. rewrite Nat.add_0_r. destruct w. repeat split. constructor.
  - cbn [collectSlots filter].
    destruct (hourInWindow h startHour endHour).
    + unfold bind at 1, drawRandom.
      destruct (IH (mkWorld (reads w) (S (draws w)))) as (slots & E & Hh & Hm).
      unfold bind at 1. rewrite E.
      exists (mkSlot h (Qfloor (random rt (draws w) * 60)) :: slots).
      cbn [reads draws map hour List.length]. split.
      * unfold ret. f_equal. f_equal. lia.
      * split; [now rewrite Hh|]. constructor; [|exact Hm].
        cbn [minute]. destruct (Hr (draws w)). now apply jitter_range.
    + apply IH.
Qed.

(** X6: [getPreferredTimeSlots] returns one slot for each of the hours 10,
    11, 14, 16, 19 and 20 that lies between the hour of [morning_start]
    and the hour of [evening_end], both included, with a minute from 0 to
    59, ordered by descending score; it draws once per slot and reads no
    clock. *)
Theorem preferred_slots_ranked (rt : Runtime) (this : CallScheduler)
  (w : World) :
  (forall i, (0 <= random rt i)%Q /\ (random rt i < 1)%Q) ->
  exists slots,
    getPreferredTimeSlots rt this w
    = (Returned slots, mkWorld (reads w) (draws w + List.length slots)) /\
    Permutation (map hour slots)
      (filter (fun h =>
                 hourInWindow h
                   (fst (parseClock (morning_start (user this))))
                   (fst (parseClock (evening_end (user this)))))
         [10; 11; 14; 16; 19; 20]) /\
    Forall (fun s => 0 <= minute s <= 59) slots /\
    StronglySorted (fun a b => getTimeSlotScore b <= getTimeSlotScore a)
      slots /\
    (List.length slots <= 6)%nat.
Proof.
  intros Hr. unfold getPreferredTimeSlots. unfold bind.
  destruct (collectSlots_spec rt
              (fst (parseClock (morning_start (user this))))
              (fst (parseClock (evening_end (user this))))
              optimalHours Hr w) as (slots & E & Hh & Hm).
  rewrite E. destruct (sortSlots_spec slots) as [P S].
  exists (sortSlots slots). unfold ret.
  rewrite (Permutation_length P). split; [reflexivity|].
  split; [|split; [|split]].
  - rewrite (Permutation_map hour P), Hh. reflexivity.
  - rewrite Forall_forall in *. intros s Hs. apply Hm.
    now apply (Permutation_in _ P).
  - exact S.
  - rewrite <- (length_map hour), Hh.
    etransitivity; [apply filter_length_le|]. reflexivity.
Qed.

(** ** Attempt budgets *)

Lemma basicLoop_budget (rt : Runtime) (this : CallScheduler)
  (blockedTimes : list BlockedTime) (scheduleHelper : ScheduleHelper)
  (now : Z) (fuel : nat) :
  forall (n : nat) (cs : list string) (w : World),
  exists r w',
    basicLoop rt this fuel now blockedTimes scheduleHelper n cs w
      = (Returned r, w') /\
    (n <= attemptsOf r <= n + fuel)%nat /\
    draws w' = (draws w + (attemptsOf r - n))%nat /\
    (success r = false ->
     attemptsOf r = (n + fuel)%nat /\ nextCallTime r = None) /\
    (success r = true ->
     (n < attemptsOf r)%nat /\
     exists t, nextCallTime r = Some t /\
       DirectAccept rt this blockedTimes scheduleHelper t).
Proof.
  induction fuel as [|fuel IH]; intros n cs w.
  - eexists; eexists. split; [reflexivity|].
    cbv [attemptsOf notFound metadata attempts success nextCallTime].
    split; [lia|]. split; [lia|]. split; [auto|discriminate].
  - cbn [basicLoop]. unfold randomBetween.
    unfold bind at 1 2, drawRandom, ret at 1. unfold bind at 1.
    run_validation.
    pose proof (validateCallTime_draws _ _ _ _ _ _ _ _ E) as D.
    cbn [draws] in D.
    assert (Hacc : forall t wa wb va,
              validateCallTime rt this t blockedTimes scheduleHelper wa
                = (Returned va, wb) ->
              isValid va = true ->
              DirectAccept rt this blockedTimes scheduleHelper t).
    { intros t wa wb va Ea Va. exists wa, wb.
      destruct (validateCallTime_valid _ _ _ _ _ _ _ _ Ea Va)
        as (_ & _ & _ & _ & _ & <- & _).
      exact Ea. }
    assert (Hnext : forall w1, draws w1 = S (draws w) ->
              forall cs1, exists r w',
                basicLoop rt this fuel now blockedTimes scheduleHelper (S n)
                  cs1 w1 = (Returned r, w') /\
                (n <= attemptsOf r <= n + S fuel)%nat /\
                draws w' = (draws w + (attemptsOf r - n))%nat /\
                (success r = false ->
                 attemptsOf r = (n + S fuel)%nat /\ nextCallTime r = None) /\
                (success r = true ->
                 (n < attemptsOf r)%nat /\
                 exists t, nextCallTime r = Some t /\
                   DirectAccept rt this blockedTimes scheduleHelper t)).
    { intros w1 D1 cs1.
      destruct (IH (S n) cs1 w1) as (r & w' & R & B & Dr & F & S).
      exists r, w'. split; [exact R|]. split; [lia|]. split; [lia|].
      split.
      - intros Fr. destruct (F Fr). split; [lia|assumption].
      - intros Sr. destruct (S Sr). split; [lia|assumption]. }
    destruct (isValid v) eqn:V.
    + eexists; eexists. split; [reflexivity|].
      cbv [attemptsOf found metadata attempts success nextCallTime].
      split; [lia|]. split; [lia|]. split; [discriminate|].
      intros _. split; [lia|]. eexists. split; [reflexivity|].
      eapply Hacc; eassumption.
    + destruct (suggestedTime v) as [s|]; [|apply Hnext; exact D].
      unfold bind at 1. run_validation.
      pose proof (validateCallTime_draws _ _ _ _ _ _ _ _ E0) as D0.
      destruct (isValid v0) eqn:V0; [|apply Hnext; congruence].
      eexists; eexists. split; [reflexivity|].
      cbv [attemptsOf found metadata attempts success nextCallTime].
      split; [lia|]. split; [lia|]. split; [discriminate|].
      intros _. split; [lia|]. eexists. split; [reflexivity|].
      eapply Hacc; eassumption.
Qed.

Lemma patternLoop_budget (rt : Runtime) (this : CallScheduler)
  (blockedTimes : list BlockedTime) (scheduleHelper : ScheduleHelper)
  (slots : list Slot) :
  forall (n : nat) (cs : list string) (w : World),
  exists r w',
    patternLoop rt this slots blockedTimes scheduleHelper n cs w
      = (Returned r, w') /\
    (n <= attemptsOf r <= n + List.length slots)%nat /\
    draws w' = (draws w + (attemptsOf r - n))%nat /\
    (success r = false ->
     attemptsOf r = (n + List.length slots)%nat /\ nextCallTime r = None) /\
    (success r = true ->
     exists t, nextCallTime r = Some t /\
       DirectAccept rt this blockedTimes scheduleHelper t).
Proof.
  induction slots as [|slot slots IH]; intros n cs w.
  - eexists; eexists. split; [reflexivity|].
    cbv [attemptsOf notFound metadata attempts success nextCallTime].
    split; [lia|]. split; [lia|]. split; [auto|discriminate].
  - cbn [patternLoop]. unfold getNextOccurrenceOfTimeSlot.
    unfold bind at 1 2 3, readClock, drawRandom, ret at 1.
    unfold bind at 1. run_validation.
    pose proof (validateCallTime_draws _ _ _ _ _ _ _ _ E) as D.
    cbn [draws] in D. cbn [List.length].
    destruct (isValid v) eqn:V.
    + eexists; eexists. split; [reflexivity|].
      cbv [attemptsOf found metadata attempts success nextCallTime].
      split; [lia|]. split; [lia|]. split; [discriminate|].
      intros _. eexists. split; [reflexivity|].
      destruct (validateCallTime_valid _ _ _ _ _ _ _ _ E V)
        as (_ & _ & _ & _ & _ & Hv & _).
      eexists; eexists. rewrite <- Hv. exact E.
    + destruct (IH (S n) (noteReason cs v) w0) as (r & w' & R & B & Dr & F & S).
      exists r, w'. split; [exact R|].
      split; [lia|]. split; [lia|]. split; [|exact S].
      intros Fr. destruct (F Fr). split; [lia|assumption].
Qed.

Lemma collectSlots_length (rt : Runtime) (startHour endHour : option Z)
  (hours : list Z) :
  forall w, exists slots w',
    collectSlots rt hours startHour endHour w = (Returned slots, w') /\
    (List.length slots <= List.length hours)%nat /\
    draws w' = (draws w + List.length slots)%nat.
Proof.
  induction hours as [|h hours IH]; intros w.
  - exists [], w. cbn. split; [reflexivity|]. split; lia.
  - cbn [collectSlots]. destruct (hourInWindow h startHour endHour).
    + unfold bind at 1, drawRandom.
      destruct (IH (mkWorld (reads w) (S (draws w))))
        as (slots & w' & E & L & D).
      unfold bind at 1. rewrite E. eexists; eexists.
      split; [reflexivity|]. cbn [List.length draws] in *. split; lia.
    + destruct (IH w) as (slots & w' & E & L & D).
      exists slots, w'. split; [exact E|]. cbn [List.length]. split; lia.
Qed.

(** X7: the basic randomization strategy always returns a result, makes
    at most [maxAttempts] attempts and draws once per attempt; a failure
    has used all [maxAttempts] attempts and carries no time; a success
    has made at least one attempt, and its time has passed
    [validateCallTime] with the scheduler's own gap and the full list of
    blocked intervals. *)
Theorem basic_randomization_budget (rt : Runtime) (this : CallScheduler)
  (blockedTimes : list BlockedTime) (scheduleHelper : ScheduleHelper)
  (w : World) :
  exists r w',
    findTimeWithBasicRandomization rt this blockedTimes scheduleHelper w
      = (Returned r, w') /\
    (attemptsOf r <= maxAttempts this)%nat /\
    draws w' = (draws w + attemptsOf r)%nat /\
    (success r = false ->
     attemptsOf r = maxAttempts this /\ nextCallTime r = None) /\
    (success r = true ->
     (1 <= attemptsOf r)%nat /\
     exists t, nextCallTime r = Some t /\
       DirectAccept rt this blockedTimes scheduleHelper t).
Proof.
  unfold findTimeWithBasicRandomization, bind, readClock.
  destruct (basicLoop_budget rt this blockedTimes scheduleHelper
              (clock rt (reads w)) (maxAttempts this) 0 []
              (mkWorld (S (reads w)) (draws w)))
    as (r & w' & R & B & D & F & S).
  exists r, w'. split; [exact R|]. cbn [draws] in D.
  split; [lia|]. split; [lia|]. split; [exact F|].
  intros Sr. destruct (S Sr). split; [lia|assumption].
Qed.

(** ** The strategy search as a whole *)

Lemma accepted_is_date (rt : Runtime) (sch : CallScheduler) (t : Date)
  (blocks : list BlockedTime) (helper : ScheduleHelper) (w w' : World)
  (eh em : Z) (esec : option Z) :
  clockField eh em -> evening_end (user sch) = clockText eh em esec ->
  validateCallTime rt sch t blocks helper w = (Returned accepted, w') ->
  exists ms, t = At ms.
Proof.
  intros [Heh Hem] Ee E.
  destruct (validateCallTime_valid _ _ _ _ _ _ _ _ E eq_refl) as (Hw & _).
  destruct t as [|ms]; [|now exists ms].
  unfold outsideWindow in Hw. rewrite Ee in Hw. cbn [toTimeString5] in Hw.
  rewrite invalid_date_above, orb_true_r in Hw by lia. discriminate.
Qed.

Lemma AnyAccept_is_date (rt : Runtime) (this : CallScheduler)
  (blocks : list BlockedTime) (helper : ScheduleHelper) (t : Date)
  (eh em : Z) (esec : option Z) :
  clockField eh em -> evening_end (user this) = clockText eh em esec ->
  AnyAccept rt this blocks helper t -> exists ms, t = At ms.
Proof.
  intros He Ee [(w & w' & E)|(s & _ & w & w' & E)].
  - eapply accepted_is_date; eassumption.
  - eapply accepted_is_date; [exact He| |exact E]. exact Ee.
Qed.

Lemma pattern_budget (rt : Runtime) (this : CallScheduler)
  (blockedTimes : list BlockedTime) (scheduleHelper : ScheduleHelper)
  (w : World) :
  exists r w',
    findTimeWithPatternOptimization rt this blockedTimes scheduleHelper w
      = (Returned r, w') /\
    (attemptsOf r <= 6)%nat /\
    (success r = false -> nextCallTime r = None) /\
    (success r = true ->
     exists t, nextCallTime r = Some t /\
       DirectAccept rt this blockedTimes scheduleHelper t).
Proof.
  unfold findTimeWithPatternOptimization, getPreferredTimeSlots.
  unfold bind at 1 2.
  destruct (collectSlots_length rt
              (fst (parseClock (morning_start (user this))))
              (fst (parseClock (evening_end (user this)))) optimalHours w)
    as (slots & w1 & E & L & _).
  rewrite E. unfold ret at 1.
  destruct (patternLoop_budget rt this blockedTimes scheduleHelper
              (sortSlots slots) 0 [] w1) as (r & w' & R & B & _ & F & S).
  exists r, w'. split; [exact R|].
  rewrite (Permutation_length (proj1 (sortSlots_spec slots))) in B.
  cbn [List.length optimalHours] in L.
  split; [lia|]. split; [|exact S]. intros Fr. now destruct (F Fr).
Qed.

Lemma relaxAll_failure (rt : Runtime) (this : CallScheduler) (count : nat)
  (blockedTimes : list BlockedTime) (scheduleHelper : ScheduleHelper)
  (strategies : list Relaxation) :
  forall (n : nat) (cs : list string) (w w' : World) (r : SchedulingResult),
  relaxAll rt this strategies count blockedTimes scheduleHelper n cs w
    = (Returned r, w') ->
  success r = false -> nextCallTime r = None.
Proof.
  induction strategies as [|s l IH]; intros n cs w w' r; cbn [relaxAll].
  - intros E _. inversion E. reflexivity.
  - unfold bind at 1.
    destruct (relaxLoop_spec rt this (Nat.div (maxAttempts this) count) s
                blockedTimes scheduleHelper n cs w) as (res & w1 & R & P).
    rewrite R. destruct res as [r0|[n' cs']].
    + destruct P as (t & cs' & Hr & _).
      intros E Sr. inversion E; subst r0. rewrite Hr in Sr. discriminate Sr.
    + apply IH.
Qed.

Lemma relaxation_budget (rt : Runtime) (this : CallScheduler)
  (blockedTimes : list BlockedTime) (scheduleHelper : ScheduleHelper)
  (w : World) :
  exists r w',
    findTimeWithConstraintRelaxation rt this blockedTimes scheduleHelper w
      = (Returned r, w') /\
    (attemptsOf r <= maxAttempts this)%nat /\
    (success r = false -> nextCallTime r = None) /\
    (success r = true ->
     exists t s, nextCallTime r = Some t /\
       In s (relaxationStrategies this) /\
       RelaxedAccept rt this s blockedTimes scheduleHelper t).
Proof.
  unfold findTimeWithConstraintRelaxation.
  destruct (relaxAll_spec rt this (List.length (relaxationStrategies this))
              blockedTimes scheduleHelper (relaxationStrategies this)
              0%nat [] w) as (r & w' & E & _ & Hf & Hs).
  exists r, w'. split; [exact E|].
  cbn [List.length relaxationStrategies] in *.
  pose proof (Nat.Div0.mul_div_le (maxAttempts this) 3) as Hshare.
  destruct (success r) eqn:Sr.
  - destruct (Hs eq_refl) as (i & s & t & cs & Hi & Hr & Ha & Hb).
    assert (i < 3)%nat.
    { change 3%nat with (List.length (relaxationStrategies this)).
      apply nth_error_Some. rewrite Hi. discriminate. }
    split; [nia|]. split; [discriminate|]. intros _.
    exists t, s. split; [rewrite Hr; reflexivity|].
    split; [eapply nth_error_In; exact Hi|exact Ha].
  - rewrite (Hf eq_refl). split; [lia|]. split; [|discriminate].
    intros _. eapply relaxAll_failure; eassumption.
Qed.

(** the outcome of [runStrategies] when every strategy returns, within a
    bound, times that are dates *)
Lemma runStrategies_spec (P : Date -> Prop)
  (strategies : list (M SchedulingResult)) (bounds : list nat) :
  (forall t, P t -> exists ms, t = At ms) ->
  Forall2
    (fun s bound =>
       forall w, exists r w',
         s w = (Returned r, w') /\ (attemptsOf r <= bound)%nat /\
         (success r = false -> nextCallTime r = None) /\
         (success r = true -> exists t, nextCallTime r = Some t /\ P t))
    strategies bounds ->
  forall (n : nat) (cs : list string) (w : World),
  exists r w',
    runStrategies strategies n cs w = (Returned r, w') /\
    (attemptsOf r <= n + list_sum bounds)%nat /\
    (success r = true -> exists ms, nextCallTime r = Some (At ms) /\ P (At ms))
    /\
    (success r = false -> error r = Some nothingFound /\ nextCallTime r = None).
Proof.
  intros Hdate H. induction H as [|s bound strategies bounds Hs _ IH];
    intros n cs w.
  - eexists; eexists. split; [reflexivity|].
    cbv [attemptsOf notFound metadata attempts success nextCallTime error].
    cbn [list_sum]. split; [lia|]. split; [discriminate|]. auto.
  - cbn [runStrategies list_sum]. unfold bind at 1.
    destruct (Hs w) as (r0 & w1 & E & B & F & S). rewrite E.
    assert (Hnext : exists r w',
              runStrategies strategies (n + attemptsOf r0)
                (cs ++ constraintsOf r0) w1 = (Returned r, w') /\
              (attemptsOf r <= n + (bound + list_sum bounds))%nat /\
              (success r = true ->
               exists ms, nextCallTime r = Some (At ms) /\ P (At ms)) /\
              (success r = false ->
               error r = Some nothingFound /\ nextCallTime r = None)).
    { destruct (IH (n + attemptsOf r0)%nat (cs ++ constraintsOf r0)%list w1)
        as (r & w' & R & Br & Sr & Fr).
      exists r, w'. split; [exact R|]. split; [lia|]. split; assumption. }
    destruct (success r0) eqn:S0; [|exact Hnext].
    destruct (S eq_refl) as (t & Ht & Pt). rewrite Ht.
    destruct (Hdate t Pt) as (ms & ->).
    unfold bind, toISOString, ret. eexists; eexists.
    split; [reflexivity|].
    change (attemptsOf (withAttempts r0 (n + attemptsOf r0)))
      with (n + attemptsOf r0)%nat.
    cbn [withAttempts success nextCallTime]. unfold list_sum. cbn [fold_right]. fold (list_sum bounds).
    split; [lia|]. split; [|rewrite S0; discriminate].
    intros _. exists ms. split; [exact Ht|exact Pt].
Qed.

Lemma strategySearch_spec (rt : Runtime) (this : CallScheduler)
  (blockedTimes : list BlockedTime) (scheduleHelper : ScheduleHelper)
  (eh em : Z) (esec : option Z) (w : World) :
  clockField eh em -> evening_end (user this) = clockText eh em esec ->
  exists r w',
    strategySearch rt this blockedTimes scheduleHelper w = (Returned r, w') /\
    (attemptsOf r <= 2 * maxAttempts this + 6)%nat /\
    (success r = true ->
     exists ms, nextCallTime r = Some (At ms) /\
       AnyAccept rt this blockedTimes scheduleHelper (At ms)) /\
    (success r = false -> error r = Some nothingFound /\ nextCallTime r = None).
Proof.
  intros He Ee. unfold strategySearch.
  destruct (runStrategies_spec (AnyAccept rt this blockedTimes scheduleHelper)
              [ findTimeWithBasicRandomization rt this blockedTimes
                  scheduleHelper;
                findTimeWithPatternOptimization rt this blockedTimes
                  scheduleHelper;
                findTimeWithConstraintRelaxation rt this blockedTimes
                  scheduleHelper ]
              [maxAttempts this; 6%nat; maxAttempts this]) with (n := 0%nat)
    (cs := @nil string) (w := w) as (r & w' & R & B & S & F).
  - intros t Ht. eapply AnyAccept_is_date; eassumption.
  - constructor; [|constructor; [|constructor; [|constructor]]]; intros w0.
    + destruct (basicLoop_budget rt this blockedTimes scheduleHelper
                  (clock rt (reads w0)) (maxAttempts this) 0 []
                  (mkWorld (S (reads w0)) (draws w0)))
        as (r & w' & R & B & _ & F & S).
      exists r, w'. split; [exact R|]. split; [lia|].
      split; [intros Fr; now destruct (F Fr)|].
      intros Sr. destruct (S Sr) as (_ & t & Ht & Ha).
      exists t. split; [exact Ht|now left].
    + destruct (pattern_budget rt this blockedTimes scheduleHelper w0)
        as (r & w' & R & B & F & S).
      exists r, w'. split; [exact R|]. split; [exact B|]. split; [exact F|].
      intros Sr. destruct (S Sr) as (t & Ht & Ha).
      exists t. split; [exact Ht|now left].
    + destruct (relaxation_budget rt this blockedTimes scheduleHelper w0)
        as (r & w' & R & B & F & S).
      exists r, w'. split; [exact R|]. split; [exact B|]. split; [exact F|].
      intros Sr. destruct (S Sr) as (t & s & Ht & Hs & Ha).
      exists t. split; [exact Ht|]. right. exists s. split; assumption.
  - exists r, w'. split; [exact R|]. unfold list_sum in B. cbn [fold_right] in B.
    split; [lia|]. split; assumption.
Qed.

(** ** The generation as a whole *)

Lemma at_limit_result (rt : Runtime) (this : CallScheduler)
  (blockedTimes : list BlockedTime) (scheduleHelper : ScheduleHelper)
  (w : World) (mh mm : Z) (msec : option Z) :
  calls_today scheduleHelper >= daily_call_limit (user this) ->
  clockField mh mm ->
  morning_start (user this) = clockText mh mm msec ->
  exists ms,
    generateNextCallTime rt this blockedTimes scheduleHelper w
    = (Returned (dailyLimitResult (At ms)),
       mkWorld (S (reads w)) (S (draws w))).
Proof.
  intros Hlimit [Hmh Hmm] Hmorning.
  unfold generateNextCallTime, try_catch.
  assert (G : (calls_today scheduleHelper >=? daily_call_limit (user this))
              = true) by (apply Z.geb_le; lia).
  rewrite G. unfold getNextDayFirstCall.
  rewrite Hmorning, parseClock_clockText by lia.
  unfold bind, readClock, drawRandom, ret. cbn [reads draws].
  cbn [addDays setHours addToMinutes toISOString].
  unfold throw, ret. eexists. reflexivity.
Qed.

Lemma generation_result (rt : Runtime) (this : CallScheduler)
  (blockedTimes : list BlockedTime) (scheduleHelper : ScheduleHelper)
  (w : World) (mh mm eh em : Z) (msec esec : option Z) :
  clockField mh mm -> clockField eh em ->
  morning_start (user this) = clockText mh mm msec ->
  evening_end (user this) = clockText eh em esec ->
  exists r w',
    generateNextCallTime rt this blockedTimes scheduleHelper w
      = (Returned r, w') /\
    (attemptsOf r <= 2 * maxAttempts this + 6)%nat /\
    (success r = true -> exists ms, nextCallTime r = Some (At ms)) /\
    (success r = false ->
     calls_today scheduleHelper < daily_call_limit (user this) /\
     nextCallTime r = None /\
     error r = Some "Unable to find valid call time within constraints").
Proof.
  intros Hm He Em Ee.
  destruct (Z_lt_ge_dec (calls_today scheduleHelper)
              (daily_call_limit (user this))) as [Hlt|Hge].
  - destruct (strategySearch_spec rt this blockedTimes scheduleHelper eh em
                esec w He Ee) as (r & w' & R & B & S & F).
    exists r, w'. split.
    + unfold generateNextCallTime, try_catch.
      replace (calls_today scheduleHelper >=? daily_call_limit (user this))
        with false by (symmetry; rewrite Z.geb_leb; apply Z.leb_gt; lia).
      rewrite R. reflexivity.
    + split; [exact B|]. split.
      * intros Sr. destruct (S Sr) as (ms & Hms & _). now exists ms.
      * intros Fr. destruct (F Fr). auto.
  - destruct (at_limit_result rt this blockedTimes scheduleHelper w mh mm
                msec Hge Hm Em) as (ms & E).
    eexists; eexists. split; [exact E|].
    cbv [attemptsOf dailyLimitResult found metadata attempts success
         nextCallTime].
    split; [lia|]. split; [intros _; now exists ms|discriminate].
Qed.

(** X8: for a profile whose [morning_start] and [evening_end] are clock
    strings, [generateNextCallTime] always returns a result and never
    throws; the attempts it reports are at most [2 * maxAttempts + 6]; a
    success carries a valid date; a failure happens only below the daily
    limit, carries no time and the message that no valid time was found. *)
Theorem generation_returns_within_budget (rt : Runtime) (this : CallScheduler)
  (blockedTimes : list BlockedTime) (scheduleHelper : ScheduleHelper)
  (w : World) (mh mm eh em : Z) :
  clockField mh mm -> clockField eh em ->
  morning_start (user this) = clock5 mh mm ->
  evening_end (user this) = clock5 eh em ->
  exists r w',
    generateNextCallTime rt this blockedTimes scheduleHelper w
      = (Returned r, w') /\
    (attemptsOf r <= 2 * maxAttempts this + 6)%nat /\
    (success r = true -> exists ms, nextCallTime r = Some (At ms)) /\
    (success r = false ->
     calls_today scheduleHelper < daily_call_limit (user this) /\
     nextCallTime r = None /\
     error r = Some "Unable to find valid call time within constraints").
Proof.
  apply (generation_result rt this blockedTimes scheduleHelper w mh mm eh em
           None None).
Qed.

Lemma split_acc_no_sep (sep : ascii) (s : string) :
  JS.includes s (String sep EmptyString) = false ->
  forall acc, exists field, JS.split_acc sep acc s = [field].
Proof.
  induction s as [|c s IH]; intros H acc; [now exists acc|].
  cbn [JS.includes String.prefix] in H.
  apply orb_false_iff in H. destruct H as [H1 H2].
  cbn [JS.split_acc]. destruct (Ascii.eqb c sep) eqn:C.
  - apply Ascii.eqb_eq in C. subst c.
    destruct (ascii_dec sep sep) as [_|N]; [|congruence].
    destruct s; discriminate H1.
  - apply IH. exact H2.
Qed.

(** X9: when the daily limit is reached and [morning_start] contains no
    colon, [generateNextCallTime] throws: the time for the next day is an
    invalid date, its [toISOString] raises, and the [catch] rethrows an
    [AppError] with the code [SCHEDULING_ERROR] and the status 500, after
    one clock read and one draw. *)
Theorem generation_throws_without_colon (rt : Runtime) (this : CallScheduler)
  (blockedTimes : list BlockedTime) (scheduleHelper : ScheduleHelper)
  (w : World) :
  calls_today scheduleHelper >= daily_call_limit (user this) ->
  JS.includes (morning_start (user this)) ":" = false ->
  generateNextCallTime rt this blockedTimes scheduleHelper w
  = (Thrown (mkError "AppError" "Failed to generate call time"
               "SCHEDULING_ERROR" 500),
     mkWorld (S (reads w)) (S (draws w))).
Proof.
  intros Hlimit Hcolon.
  unfold generateNextCallTime, try_catch.
  assert (G : (calls_today scheduleHelper >=? daily_call_limit (user this))
              = true) by (apply Z.geb_le; lia).
  rewrite G. unfold getNextDayFirstCall, parseClock, JS.split.
  destruct (split_acc_no_sep ":" _ Hcolon EmptyString) as (field & ->).
  cbn [map]. unfold bind, readClock, drawRandom, ret.
  cbn [addDays setHours addToMinutes toISOString].
  destruct (JS.Number field); reflexivity.
Qed.

Lemma Qscale_le (g a b : Q) : (0 < g)%Q -> (a <= b)%Q -> (g * a <= g * b)%Q.
Proof. intros Hg Hab. apply Qmult_le_l; assumption. Qed.

Lemma relaxed_settings_bound (this : CallScheduler)
  (blockedTimes : list BlockedTime) (s : Relaxation) :
  (0 < minGapMinutes this)%Q ->
  In s (relaxationStrategies this) ->
  (minGapMinutes this * (1 # 2) <= minGapMinutes (relaxedScheduler this s))%Q
  /\
  (forall b, In b blockedTimes -> priority b > 0 ->
             In b (filteredBlocks s blockedTimes)).
Proof.
  intros Hg Hs.
  assert (Hnz : Qeq_bool (minGapMinutes this) 0 = false).
  { destruct (Qeq_bool (minGapMinutes this) 0) eqn:E; [|reflexivity].
    apply Qeq_bool_iff in E. rewrite E in Hg. discriminate Hg. }
  pose proof (relaxation_settings this blockedTimes Hnz) as Hset.
  apply (in_map (fun s => (minGapMinutes (relaxedScheduler this s),
                           filteredBlocks s blockedTimes, description s)))
    in Hs.
  rewrite Hset in Hs.
  destruct Hs as [H|[H|[H|[]]]];
    pose proof (f_equal (fun p => fst (fst p)) H) as Hgap;
    pose proof (f_equal (fun p => snd (fst p)) H) as Hblocks;
    cbn [fst snd] in Hgap, Hblocks; rewrite <- Hgap, <- Hblocks; split.
  - apply Qscale_le; [exact Hg|discriminate].
  - auto.
  - apply Qscale_le; [exact Hg|discriminate].
  - auto.
  - rewrite <- (Qmult_1_r (minGapMinutes this)) at 2.
    apply Qscale_le; [exact Hg|discriminate].
  - intros b Hb Hp. apply filter_In. split; [exact Hb|].
    apply Z.gtb_lt. lia.
Qed.

(** X10: a time that [generateNextCallTime] returns from its strategy
    search is a valid date, later than a clock reading of the search, at
    least half the nominal minimum gap after the last call when there is
    one, and blocked by no active interval of priority above 0. *)
Theorem search_result_guarantees (rt : Runtime) (this : CallScheduler)
  (blockedTimes : list BlockedTime) (scheduleHelper : ScheduleHelper)
  (w w' : World) (r : SchedulingResult) (time : Date) (eh em : Z) :
  clockField eh em -> evening_end (user this) = clock5 eh em ->
  (0 < minGapMinutes this)%Q ->
  calls_today scheduleHelper < daily_call_limit (user this) ->
  generateNextCallTime rt this blockedTimes scheduleHelper w
    = (Returned r, w') ->
  success r = true -> nextCallTime r = Some time ->
  exists ms, time = At ms /\
    (exists n, clock rt n < ms) /\
    (forall lastCall, last_call_time scheduleHelper = Some (At lastCall) ->
       (minGapMinutes this * (1 # 2) * 60000 <= inject_Z (ms - lastCall))%Q) /\
    (forall block, In block blockedTimes -> is_active block = true ->
       priority block > 0 ->
       isTimeInBlockedPeriod rt (At ms) block = false).
Proof.
  intros He Ee Hg Hlt E Sr T.
  apply generateNextCallTime_search in E; [|exact Hlt].
  destruct (strategySearch_spec rt this blockedTimes scheduleHelper eh em
              None w He Ee) as (r0 & w0 & R & _ & S & _).
  rewrite E in R. inversion R; subst r0 w0.
  destruct (S Sr) as (ms & Hms & Hacc).
  rewrite T in Hms. inversion Hms; subst time.
  exists ms. split; [reflexivity|].
  assert (Hhalf : (minGapMinutes this * (1 # 2) <= minGapMinutes this)%Q).
  { rewrite <- (Qmult_1_r (minGapMinutes this)) at 2.
    apply Qscale_le; [exact Hg|discriminate]. }
  destruct Hacc as [(wa & wb & Ea)|(s & Hs & wa & wb & Ea)].
  - destruct (validated_facts _ _ _ _ _ _ _ _ Ea eq_refl) as (Hc & Hgap & Hb).
    split; [now exists (reads wa)|]. split.
    + intros l Hl. eapply Qle_trans; [|apply (Hgap l Hl)].
      apply Qmult_le_compat_r; [exact Hhalf|discriminate].
    + intros b Hin Hact _. now apply Hb.
  - destruct (relaxed_settings_bound this blockedTimes s Hg Hs)
      as [Hbound Hkeep].
    destruct (validated_facts _ _ _ _ _ _ _ _ Ea eq_refl) as (Hc & Hgap & Hb).
    split; [now exists (reads wa)|]. split.
    + intros l Hl. eapply Qle_trans; [|apply (Hgap l Hl)].
      apply Qmult_le_compat_r; [exact Hbound|discriminate].
    + intros b Hin Hact Hp. apply Hb; [|exact Hact]. now apply Hkeep.
Qed.

(** ** The schedule-helper service and its cache *)

Lemma includes_step (c : ascii) (s p : string) :
  JS.includes (String c s) p
  = String.prefix p (String c s) || JS.includes s p.
Proof. reflexivity. Qed.

Lemma prefix_head (c d : ascii) (p s : string) :
  c <> d -> String.prefix (String c p) (String d s) = false.
Proof.
  intros H. cbn [String.prefix].
  destruct (ascii_dec c d); [contradiction|reflexivity].
Qed.

Lemma prefix_same (c : ascii) (p s : string) :
  String.prefix (String c p) (String c s) = String.prefix p s.
Proof.
  cbn [String.prefix]. destruct (ascii_dec c c); [reflexivity|congruence].
Qed.

Lemma idChar_plain (c : ascii) :
  Service.idChar c = true -> c <> "s"%char /\ c <> "{"%char.
Proof. intros H; split; intros ->; vm_compute in H; discriminate H. Qed.

Lemma includes_plain (u rest p : string) :
  Service.plainId u = true ->
  JS.includes (u ++ rest) (String "s" p) = JS.includes rest (String "s" p).
Proof.
  induction u as [|c u IH]; intros H; [reflexivity|].
  cbn [Service.plainId] in H. apply andb_true_iff in H as [Hc Hu].
  cbn [append]. rewrite includes_step, prefix_head, IH; auto.
  intros E. apply idChar_plain in Hc. symmetry in E. tauto.
Qed.

Lemma helper_key_not_matched (uid owner : string) :
  Service.plainId uid = true -> uid <> "" -> Service.plainId owner = true ->
  JS.includes (Service.helperCacheKey owner) ("schedule_helper_" ++ uid)
  = false.
Proof.
  intros Hu Hne Ho. destruct uid as [|c u]; [contradiction|].
  cbn [Service.plainId] in Hu. apply andb_true_iff in Hu as [Hc _].
  apply idChar_plain in Hc as [_ Hc].
  unfold Service.helperCacheKey, Service.jsonString, Service.quote.
  cbn [append].
  repeat (rewrite includes_step; repeat rewrite prefix_same;
          rewrite prefix_head by (assumption || discriminate);
          cbn [orb]).
  rewrite append_assoc, (includes_plain owner) by assumption.
  cbn [append].
  repeat (rewrite includes_step; repeat rewrite prefix_same;
          rewrite prefix_head by (assumption || discriminate);
          cbn [orb]).
  reflexivity.
Qed.

Lemma mapGet_invalidate (key pattern : string) (m : Service.Cache) :
  JS.includes key pattern = false ->
  Service.mapGet key (Service.invalidateCache pattern m)
  = Service.mapGet key m.
Proof.
  intros H. induction m as [|[k e] m IH]; [reflexivity|].
  unfold Service.invalidateCache in *. cbn [filter fst Service.mapGet].
  destruct (JS.includes k pattern) eqn:Ek; cbn [negb].
  - destruct (String.eqb k key) eqn:E; [|exact IH].
    apply String.eqb_eq in E. congruence.
  - cbn [Service.mapGet]. destruct (String.eqb k key); [reflexivity|exact IH].
Qed.

Lemma mapGet_set (key : string) (e : Service.CacheEntry) (m : Service.Cache) :
  Service.mapGet key (Service.mapSet key e m) = Some e.
Proof.
  induction m as [|[k old] m IH]; cbn [Service.mapSet Service.mapGet].
  - now rewrite String.eqb_refl.
  - destruct (String.eqb k key) eqn:E; cbn [Service.mapGet]; rewrite E;
      [reflexivity|exact IH].
Qed.

(** X11: the cache invalidation of [updateScheduleHelper] never removes
    the entry that [getScheduleHelper] wrote: for UUID-like ids, a key
    built by [getCacheKey] does not include the pattern
    [schedule_helper_<userId>], so the lookup of any user's cached helper
    answers the same before and after the invalidation. *)
Theorem invalidation_misses_helper_key (uid owner : string)
  (m : Service.Cache) :
  Service.plainId uid = true -> uid <> "" -> Service.plainId owner = true ->
  Service.mapGet (Service.helperCacheKey owner)
    (Service.invalidateCache ("schedule_helper_" ++ uid) m)
  = Service.mapGet (Service.helperCacheKey owner) m.
Proof.
  intros Hu Hne Ho. apply mapGet_invalidate.
  now apply helper_key_not_matched.
Qed.

Lemma once_succeeds (table : Table) (userId : string)
  (updates : ScheduleUpdates) (v : Z) (row : ScheduleHelper) :
  v <> 0 ->
  rowsOf userId table = [row] ->
  lock_version row = v ->
  updateScheduleHelperOnce userId updates (Some v) table
  = (Returned (applyUpdates updates (Some (v + 1)) row),
     map (updateRow userId updates (Some v)) table).
Proof.
  intros Hv Hrows Hrow.
  unfold updateScheduleHelperOnce. rewrite selected_rows, Hrows.
  cbn [filter]. apply Z.eqb_eq in Hrow. rewrite Hrow. cbn [map].
  unfold nextVersion. apply Z.eqb_neq in Hv. rewrite Hv. reflexivity.
Qed.

Lemma once_conflicts (table : Table) (userId : string)
  (updates : ScheduleUpdates) (v : Z) (row : ScheduleHelper) :
  rowsOf userId table = [row] ->
  lock_version row <> v ->
  updateScheduleHelperOnce userId updates (Some v) table
  = (Thrown (ValidationError concurrentModificationMessage), table).
Proof.
  intros Hrows Hrow.
  unfold updateScheduleHelperOnce. rewrite selected_rows, Hrows.
  cbn [filter]. apply Z.eqb_neq in Hrow. rewrite Hrow. reflexivity.
Qed.

Lemma rows_after_update (table : Table) (userId : string)
  (updates : ScheduleUpdates) (v : Z) (row : ScheduleHelper) :
  v <> 0 ->
  rowsOf userId table = [row] ->
  lock_version row = v ->
  rowsOf userId (map (updateRow userId updates (Some v)) table)
  = [applyUpdates updates (Some (v + 1)) row].
Proof.
  intros Hv Hrows Hrow.
  rewrite rowsOf_map by apply updateRow_user. rewrite Hrows. cbn [map].
  unfold updateRow, rowSelected.
  assert (Hu : String.eqb (user_id row) userId = true).
  { assert (Hin : In row (rowsOf userId table)) by (rewrite Hrows; now left).
    apply filter_In in Hin. tauto. }
  rewrite Hu. apply Z.eqb_eq in Hrow. rewrite Hrow. cbn [andb].
  unfold nextVersion. apply Z.eqb_neq in Hv. rewrite Hv. reflexivity.
Qed.

Section ServiceRuns.

Variable rt : Runtime.

Lemma get_miss (uid : string) (row : ScheduleHelper) (st : Service.State) :
  Service.mapGet (Service.helperCacheKey uid) (Service.cache st) = None ->
  rowsOf uid (Service.table st) = [row] ->
  Service.getScheduleHelper rt uid st
  = (Returned row,
     Service.mkState (Service.table st) (Service.users st)
       (Service.mapSet (Service.helperCacheKey uid)
          (Service.mkEntry row (clock rt (reads (Service.world st)))
             Service.CACHE_TTL)
          (Service.cache st))
       (mkWorld (S (reads (Service.world st)))
          (draws (Service.world st)))).
Proof.
  intros Hc Hrows.
  unfold Service.getScheduleHelper, Service.getFromCache. rewrite Hc.
  unfold Service.withRetry, MAX_RETRIES. cbn [Service.retryLoop].
  unfold Service.selectHelper. unfold rowsOf in Hrows. rewrite Hrows.
  reflexivity.
Qed.

Lemma get_hit (uid : string) (e : Service.CacheEntry) (st : Service.State) :
  Service.mapGet (Service.helperCacheKey uid) (Service.cache st) = Some e ->
  clock rt (reads (Service.world st)) - Service.timestamp e
    <= Service.ttl e ->
  Service.getScheduleHelper rt uid st
  = (Returned (Service.data e),
     Service.mkState (Service.table st) (Service.users st)
       (Service.cache st)
       (mkWorld (S (reads (Service.world st)))
          (draws (Service.world st)))).
Proof.
  intros Hc Hfresh.
  unfold Service.getScheduleHelper, Service.getFromCache. rewrite Hc.
  unfold Service.now.
  cbn [Service.table Service.users Service.cache Service.world].
  destruct (Z.gtb_spec (clock rt (reads (Service.world st))
                        - Service.timestamp e) (Service.ttl e)) as [G|G];
    [lia|reflexivity].
Qed.

Lemma get_expired (uid : string) (e : Service.CacheEntry)
  (row : ScheduleHelper) (st : Service.State) :
  Service.mapGet (Service.helperCacheKey uid) (Service.cache st) = Some e ->
  clock rt (reads (Service.world st)) - Service.timestamp e
    > Service.ttl e ->
  rowsOf uid (Service.table st) = [row] ->
  Service.getScheduleHelper rt uid st
  = (Returned row,
     Service.mkState (Service.table st) (Service.users st)
       (Service.mapSet (Service.helperCacheKey uid)
          (Service.mkEntry row (clock rt (S (reads (Service.world st))))
             Service.CACHE_TTL)
          (Service.mapDelete (Service.helperCacheKey uid)
             (Service.cache st)))
       (mkWorld (S (S (reads (Service.world st))))
          (draws (Service.world st)))).
Proof.
  intros Hc Hold Hrows.
  unfold Service.getScheduleHelper, Service.getFromCache. rewrite Hc.
  unfold Service.now.
  cbn [Service.table Service.users Service.cache Service.world].
  destruct (Z.gtb_spec (clock rt (reads (Service.world st))
                        - Service.timestamp e) (Service.ttl e)) as [G|G];
    [|lia].
  unfold Service.withRetry, MAX_RETRIES. cbn [Service.retryLoop].
  unfold Service.selectHelper.
  cbn [Service.table Service.users Service.cache Service.world].
  unfold rowsOf in Hrows. rewrite Hrows. reflexivity.
Qed.

Lemma service_update_succeeds (uid : string) (updates : ScheduleUpdates)
  (v : Z) (row : ScheduleHelper) (st : Service.State) :
  v <> 0 ->
  rowsOf uid (Service.table st) = [row] ->
  lock_version row = v ->
  Service.updateScheduleHelper rt uid updates (Some v) st
  = (Returned (applyUpdates updates (Some (v + 1)) row),
     Service.mkState
       (map (updateRow uid updates (Some v)) (Service.table st))
       (Service.users st)
       (Service.invalidateCache ("schedule_helper_" ++ uid)
          (Service.cache st))
       (mkWorld (S (reads (Service.world st)))
          (draws (Service.world st)))).
Proof.
  intros Hv Hrows Hrow.
  unfold Service.updateScheduleHelper, Service.withRetry, MAX_RETRIES.
  cbn [Service.retryLoop]. unfold Service.updateOnce, Service.now.
  cbn [Service.table Service.users Service.cache Service.world].
  rewrite (once_succeeds _ _ _ _ _ Hv Hrows Hrow). reflexivity.
Qed.

Lemma service_update_conflicts (uid : string) (updates : ScheduleUpdates)
  (v : Z) (row : ScheduleHelper) (st : Service.State) :
  rowsOf uid (Service.table st) = [row] ->
  lock_version row <> v ->
  Service.updateScheduleHelper rt uid updates (Some v) st
  = (Thrown concurrentModificationError,
     Service.mkState (Service.table st) (Service.users st)
       (Service.cache st)
       (mkWorld (3 + reads (Service.world st))
          (2 + draws (Service.world st)))).
Proof.
  intros Hrows Hrow.
  unfold Service.updateScheduleHelper, Service.withRetry, MAX_RETRIES.
  cbn [Service.retryLoop]. unfold Service.updateOnce, Service.now.
  cbn [Service.table Service.users Service.cache Service.world
       Service.backoff reads draws].
  rewrite !(once_conflicts _ _ _ _ _ Hrows Hrow).
  reflexivity.
Qed.

End ServiceRuns.

(** X12: a helper read through the cache outlives the update of its row.
    After [getScheduleHelper] has read the row of a user (and cached it),
    a versioned [updateScheduleHelper] succeeds and raises the stored
    version, yet a [getScheduleHelper] within the five minutes of the
    entry still answers the row as it was before the update; a write
    that passes the version of that answer is refused as a concurrent
    modification and leaves the table as it is. *)
Theorem cached_helper_outlives_update (rt : Runtime) (uid : string)
  (row : ScheduleHelper) (updates : ScheduleUpdates) (st : Service.State) :
  Service.plainId uid = true -> uid <> "" ->
  rowsOf uid (Service.table st) = [row] ->
  lock_version row <> 0 ->
  Service.mapGet (Service.helperCacheKey uid) (Service.cache st) = None ->
  clock rt (2 + reads (Service.world st))
    - clock rt (reads (Service.world st)) <= Service.CACHE_TTL ->
  exists (st1 st2 st3 st4 : Service.State) (row' : ScheduleHelper),
    Service.getScheduleHelper rt uid st = (Returned row, st1) /\
    Service.updateScheduleHelper rt uid updates (Some (lock_version row)) st1
      = (Returned row', st2) /\
    lock_version row' = lock_version row + 1 /\
    rowsOf uid (Service.table st2) = [row'] /\
    Service.getScheduleHelper rt uid st2 = (Returned row, st3) /\
    Service.updateScheduleHelper rt uid updates (Some (lock_version row)) st3
      = (Thrown concurrentModificationError, st4) /\
    Service.table st4 = Service.table st2.
Proof.
  intros Hid Hne Hrows Hv Hmiss Hfresh.
  pose proof (get_miss rt uid row st Hmiss Hrows) as G1.
  set (st1 := Service.mkState _ _ _ _) in G1.
  assert (Hrows1 : rowsOf uid (Service.table st1) = [row]) by exact Hrows.
  pose proof (service_update_succeeds rt uid updates (lock_version row) row
                st1 Hv Hrows1 eq_refl) as U.
  set (st2 := Service.mkState _ _ _ _) in U.
  assert (Hrows2 : rowsOf uid (Service.table st2)
                   = [applyUpdates updates (Some (lock_version row + 1)) row]).
  { apply rows_after_update; auto. }
  assert (Hentry : Service.mapGet (Service.helperCacheKey uid)
                     (Service.cache st2)
                   = Some (Service.mkEntry row
                             (clock rt (reads (Service.world st)))
                             Service.CACHE_TTL)).
  { subst st2 st1.
    cbn [Service.table Service.users Service.cache Service.world].
    rewrite mapGet_invalidate by (now apply helper_key_not_matched).
    apply mapGet_set. }
  assert (Hage : clock rt (reads (Service.world st2))
                 - Service.timestamp
                     (Service.mkEntry row (clock rt (reads (Service.world st)))
                        Service.CACHE_TTL)
                 <= Service.ttl
                      (Service.mkEntry row
                         (clock rt (reads (Service.world st)))
                         Service.CACHE_TTL)).
  { exact Hfresh. }
  pose proof (get_hit rt uid _ st2 Hentry Hage) as G2.
  set (st3 := Service.mkState _ _ _ _) in G2.
  assert (Hstale : lock_version
                     (applyUpdates updates (Some (lock_version row + 1)) row)
                   <> lock_version row).
  { cbn [applyUpdates lock_version orKeep]. lia. }
  assert (Hrows3 : rowsOf uid (Service.table st3)
                   = [applyUpdates updates (Some (lock_version row + 1)) row])
    by exact Hrows2.
  pose proof (service_update_conflicts rt uid updates (lock_version row) _
                st3 Hrows3 Hstale) as U2.
  set (st4 := Service.mkState _ _ _ _) in U2.
  exists st1, st2, st3, st4,
    (applyUpdates updates (Some (lock_version row + 1)) row).
  split; [exact G1|]. split; [exact U|]. split; [reflexivity|].
  split; [exact Hrows2|]. split; [exact G2|]. split; [exact U2|reflexivity].
Qed.

(** X13: a cached helper is served exactly while the clock is at most
    five minutes (the entry's [ttl]) past the entry's timestamp: then the
    cached data are answered and the entry stays; past that, the entry is
    dropped, the stored row is answered and cached anew with the default
    [ttl].  The table is not written in either case. *)
Theorem cache_entry_expires (rt : Runtime) (uid : string)
  (e : Service.CacheEntry) (row : ScheduleHelper) (st : Service.State) :
  Service.mapGet (Service.helperCacheKey uid) (Service.cache st) = Some e ->
  rowsOf uid (Service.table st) = [row] ->
  let age := clock rt (reads (Service.world st)) - Service.timestamp e in
  exists st' : Service.State,
    Service.getScheduleHelper rt uid st
    = (Returned (if age >? Service.ttl e then row else Service.data e), st')
    /\ Service.table st' = Service.table st
    /\ Service.mapGet (Service.helperCacheKey uid) (Service.cache st')
       = Some (if age >? Service.ttl e
               then Service.mkEntry row
                      (clock rt (S (reads (Service.world st))))
                      Service.CACHE_TTL
               else e).
Proof.
  intros Hc Hrows age.
  destruct (Z.gtb_spec age (Service.ttl e)) as [G|G].
  - eexists. split; [apply (get_expired rt uid e row st Hc);
                     [unfold age in G; lia|exact Hrows]|].
    split; [reflexivity|]. cbn [Service.cache]. apply mapGet_set.
  - eexists. split; [apply (get_hit rt uid e st Hc); exact G|].
    split; [reflexivity|exact Hc].
Qed.

Lemma no_rows_existsb (uid : string) (table : Table) :
  rowsOf uid table = [] ->
  existsb (fun r => String.eqb (user_id r) uid) table = false.
Proof.
  induction table as [|r table IH]; [reflexivity|].
  unfold rowsOf. cbn [filter existsb].
  destruct (String.eqb (user_id r) uid); [discriminate|exact IH].
Qed.

Lemma rowsOf_app (uid : string) (a b : Table) :
  rowsOf uid (a ++ b)%list = (rowsOf uid a ++ rowsOf uid b)%list.
Proof. unfold rowsOf. apply filter_app. Qed.

(** X14: a user without a helper gets one on the first read.  When the
    user exists, has no row in [schedule_helper] and no cache entry,
    [getScheduleHelper] inserts and answers a row with no call due, no
    last call, [calls_today] 0, the UTC date of the clock as reset date
    and [lock_version] 1; the created row is not cached by that call, and
    the next [getScheduleHelper] answers the same row from the table and
    caches it. *)
Theorem missing_helper_is_created (rt : Runtime) (uid : string)
  (st : Service.State) :
  In uid (Service.users st) ->
  rowsOf uid (Service.table st) = [] ->
  Service.mapGet (Service.helperCacheKey uid) (Service.cache st) = None ->
  let n := reads (Service.world st) in
  let fresh :=
    mkScheduleHelper uid None None 0 (isoDate (clock rt n))
      (At (clock rt (S n))) 1 in
  exists st' st'' : Service.State,
    Service.getScheduleHelper rt uid st = (Returned fresh, st') /\
    Service.table st' = (Service.table st ++ [fresh])%list /\
    Service.cache st' = Service.cache st /\
    Service.getScheduleHelper rt uid st' = (Returned fresh, st'') /\
    Service.table st'' = Service.table st' /\
    Service.mapGet (Service.helperCacheKey uid) (Service.cache st'')
    = Some (Service.mkEntry fresh (clock rt (S (S n))) Service.CACHE_TTL).
Proof.
  intros Hu Hrows Hmiss n fresh.
  assert (G1 : Service.getScheduleHelper rt uid st
               = (Returned fresh,
                  Service.mkState (Service.table st ++ [fresh])%list
                    (Service.users st) (Service.cache st)
                    (mkWorld (S (S n)) (draws (Service.world st))))).
  { unfold Service.getScheduleHelper, Service.getFromCache. rewrite Hmiss.
    unfold Service.withRetry, MAX_RETRIES. cbn [Service.retryLoop].
    unfold Service.selectHelper. unfold rowsOf in Hrows. rewrite Hrows.
    unfold Service.createScheduleHelper, Service.withRetry, MAX_RETRIES.
    cbn [Service.retryLoop]. unfold Service.insertHelper, Service.now.
    cbn [Service.table Service.users Service.cache Service.world reads draws].
    apply arr_includes_In in Hu. rewrite Hu. cbn [negb].
    rewrite no_rows_existsb by exact Hrows. reflexivity. }
  set (st' := Service.mkState _ _ _ _) in G1.
  assert (Hrows' : rowsOf uid (Service.table st') = [fresh]).
  { subst st'. cbn [Service.table]. rewrite rowsOf_app, Hrows.
    unfold rowsOf. cbn [filter app]. subst fresh. cbn [user_id].
    now rewrite String.eqb_refl. }
  assert (Hmiss' : Service.mapGet (Service.helperCacheKey uid)
                     (Service.cache st') = None) by exact Hmiss.
  pose proof (get_miss rt uid fresh st' Hmiss' Hrows') as G2.
  eexists. eexists. split; [exact G1|]. split; [reflexivity|].
  split; [reflexivity|]. split; [exact G2|]. split; [reflexivity|].
  cbn [Service.cache]. apply mapGet_set.
Qed.

(** X15: [withRetry] gives up exactly when the operation fails three
    times in a row, each run starting where the one before stopped (with
    one draw for the delay in between); the error it then throws is a
    [NetworkError] that quotes the message of the third failure, whatever
    the errors of the operation were.  A first success ends the loop:
    the operation is not run again. *)
Theorem withRetry_three_failures {A : Type} (operation : Service.Svc A)
  (st : Service.State) :
  (forall (e : Error) (st' : Service.State),
     Service.withRetry operation st = (Thrown e, st') <->
     exists (e1 e2 e3 : Error) (s1 s2 : Service.State),
       operation st = (Thrown e1, s1) /\
       operation (Service.backoff s1) = (Thrown e2, s2) /\
       operation (Service.backoff s2) = (Thrown e3, st') /\
       e = NetworkError ("Database operation failed after 3 attempts: "
                         ++ err_message e3))
  /\ (forall (a : A) (st' : Service.State),
        operation st = (Returned a, st') ->
        Service.withRetry operation st = (Returned a, st')).
Proof.
  unfold Service.withRetry, MAX_RETRIES. cbn [Service.retryLoop]. split.
  - intros e st'. split.
    + destruct (operation st) as [[a|e1] s1] eqn:E1; [discriminate|].
      destruct (operation (Service.backoff s1)) as [[a|e2] s2] eqn:E2;
        [discriminate|].
      destruct (operation (Service.backoff s2)) as [[a|e3] s3] eqn:E3;
        [discriminate|].
      intros H. inversion H; subst.
      exists e1, e2, e3, s1, s2. repeat split; auto.
    + intros (e1 & e2 & e3 & s1 & s2 & E1 & E2 & E3 & ->).
      rewrite E1, E2, E3. reflexivity.
  - intros a st' E. rewrite E. reflexivity.
Qed.

(** ** Writes of the schedule state *)

Lemma once_cases (userId : string) (updates : ScheduleUpdates)
  (expectedLockVersion : option Z) (table : Table) :
  (exists row,
     filter (rowSelected userId expectedLockVersion) table = [row] /\
     updateScheduleHelperOnce userId updates expectedLockVersion table
     = (Returned (applyUpdates updates (nextVersion expectedLockVersion) row),
        map (updateRow userId updates expectedLockVersion) table))
  \/ (exists e,
        updateScheduleHelperOnce userId updates expectedLockVersion table
        = (Thrown e, table)).
Proof.
  unfold updateScheduleHelperOnce.
  destruct (filter (rowSelected userId expectedLockVersion) table)
    as [|row [|row2 rest]] eqn:F; cbn [map].
  - right. destruct expectedLockVersion; eexists; reflexivity.
  - left. exists row. split; reflexivity.
  - right. destruct expectedLockVersion; eexists; reflexivity.
Qed.

Lemma update_cases (userId : string) (updates : ScheduleUpdates)
  (expectedLockVersion : option Z) (table : Table) :
  (exists row,
     filter (rowSelected userId expectedLockVersion) table = [row] /\
     updateScheduleHelper userId updates expectedLockVersion table
     = (Returned (applyUpdates updates (nextVersion expectedLockVersion) row),
        map (updateRow userId updates expectedLockVersion) table))
  \/ (exists e,
        updateScheduleHelper userId updates expectedLockVersion table
        = (Thrown e, table)).
Proof.
  unfold updateScheduleHelper, withRetry, MAX_RETRIES. cbn [retryLoop].
  destruct (once_cases userId updates expectedLockVersion table)
    as [(row & F & E)|(e & E)].
  - left. exists row. rewrite E. split; [exact F|reflexivity].
  - right. rewrite !E. eexists. reflexivity.
Qed.

Lemma updateRow_keeps (userId : string) (updates : ScheduleUpdates)
  (expectedLockVersion : option Z) (row : ScheduleHelper) :
  let row' := updateRow userId updates expectedLockVersion row in
  user_id row' = user_id row /\
  lock_version row <= lock_version row' <= lock_version row + 1 /\
  (user_id row <> userId -> row' = row).
Proof.
  unfold updateRow, rowSelected. cbv zeta.
  destruct (String.eqb_spec (user_id row) userId) as [Eu|Eu]; cbn [andb].
  - destruct expectedLockVersion as [v|].
    + destruct (Z.eqb_spec (lock_version row) v) as [Ev|Ev].
      * cbn [applyUpdates user_id lock_version]. unfold nextVersion.
        destruct (v =? 0); cbn [orKeep]; (split; [reflexivity|]);
          (split; [lia|contradiction]).
      * split; [reflexivity|]. split; [lia|reflexivity].
    + cbn [applyUpdates user_id lock_version nextVersion orKeep].
      split; [reflexivity|]. split; [lia|contradiction].
  - split; [reflexivity|]. split; [lia|reflexivity].
Qed.

(** X16: whatever the outcome of [updateScheduleHelper], the table keeps
    its rows in place, each with its user; a row of another user is not
    changed, no version is lowered and none is raised by more than one;
    and when the operation throws, the table is as it was. *)
Theorem update_keeps_other_rows (userId : string) (updates : ScheduleUpdates)
  (expectedLockVersion : option Z) (table table' : Table)
  (res : Outcome ScheduleHelper) :
  updateScheduleHelper userId updates expectedLockVersion table
    = (res, table') ->
  Forall2 (fun old new =>
             user_id new = user_id old /\
             lock_version old <= lock_version new <= lock_version old + 1 /\
             (user_id old <> userId -> new = old))
    table table'
  /\ (forall e, res = Thrown e -> table' = table).
Proof.
  intros E.
  destruct (update_cases userId updates expectedLockVersion table)
    as [(row & _ & E')|(e & E')]; rewrite E' in E; inversion E; subst.
  - split; [|discriminate].
    clear E E'. induction table as [|r table IH]; cbn [map]; constructor.
    + apply updateRow_keeps.
    + exact IH.
  - split; [|reflexivity].
    clear E E'. induction table' as [|r table IH]; constructor.
    + split; [reflexivity|]. split; [lia|reflexivity].
    + exact IH.
Qed.

(** X17: the daily reset of [loadInitialData] is idempotent: when it
    returns a schedule state, that state carries today's date, and
    running the reset again on it, with the same clock reading, writes
    nothing and returns it unchanged. *)
Theorem dailyReset_idempotent (now : Z) (u : User)
  (scheduleHelper updated : ScheduleHelper) (table table' : Table) :
  dailyReset now u scheduleHelper table = (Returned updated, table') ->
  daily_reset_date updated = isoDate now /\
  dailyReset now u updated table' = (Returned updated, table').
Proof.
  unfold dailyReset.
  destruct (String.eqb_spec (daily_reset_date scheduleHelper) (isoDate now))
    as [Ed|Ed]; cbn [negb]; intros E.
  - inversion E; subst. split; [exact Ed|].
    rewrite Ed, String.eqb_refl. reflexivity.
  - destruct (update_cases (id u)
                (mkUpdates None None (Some 0) (Some (isoDate now)) None)
                (Some (lock_version scheduleHelper)) table)
      as [(row & _ & E')|(e & E')]; rewrite E' in E; [|discriminate].
    inversion E; subst.
    cbn [applyUpdates daily_reset_date set_daily_reset_date orKeep].
    rewrite String.eqb_refl. split; reflexivity.
Qed.

(** X18: what [markCallAttempted] writes holds the next search back: when
    its write succeeds, the returned schedule state has no call due, has
    the clock reading as [last_call_time] and, for the status ['called'],
    the count the hook held plus one; and every time that
    [validateCallTime] then accepts on that state is at least the
    scheduler's minimum gap after the attempt. *)
Theorem recorded_attempt_holds_gap (now : Z) (u : User)
  (scheduleHelper updated : ScheduleHelper) (called : bool) (callsToday : Z)
  (table table' : Table) :
  recordAttempt now u scheduleHelper called callsToday table
    = (Returned updated, table') ->
  next_call_due updated = None /\
  last_call_time updated = Some (At now) /\
  (called = true -> calls_today updated = callsToday + 1) /\
  forall (rt : Runtime) (this : CallScheduler)
         (blockedTimes : list BlockedTime) (t : Z) (w w' : World),
    validateCallTime rt this (At t) blockedTimes updated w
      = (Returned accepted, w') ->
    (minGapMinutes this * 60000 <= inject_Z (t - now))%Q.
Proof.
  unfold recordAttempt. intros E.
  destruct (update_cases (id u)
              (mkUpdates (Some None) (Some (Some (At now)))
                 (if called then Some (callsToday + 1) else None) None None)
              (Some (lock_version scheduleHelper)) table)
    as [(row & _ & E')|(e & E')]; rewrite E' in E; [|discriminate].
  inversion E; subst. clear E E'.
  split; [reflexivity|]. split; [reflexivity|]. split.
  - intros ->. reflexivity.
  - intros rt this blockedTimes t w w' V.
    destruct (validated_facts _ _ _ _ _ _ _ _ V eq_refl) as (_ & Hgap & _).
    apply Hgap. reflexivity.
Qed.

(** ** The callbacks of the hook *)

Lemma service_update_cases (rt : Runtime) (uid : string)
  (updates : ScheduleUpdates) (expected : option Z) (st : Service.State) :
  (exists row,
     filter (rowSelected uid expected) (Service.table st) = [row] /\
     Service.updateScheduleHelper rt uid updates expected st
     = (Returned (applyUpdates updates (nextVersion expected) row),
        Service.mkState
          (map (updateRow uid updates expected) (Service.table st))
          (Service.users st)
          (Service.invalidateCache ("schedule_helper_" ++ uid)
             (Service.cache st))
          (mkWorld (S (reads (Service.world st)))
             (draws (Service.world st)))))
  \/ (exists e st',
        Service.updateScheduleHelper rt uid updates expected st
        = (Thrown e, st') /\
        err_name e = "NetworkError" /\
        Service.table st' = Service.table st /\
        Service.cache st' = Service.cache st).
Proof.
  unfold Service.updateScheduleHelper, Service.withRetry, MAX_RETRIES.
  cbn [Service.retryLoop]. unfold Service.updateOnce, Service.now.
  cbn [Service.table Service.users Service.cache Service.world].
  destruct (once_cases uid updates expected (Service.table st))
    as [(row & F & E)|(e & E)].
  - left. exists row. rewrite E. split; [exact F|reflexivity].
  - right. rewrite E.
    cbn [Service.backoff Service.table Service.users Service.cache
         Service.world reads draws].
    rewrite E.
    cbn [Service.backoff Service.table Service.users Service.cache
         Service.world reads draws].
    rewrite E. eexists. eexists. split; [reflexivity|].
    cbn [err_name NetworkError Service.table Service.cache]. auto.
Qed.

Lemma selected_row_updated (uid : string) (updates : ScheduleUpdates)
  (expected : option Z) (table : Table) (row : ScheduleHelper) :
  filter (rowSelected uid expected) table = [row] ->
  let updated := applyUpdates updates (nextVersion expected) row in
  In updated (map (updateRow uid updates expected) table) /\
  user_id updated = uid /\
  (forall v, expected = Some v -> v <> 0 -> lock_version updated = v + 1).
Proof.
  intros F updated.
  assert (Hin : In row (filter (rowSelected uid expected) table))
    by (rewrite F; now left).
  apply filter_In in Hin. destruct Hin as [Hin Hsel]. split; [|split].
  - replace updated with (updateRow uid updates expected row)
      by (unfold updateRow; now rewrite Hsel).
    now apply in_map.
  - unfold rowSelected in Hsel. apply andb_true_iff in Hsel.
    destruct Hsel as [Hu _]. apply String.eqb_eq in Hu. exact Hu.
  - intros v -> Hv. subst updated. unfold nextVersion.
    apply Z.eqb_neq in Hv. rewrite Hv. reflexivity.
Qed.

(** What the write of a rescheduled call leaves: the row with the time,
    or the table as it was and the error of the time ([RangeError], when
    it is no valid date) or of the write ([NetworkError]). *)
Lemma commitRescheduled_cases (rt : Runtime) (u : User)
  (scheduleHelper : ScheduleHelper) (next : Date)
  (s0 st' : Service.State) (out : Outcome (Date * ScheduleHelper)) :
  Hook.commitRescheduled rt u scheduleHelper next s0 = (out, st') ->
  match out with
  | Returned (next', updated) =>
      next' = next /\ In updated (Service.table st') /\
      user_id updated = id u /\ next_call_due updated = Some next
  | Thrown e =>
      Service.table st' = Service.table s0 /\
      (err_name e = "NetworkError"
       \/ (e = RangeError "Invalid time value" /\ next = InvalidDate))
  end.
Proof.
  unfold Hook.commitRescheduled, Hook.andThen, Hook.scheduler, Hook.pure.
  destruct next as [|ms]; cbn [toISOString]; unfold throw, ret.
  - intros E. inversion E; subst. split; [reflexivity|]. right. now split.
  - unfold Service.now.
    cbn [Service.table Service.users Service.cache Service.world].
    match goal with
    | |- context [Service.updateScheduleHelper rt ?uid ?ups ?ex ?s] =>
        destruct (service_update_cases rt uid ups ex s)
          as [(row & F & U)|(e & s' & U & Hn & Ht & _)]; rewrite U;
          [pose proof (selected_row_updated uid ups ex _ row F) as Hsel|]
    end.
    + intros E. inversion E; subst. clear E. split; [reflexivity|].
      cbn [Service.table] in Hsel |- *.
      destruct Hsel as (Hin & Hu & _).
      split; [exact Hin|]. split; [exact Hu|reflexivity].
    + intros E. inversion E; subst. split; [exact Ht|now left].
Qed.

(** X19: [generateNextCall] stores what the scheduler found and nothing
    else.  Without a user, a scheduler or a schedule state it throws the
    [ValidationError] of its guard and touches nothing.  Otherwise it runs
    [generateNextCallTime] on the intervals and the schedule state it
    holds: an error of that run is thrown on with the table as it was; a
    result of that run is what is returned.  For a success with a time,
    the time is a valid date and the table then holds a row of the user
    whose [next_call_due] is that time, with the version the hook held
    plus one; for any other result the table is as it was.  When the
    generation returned and the hook throws, the result was a success, the
    table is as it was, and the error is the [NetworkError] of a refused
    write or the [RangeError] of a time that is no valid date.  For a
    profile whose window ends are clock strings ([HH:MM] or [HH:MM:SS]) the
    generation returns and the only error is the [NetworkError]. *)
Theorem generateNextCall_stores_result (rt : Runtime) (who : option User)
  (schedulerRef : option CallScheduler) (held : option ScheduleHelper)
  (blockedTimes : list BlockedTime) (st st' : Service.State)
  (out : Outcome SchedulingResult) :
  Hook.generateNextCall rt who schedulerRef held blockedTimes st
    = (out, st') ->
  match who, schedulerRef, held with
  | Some u, Some this, Some scheduleHelper =>
      exists (g : Outcome SchedulingResult) (w1 : World),
        generateNextCallTime rt this blockedTimes scheduleHelper
          (Service.world st) = (g, w1) /\
        match g, out with
        | Thrown e, _ =>
            out = Thrown e /\ Service.table st' = Service.table st
        | Returned r, Returned r' =>
            r' = r /\
            match success r, nextCallTime r with
            | true, Some next =>
                exists ms updated,
                  next = At ms /\
                  In updated (Service.table st') /\
                  user_id updated = id u /\
                  next_call_due updated = Some (At ms) /\
                  (lock_version scheduleHelper <> 0 ->
                   lock_version updated = lock_version scheduleHelper + 1)
            | _, _ => Service.table st' = Service.table st
            end
        | Returned r, Thrown e =>
            success r = true /\
            Service.table st' = Service.table st /\
            (err_name e = "NetworkError"
             \/ (e = RangeError "Invalid time value"
                 /\ nextCallTime r = Some InvalidDate))
        end /\
        (forall (mh mm eh em : Z) (msec esec : option Z),
           clockField mh mm -> clockField eh em ->
           morning_start (user this) = clockText mh mm msec ->
           evening_end (user this) = clockText eh em esec ->
           (exists r, g = Returned r) /\
           (forall e, out = Thrown e -> err_name e = "NetworkError"))
  | _, _, _ =>
      out = Thrown (ValidationError
                      "User not authenticated or scheduler not initialized")
      /\ st' = st
  end.
Proof.
  intros E.
  destruct who as [u|]; [|inversion E; now split].
  destruct schedulerRef as [this|]; [|inversion E; now split].
  destruct held as [scheduleHelper|]; [|inversion E; now split].
  unfold Hook.generateNextCall, Hook.andThen, Hook.scheduler, Hook.pure in E.
  destruct (generateNextCallTime rt this blockedTimes scheduleHelper
              (Service.world st)) as [g w1] eqn:G.
  exists g, w1. split; [reflexivity|].
  assert (A : match g, out with
        | Thrown e, _ =>
            out = Thrown e /\ Service.table st' = Service.table st
        | Returned r, Returned r' =>
            r' = r /\
            match success r, nextCallTime r with
            | true, Some next =>
                exists ms updated,
                  next = At ms /\
                  In updated (Service.table st') /\
                  user_id updated = id u /\
                  next_call_due updated = Some (At ms) /\
                  (lock_version scheduleHelper <> 0 ->
                   lock_version updated = lock_version scheduleHelper + 1)
            | _, _ => Service.table st' = Service.table st
            end
        | Returned r, Thrown e =>
            success r = true /\
            Service.table st' = Service.table st /\
            (err_name e = "NetworkError"
             \/ (e = RangeError "Invalid time value"
                 /\ nextCallTime r = Some InvalidDate))
        end).
  { destruct g as [r|e]; [|inversion E; subst; now split].
    destruct (success r) eqn:Es;
      [|inversion E; subst; now split].
    destruct (nextCallTime r) as [[|ms]|] eqn:En;
      [| |inversion E; subst; now split].
    - cbn [toISOString] in E. unfold throw in E. inversion E; subst.
      cbn [Service.table]. split; [reflexivity|]. split; [reflexivity|].
      right. now split.
    - cbn [toISOString] in E. unfold ret, Service.now in E.
      cbn [Service.table Service.users Service.cache Service.world] in E.
      match type of E with
      | context [Service.updateScheduleHelper rt ?uid ?ups ?ex ?s] =>
          destruct (service_update_cases rt uid ups ex s)
            as [(row & F & U)|(e & s' & U & Hn & Ht & _)]; rewrite U in E;
            [pose proof (selected_row_updated uid ups ex _ row F) as Hsel|]
      end.
      + inversion E; subst. clear E. split; [reflexivity|].
        cbn [Service.table] in Hsel |- *.
        destruct Hsel as (Hin & Hu & Hv).
        eexists. eexists. split; [reflexivity|]. split; [exact Hin|].
        split; [exact Hu|]. split; [reflexivity|].
        intros Hz. apply (Hv _ eq_refl Hz).
      + inversion E; subst. split; [reflexivity|].
        split; [exact Ht|now left]. }
  split; [exact A|].
  intros mh mm eh em msec esec Hm He Em Ee.
  destruct (generation_result rt this blockedTimes scheduleHelper
              (Service.world st) mh mm eh em msec esec Hm He Em Ee)
    as (r & w2 & G2 & _ & Sr & _).
  rewrite G in G2. inversion G2; subst g w2. clear G2.
  split; [now exists r|].
  intros e ->. destruct A as (Hs & _ & [Hn|[_ Hbad]]); [exact Hn|].
  destruct (Sr Hs) as (ms & Hms). rewrite Hms in Hbad. discriminate.
Qed.

(** X20: [rescheduleCall] always finds a time to store.  Without a user,
    a call due or a schedule state it throws the [ValidationError] of its
    guard and touches nothing.  Otherwise the time to store is the
    requested one when the hook has no scheduler; with a scheduler the
    requested time is validated once, and the time to store is the
    requested one when the validation accepts it and the suggested time of
    the rejection, as it is and without a validation of its own, when not.
    The error [Cannot reschedule to requested time] is never thrown: an
    error is the [NetworkError] of a refused write or the [RangeError] of
    a time to store that is no valid date, both with the table as it was,
    or the [RangeError] of a call due that is no valid date, which the log
    entry of the requested path prints after the row was written. *)
Theorem rescheduleCall_stores_time_or_suggestion (rt : Runtime)
  (who : option User) (schedulerRef : option CallScheduler)
  (due : option Date) (held : option ScheduleHelper)
  (blockedTimes : list BlockedTime) (delayMinutes : Z)
  (st st' : Service.State) (out : Outcome (Date * ScheduleHelper)) :
  Hook.rescheduleCall rt who schedulerRef due held blockedTimes delayMinutes
    st = (out, st') ->
  match who, due, held with
  | Some u, Some callDue, Some scheduleHelper =>
      let requested :=
        At (clock rt (reads (Service.world st)) + delayMinutes * 60000) in
      exists chosen : Date,
        match schedulerRef with
        | Some this =>
            exists (v : CallValidationResult) (w' : World),
              validateCallTime rt this requested blockedTimes scheduleHelper
                (mkWorld (S (reads (Service.world st)))
                   (draws (Service.world st)))
              = (Returned v, w') /\
              (if isValid v then Some requested else suggestedTime v)
              = Some chosen
        | None => chosen = requested
        end /\
        match out with
        | Returned (next, updated) =>
            next = chosen /\
            In updated (Service.table st') /\
            user_id updated = id u /\
            next_call_due updated = Some next
        | Thrown e =>
            (err_name e = "NetworkError"
             /\ Service.table st' = Service.table st)
            \/ (e = RangeError "Invalid time value"
                /\ chosen = InvalidDate
                /\ Service.table st' = Service.table st)
            \/ (e = RangeError "Invalid time value"
                /\ chosen = requested /\ callDue = InvalidDate
                /\ exists updated,
                     In updated (Service.table st') /\
                     user_id updated = id u /\
                     next_call_due updated = Some requested)
        end
  | _, _, _ =>
      out = Thrown (ValidationError "Invalid state for rescheduling call")
      /\ st' = st
  end.
Proof.
  intros E.
  destruct who as [u|]; [|inversion E; now split].
  destruct due as [callDue|]; [|inversion E; now split].
  destruct held as [scheduleHelper|]; [|inversion E; now split].
  intros requested.
  unfold Hook.rescheduleCall in E. unfold Hook.andThen at 1 in E.
  unfold Service.now at 1 in E.
  cbn [Service.table Service.users Service.cache Service.world] in E.
  fold requested in E.
  set (s1 := Service.mkState (Service.table st) (Service.users st)
               (Service.cache st)
               (mkWorld (S (reads (Service.world st)))
                  (draws (Service.world st)))) in E.
  assert (Suggested : forall next s0,
            Service.table s0 = Service.table st ->
            Hook.commitRescheduled rt u scheduleHelper next s0 = (out, st') ->
            match out with
            | Returned (next', updated) =>
                next' = next /\
                In updated (Service.table st') /\
                user_id updated = id u /\
                next_call_due updated = Some next'
            | Thrown e =>
                (err_name e = "NetworkError"
                 /\ Service.table st' = Service.table st)
                \/ (e = RangeError "Invalid time value"
                    /\ next = InvalidDate
                    /\ Service.table st' = Service.table st)
                \/ (e = RangeError "Invalid time value"
                    /\ next = requested /\ callDue = InvalidDate
                    /\ exists updated,
                         In updated (Service.table st') /\
                         user_id updated = id u /\
                         next_call_due updated = Some requested)
            end).
  { intros next s0 Hs C. apply commitRescheduled_cases in C.
    destruct out as [[next' updated]|e].
    - destruct C as (-> & Hin & Hu & Hd). auto.
    - destruct C as (Ht & [Hn|[-> ->]]).
      + left. split; [exact Hn|congruence].
      + right. left. split; [reflexivity|]. split; [reflexivity|congruence]. }
  assert (Requested : forall s0,
            Service.table s0 = Service.table st ->
            Hook.andThen (Hook.commitRescheduled rt u scheduleHelper requested)
              (fun stored =>
                 Hook.andThen (Hook.scheduler (toISOString callDue))
                   (fun _ => Hook.pure stored)) s0 = (out, st') ->
            match out with
            | Returned (next', updated) =>
                next' = requested /\
                In updated (Service.table st') /\
                user_id updated = id u /\
                next_call_due updated = Some next'
            | Thrown e =>
                (err_name e = "NetworkError"
                 /\ Service.table st' = Service.table st)
                \/ (e = RangeError "Invalid time value"
                    /\ requested = InvalidDate
                    /\ Service.table st' = Service.table st)
                \/ (e = RangeError "Invalid time value"
                    /\ requested = requested /\ callDue = InvalidDate
                    /\ exists updated,
                         In updated (Service.table st') /\
                         user_id updated = id u /\
                         next_call_due updated = Some requested)
            end).
  { intros s0 Hs R. unfold Hook.andThen at 1 in R.
    destruct (Hook.commitRescheduled rt u scheduleHelper requested s0)
      as [[[next updated]|e] s2] eqn:C.
    - apply commitRescheduled_cases in C.
      destruct C as (-> & Hin & Hu & Hd).
      unfold Hook.andThen, Hook.scheduler, Hook.pure in R.
      destruct callDue as [|ms]; cbn [toISOString] in R;
        unfold throw, ret in R; inversion R; subst; clear R;
        cbn [Service.table].
      + right. right. split; [reflexivity|]. split; [reflexivity|].
        split; [reflexivity|]. exists updated. auto.
      + auto.
    - inversion R; subst. apply (Suggested requested s0 Hs) in C.
      exact C. }
  destruct schedulerRef as [this|].
  - unfold Hook.andThen at 1, Hook.scheduler at 1 in E.
    cbn [Service.table Service.users Service.cache Service.world s1] in E.
    unfold s1 in E.
    cbn [Service.table Service.users Service.cache Service.world] in E.
    destruct (validateCallTime_returns rt this requested blockedTimes
                scheduleHelper
                (mkWorld (S (reads (Service.world st)))
                   (draws (Service.world st)))) as (v & w' & V).
    rewrite V in E.
    destruct (validation_shape _ _ _ _ _ _ _ _ V) as [Hbad Hgood].
    destruct (isValid v) eqn:Ev; cbn [negb] in E.
    + exists requested.
      split; [exists v, w'; split; [exact V|now rewrite Ev]|].
      apply Requested in E; [|reflexivity].
      destruct out as [[next updated]|e]; [|exact E].
      destruct E as (-> & Hin & Hu & Hd). auto.
    + destruct (Hbad eq_refl) as (why & suggestion & -> & _).
      cbn [suggestedTime] in E |- *.
      exists suggestion.
      split; [exists (mkValidation false (Some why) (Some suggestion)), w';
              split; [exact V|reflexivity]|].
      apply Suggested in E; [|reflexivity].
      destruct out as [[next updated]|e]; [|exact E].
      destruct E as (-> & Hin & Hu & Hd). auto.
  - exists requested. split; [reflexivity|].
    apply Requested in E; [|reflexivity].
    destruct out as [[next updated]|e]; [|exact E].
    destruct E as (-> & Hin & Hu & Hd). auto.
Qed.

(** ** The blocked intervals as the service answers them *)

Lemma insertByPriority_perm (x : BlockedTime) (l : list BlockedTime) :
  Permutation (Service.insertByPriority x l) (x :: l).
Proof.
  induction l as [|y l IH]; cbn [Service.insertByPriority]; [reflexivity|].
  destruct (priority y <? priority x); [reflexivity|].
  rewrite IH. apply perm_swap.
Qed.

Lemma insertByPriority_sorted (x : BlockedTime) (l : list BlockedTime) :
  priorityDescending l -> priorityDescending (Service.insertByPriority x l).
Proof.
  unfold priorityDescending.
  induction 1 as [|y l Hs IH Hy]; cbn [Service.insertByPriority].
  - repeat constructor.
  - destruct (priority y <? priority x) eqn:L.
    + apply Z.ltb_lt in L. constructor; [now constructor|].
      constructor; [lia|]. rewrite Forall_forall in *.
      intros z Hz. specialize (Hy z Hz). cbn in *. lia.
    + apply Z.ltb_ge in L. constructor; [exact IH|].
      rewrite Forall_forall in *. intros z Hz.
      apply (Permutation_in _ (insertByPriority_perm x l)) in Hz.
      destruct Hz as [<-|Hz]; [exact L|now apply Hy].
Qed.

Lemma orderByPriority_spec (rows : list BlockedTime) :
  Permutation (Service.orderByPriority rows) rows /\
  priorityDescending (Service.orderByPriority rows).
Proof.
  unfold Service.orderByPriority.
  assert (G : forall acc,
            priorityDescending acc ->
            Permutation
              (fold_left (fun sorted x => Service.insertByPriority x sorted)
                 rows acc)
              (acc ++ rows)%list /\
            priorityDescending
              (fold_left (fun sorted x => Service.insertByPriority x sorted)
                 rows acc)).
  { induction rows as [|x rows IH]; intros acc Hacc; cbn [fold_left].
    - rewrite app_nil_r. split; [reflexivity|exact Hacc].
    - destruct (IH (Service.insertByPriority x acc)
                  (insertByPriority_sorted x acc Hacc)) as [P S].
      split; [|exact S]. rewrite P, insertByPriority_perm.
      apply Permutation_cons_app. reflexivity. }
  apply (G []). constructor.
Qed.

Lemma selectBlockedTimes_In (userId : string) (rows : list Service.BlockedRow)
  (b : BlockedTime) :
  In b (Service.selectBlockedTimes userId rows) <->
  In (userId, b) rows /\ is_active b = true.
Proof.
  unfold Service.selectBlockedTimes.
  destruct (orderByPriority_spec
              (map snd
                 (filter (fun r => String.eqb (fst r) userId
                                   && is_active (snd r)) rows))) as [P _].
  split.
  - intros H. apply (Permutation_in _ P) in H.
    apply in_map_iff in H. destruct H as ([uid b'] & E & H).
    cbn [snd] in E. subst b'. apply filter_In in H. cbn [fst snd] in H.
    destruct H as [H A]. apply andb_true_iff in A. destruct A as [U A].
    apply String.eqb_eq in U. subst uid. auto.
  - intros [H A]. apply (Permutation_in _ (Permutation_sym P)).
    apply in_map_iff. exists (userId, b). split; [reflexivity|].
    apply filter_In. split; [exact H|]. cbn [fst snd].
    now rewrite String.eqb_refl, A.
Qed.

(** X21: the query of [getBlockedTimes] answers exactly the active
    intervals of the user, each as often as it is stored, by descending
    priority; so when [validateCallTime] works on that answer, the
    interval it reports as blocking is one of the user's active intervals
    that contain the time, and none of those has a larger priority. *)
Theorem stored_intervals_reported_by_priority (rt : Runtime)
  (userId : string) (rows : list Service.BlockedRow) (time : Date)
  (block : BlockedTime) :
  let blockedTimes := Service.selectBlockedTimes userId rows in
  priorityDescending blockedTimes /\
  Permutation blockedTimes
    (map snd
       (filter (fun r => String.eqb (fst r) userId && is_active (snd r))
          rows)) /\
  (blockingInterval rt time blockedTimes = Some block ->
   In (userId, block) rows /\ is_active block = true /\
   isTimeInBlockedPeriod rt time block = true /\
   forall b, In (userId, b) rows -> is_active b = true ->
             isTimeInBlockedPeriod rt time b = true ->
             priority b <= priority block).
Proof.
  intros blockedTimes.
  destruct (orderByPriority_spec
              (map snd
                 (filter (fun r => String.eqb (fst r) userId
                                   && is_active (snd r)) rows))) as [P S].
  split; [exact S|]. split; [exact P|].
  intros Hb. unfold blockingInterval in Hb.
  destruct (find_first _ _ _ Hb) as (before & after & Ef & Pb & Hbefore).
  assert (Hin : In block (filter is_active blockedTimes))
    by (rewrite Ef; apply in_elt).
  apply filter_In in Hin. destruct Hin as [Hin Hact].
  apply selectBlockedTimes_In in Hin. destruct Hin as [Hrow _].
  split; [exact Hrow|]. split; [exact Hact|]. split; [exact Pb|].
  intros b Hrowb Hactb Hblk.
  assert (Hf : In b (filter is_active blockedTimes)).
  { apply filter_In. split; [|exact Hactb].
    apply selectBlockedTimes_In. auto. }
  pose proof (filter_sorted _ is_active _ S) as Hs.
  fold blockedTimes in Hs. unfold Service.selectBlockedTimes in blockedTimes.
  fold blockedTimes in Hs. rewrite Ef in Hs, Hf.
  apply in_app_or in Hf. destruct Hf as [Hf|[<-|Hf]].
  - rewrite (Hbefore b Hf) in Hblk. discriminate.
  - lia.
  - apply sorted_app_head in Hs. rewrite Forall_forall in Hs.
    now apply Hs.
Qed.

(** ** The countdown texts *)

Lemma hours_and_minutes (diff : Z) :
  0 < diff ->
  let hours := diff / (1000 * 60 * 60) in
  let minutes := Z.rem diff (1000 * 60 * 60) / (1000 * 60) in
  0 <= hours /\ 0 <= minutes < 60 /\
  60 * hours + minutes = diff / (1000 * 60).
Proof.
  intros Hd hours minutes. subst hours minutes.
  rewrite Z.rem_mod_nonneg by lia.
  change (1000 * 60 * 60) with 3600000. change (1000 * 60) with 60000.
  pose proof (Z.div_mod diff 3600000 ltac:(lia)) as E.
  pose proof (Z.mod_pos_bound diff 3600000 eq_refl) as B.
  set (h := diff / 3600000) in *. set (r := diff mod 3600000) in *.
  assert (Hh : 0 <= h) by (apply Z.div_pos; lia).
  split; [exact Hh|]. split.
  - split; [apply Z.div_pos; lia|].
    apply Z.div_lt_upper_bound; lia.
  - rewrite E. replace (3600000 * h + r) with (r + (60 * h) * 60000) by lia.
    rewrite Z.div_add by lia. lia.
Qed.

(** X23: the countdown of [getTimeUntilCall] for a valid date: at or
    after the due time it reads [Time to call!]; before it, it shows the
    whole minutes left, split into hours and minutes with the minutes
    below 60, and the hours only when there is at least one. *)
Theorem countdown_splits_minutes (rt : Runtime) (t : Z) (w : World) :
  let left := t - clock rt (reads w) in
  exists text : string,
    ScheduleUtils.getTimeUntilCall rt (At t) w
    = (Returned text, mkWorld (S (reads w)) (draws w)) /\
    (left <= 0 -> text = "Time to call!") /\
    (0 < left ->
     exists hours minutes,
       0 <= hours /\ 0 <= minutes < 60 /\
       60 * hours + minutes = left / 60000 /\
       text = if hours >? 0
              then ScheduleUtils.showInt hours ++ "h "
                   ++ ScheduleUtils.showInt minutes ++ "m"
              else ScheduleUtils.showInt minutes ++ "m").
Proof.
  intros left.
  unfold ScheduleUtils.getTimeUntilCall, bind, readClock, ret. fold left.
  destruct (Z.leb_spec left 0) as [L|L].
  - eexists. split; [reflexivity|]. split; [reflexivity|lia].
  - destruct (hours_and_minutes left L) as (Hh & Hm & Hs).
    exists (if left / (1000 * 60 * 60) >? 0
            then ScheduleUtils.showInt (left / (1000 * 60 * 60)) ++ "h "
                 ++ ScheduleUtils.showInt
                      (Z.rem left (1000 * 60 * 60) / (1000 * 60)) ++ "m"
            else ScheduleUtils.showInt
                   (Z.rem left (1000 * 60 * 60) / (1000 * 60)) ++ "m").
    split.
    + destruct (left / (1000 * 60 * 60) >? 0); reflexivity.
    + split; [lia|]. intros _.
      exists (left / (1000 * 60 * 60)),
             (Z.rem left (1000 * 60 * 60) / (1000 * 60)).
      split; [exact Hh|]. split; [exact Hm|]. split; [exact Hs|].
      reflexivity.
Qed.

(** X24: the three texts agree near the due time: when [isTimeToCall]
    holds with its default tolerance of five minutes, read at the same
    clock value, [getFriendlyTimeDescription] says [very soon] and
    [getTimeUntilCall] reads [Time to call!] or shows at most five
    minutes and no hours. *)
Theorem due_time_texts_agree (rt : Runtime) (t : Z) (w1 w2 w3 w1' : World) :
  clock rt (reads w2) = clock rt (reads w1) ->
  clock rt (reads w3) = clock rt (reads w1) ->
  ScheduleUtils.isTimeToCall rt (At t) None w1 = (Returned true, w1') ->
  ScheduleUtils.getFriendlyTimeDescription rt (At t) w2
  = (Returned "very soon", mkWorld (S (reads w2)) (draws w2)) /\
  exists text : string,
    ScheduleUtils.getTimeUntilCall rt (At t) w3
    = (Returned text, mkWorld (S (reads w3)) (draws w3)) /\
    (text = "Time to call!" \/
     exists minutes, 0 <= minutes <= 5 /\
                     text = ScheduleUtils.showInt minutes ++ "m").
Proof.
  intros E2 E3 H.
  unfold ScheduleUtils.isTimeToCall, bind, readClock, ret in H.
  injection H as Hq _.
  apply Qle_bool_iff in Hq.
  change (5 * 60 * 1000)%Q with (inject_Z 300000) in Hq.
  rewrite <- Zle_Qle in Hq.
  set (now := clock rt (reads w1)) in *. split.
  - unfold ScheduleUtils.getFriendlyTimeDescription, bind, readClock, ret.
    rewrite E2.
    assert (L : JS.Qlt_bool (inject_Z (t - now) / inject_Z (1000 * 60 * 60)) 1
                = true).
    { unfold JS.Qlt_bool. apply negb_true_iff.
      destruct (Qle_bool 1 _) eqn:Q; [|reflexivity].
      apply Qle_bool_iff in Q.
      apply (Qmult_le_r _ _ (inject_Z (1000 * 60 * 60))) in Q;
        [|reflexivity].
      assert (F : (inject_Z (t - now) / inject_Z (1000 * 60 * 60)
                   * inject_Z (1000 * 60 * 60) == inject_Z (t - now))%Q)
        by (field; discriminate).
      rewrite F in Q. change (1 * inject_Z (1000 * 60 * 60))%Q
        with (inject_Z 3600000) in Q.
      rewrite <- Zle_Qle in Q. lia. }
    rewrite L. reflexivity.
  - unfold ScheduleUtils.getTimeUntilCall, bind, readClock, ret.
    rewrite E3. fold now.
    destruct (Z.leb_spec (t - now) 0) as [L|L].
    + eexists. split; [reflexivity|now left].
    + assert (Hh : (t - now) / (1000 * 60 * 60) = 0)
        by (apply Z.div_small; lia).
      rewrite Hh. cbn [Z.gtb Z.compare].
      eexists. split; [reflexivity|]. right.
      exists (Z.rem (t - now) (1000 * 60 * 60) / (1000 * 60)).
      split; [|reflexivity].
      rewrite Z.rem_small by lia.
      split; [apply Z.div_pos; lia|].
      apply Z.div_le_upper_bound; lia.
Qed.

(** On an invalid date no text fails: whatever the clock reads,
    [getTimeUntilCall] reads [NaNm], [isTimeToCall] is false for every
    tolerance, and [getFriendlyTimeDescription] says [tomorrow]. *)
Lemma invalid_date_texts (rt : Runtime) (tolerance : option Q) (w : World) :
  ScheduleUtils.getTimeUntilCall rt InvalidDate w
  = (Returned "NaNm", mkWorld (S (reads w)) (draws w)) /\
  ScheduleUtils.isTimeToCall rt InvalidDate tolerance w
  = (Returned false, mkWorld (S (reads w)) (draws w)) /\
  ScheduleUtils.getFriendlyTimeDescription rt InvalidDate w
  = (Returned "tomorrow", mkWorld (S (reads w)) (draws w)).
Proof. repeat split. Qed.

(** ** What the masks show *)

Lemma length_append (a b : string) :
  String.length (a ++ b) = (String.length a + String.length b)%nat.
Proof. induction a as [|c a IH]; cbn; [reflexivity|now rewrite IH]. Qed.

Lemma substring_skip (a b : string) (n : nat) :
  substring (String.length a) n (a ++ b) = substring 0 n b.
Proof. induction a as [|c a IH]; cbn; [reflexivity|exact IH]. Qed.

Lemma substring_all (b : string) : substring 0 (String.length b) b = b.
Proof. induction b as [|c b IH]; cbn; [reflexivity|now rewrite IH]. Qed.

Lemma sliceLast_append (rest d : string) :
  Sanitize.sliceLast (String.length d) (rest ++ d) = d.
Proof.
  unfold Sanitize.sliceLast. rewrite length_append.
  replace (String.length rest + String.length d - String.length d)%nat
    with (String.length rest) by lia.
  rewrite substring_skip. apply substring_all.
Qed.

Lemma removeNonDigits_append (a b : string) :
  Sanitize.removeNonDigits (a ++ b)
  = Sanitize.removeNonDigits a ++ Sanitize.removeNonDigits b.
Proof.
  induction a as [|c a IH]; cbn [append Sanitize.removeNonDigits];
    [reflexivity|].
  destruct (JS.is_digit c); cbn [append]; now rewrite IH.
Qed.

Lemma removeNonDigits_digits (d : string) :
  Sanitize.removeNonDigits (Sanitize.removeNonDigits d)
  = Sanitize.removeNonDigits d.
Proof.
  induction d as [|c d IH]; [reflexivity|]. cbn [Sanitize.removeNonDigits].
  destruct (JS.is_digit c) eqn:D; [|exact IH].
  cbn [Sanitize.removeNonDigits]. now rewrite D, IH.
Qed.

Lemma allDigits_removeNonDigits (s : string) :
  allDigits (Sanitize.removeNonDigits s) = true.
Proof.
  induction s as [|c s IH]; [reflexivity|]. cbn [Sanitize.removeNonDigits].
  destruct (JS.is_digit c) eqn:D; [|exact IH].
  cbn [allDigits]. now rewrite D, IH.
Qed.

Lemma allDigits_append (a b : string) :
  allDigits (a ++ b) = allDigits a && allDigits b.
Proof.
  induction a as [|c a IH]; cbn [append allDigits]; [reflexivity|].
  now rewrite IH, andb_assoc.
Qed.

Lemma removeNonDigits_all (d : string) :
  allDigits d = true -> Sanitize.removeNonDigits d = d.
Proof.
  induction d as [|c d IH]; [reflexivity|]. cbn [allDigits].
  intros H. apply andb_true_iff in H. destruct H as [Hc Hd].
  cbn [Sanitize.removeNonDigits]. now rewrite Hc, IH.
Qed.

Lemma substring_split (s : string) :
  forall n : nat,
    (n <= String.length s)%nat ->
    s = substring 0 n s ++ substring n (String.length s - n) s.
Proof.
  induction s as [|c s IH]; intros n Hn.
  - destruct n; reflexivity.
  - destruct n as [|n].
    + cbn [substring append String.length Nat.sub].
      now rewrite substring_all.
    + cbn [substring append String.length Nat.sub]. f_equal.
      apply IH. cbn [String.length] in Hn. lia.
Qed.

Lemma length_substring0 (t : string) :
  forall n : nat,
    (n <= String.length t)%nat -> String.length (substring 0 n t) = n.
Proof.
  induction t as [|c t IH]; intros [|n] Hn; cbn [substring String.length] in *;
    try reflexivity; try lia.
  rewrite IH; lia.
Qed.

Lemma sliceLast_split (s : string) (k : nat) :
  (k <= String.length s)%nat ->
  s = substring 0 (String.length s - k) s ++ Sanitize.sliceLast k s /\
  String.length (Sanitize.sliceLast k s) = k.
Proof.
  intros H. unfold Sanitize.sliceLast.
  pose proof (substring_split s (String.length s - k) ltac:(lia)) as E.
  replace (String.length s - (String.length s - k))%nat with k in E by lia.
  split; [exact E|].
  apply (f_equal String.length) in E.
  rewrite length_append, length_substring0 in E by lia. lia.
Qed.

Lemma mask_few_digits (phone : string) :
  phone <> "" ->
  (String.length (Sanitize.removeNonDigits phone) < 4)%nat ->
  Sanitize.maskPhoneNumber (Some phone) = "***".
Proof.
  intros Hne H. destruct phone as [|c p]; [contradiction|].
  unfold Sanitize.maskPhoneNumber. apply Nat.ltb_lt in H. now rewrite H.
Qed.

Lemma mask_last_four (phone before d : string) :
  phone <> "" ->
  Sanitize.removeNonDigits phone = before ++ d ->
  String.length d = 4%nat ->
  Sanitize.maskPhoneNumber (Some phone) = "***-***-" ++ d.
Proof.
  intros Hne E L. destruct phone as [|c p]; [contradiction|].
  unfold Sanitize.maskPhoneNumber.
  assert (G : (String.length (Sanitize.removeNonDigits (String c p)) <? 4)%nat
              = false).
  { apply Nat.ltb_ge. rewrite E, length_append. lia. }
  rewrite G, E, <- L, sliceLast_append. reflexivity.
Qed.

(** X25: [maskPhoneNumber] shows the last four digits of the number and
    nothing else of it.  A number with fewer than four digits masks to
    three stars; a number whose digits end in the four digits [d] masks
    to [***-***-d], whatever precedes them and whatever other characters
    it holds; and masking a mask again changes nothing. *)
Theorem phone_mask_shows_last_four (phone : string) :
  phone <> "" ->
  let digits := Sanitize.removeNonDigits phone in
  ((String.length digits < 4)%nat ->
   Sanitize.maskPhoneNumber (Some phone) = "***")
  /\ (forall before d,
        digits = before ++ d -> String.length d = 4%nat ->
        Sanitize.maskPhoneNumber (Some phone) = "***-***-" ++ d)
  /\ Sanitize.maskPhoneNumber (Some (Sanitize.maskPhoneNumber (Some phone)))
     = Sanitize.maskPhoneNumber (Some phone).
Proof.
  intros Hne digits.
  split; [now apply mask_few_digits|].
  split; [intros before d; now apply mask_last_four|].
  destruct (Nat.ltb_spec (String.length digits) 4) as [L|L].
  - rewrite (mask_few_digits phone Hne L). reflexivity.
  - destruct (sliceLast_split digits 4 L) as [E Ld].
    set (d := Sanitize.sliceLast 4 digits) in *.
    rewrite (mask_last_four phone _ d Hne E Ld).
    apply (mask_last_four _ ""); [discriminate| |exact Ld].
    cbn [append Sanitize.removeNonDigits]. 
    change (JS.is_digit "*") with false. change (JS.is_digit "-") with false.
    cbn iota. apply removeNonDigits_all.
    pose proof (allDigits_removeNonDigits phone) as A. fold digits in A.
    rewrite E, allDigits_append in A. apply andb_true_iff in A. tauto.
Qed.

Lemma split_last_field (sep : ascii) (a : string) :
  JS.includes a (String sep EmptyString) = false ->
  forall acc, JS.split_acc sep acc a = [acc ++ a].
Proof.
  induction a as [|c a IH]; intros H acc.
  - cbn [JS.split_acc]. f_equal. clear. induction acc as [|x acc IH];
      cbn [append]; [reflexivity|now rewrite <- IH].
  - cbn [JS.includes String.prefix] in H.
    apply orb_false_iff in H. destruct H as [H1 H2].
    cbn [JS.split_acc]. destruct (Ascii.eqb c sep) eqn:C.
    + apply Ascii.eqb_eq in C. subst c.
      destruct (ascii_dec sep sep) as [_|N]; [|congruence].
      destruct a; discriminate H1.
    + rewrite (IH H2). f_equal. rewrite append_assoc. reflexivity.
Qed.

(** X26: [maskEmail] never shows the part before the first [@]: for an
    address [local@domain] it answers [***@domain], whatever [local] is;
    what follows a second [@] is dropped, and an address without a domain
    masks to [***@***]. *)
Theorem email_mask_hides_local_part (local domain : string) :
  JS.includes local "@" = false ->
  JS.includes domain "@" = false ->
  domain <> "" ->
  Sanitize.maskEmail (Some (local ++ "@" ++ domain)) = "***@" ++ domain /\
  (forall rest,
     Sanitize.maskEmail (Some (local ++ "@" ++ domain ++ "@" ++ rest))
     = "***@" ++ domain) /\
  Sanitize.maskEmail (Some (local ++ "@")) = "***@***" /\
  (local <> "" -> Sanitize.maskEmail (Some local) = "***@***").
Proof.
  intros Hl Hd Hne.
  assert (Hcons : forall tail, exists c s, local ++ "@" ++ tail = String c s).
  { intros tail. destruct local; cbn [append]; eexists; eexists; reflexivity. }
  split; [|split; [|split]].
  - destruct (Hcons domain) as (c & s & E).
    unfold Sanitize.maskEmail. rewrite E, <- E. unfold JS.split.
    cbn [append]. rewrite (split_field "@" local Hl).
    rewrite (split_last_field "@" domain Hd). cbn [append].
    destruct domain; [contradiction|reflexivity].
  - intros rest. destruct (Hcons (domain ++ "@" ++ rest)) as (c & s & E).
    unfold Sanitize.maskEmail. rewrite E, <- E. unfold JS.split.
    cbn [append]. rewrite (split_field "@" local Hl).
    rewrite (split_field "@" domain Hd). cbn [append].
    destruct domain; [contradiction|reflexivity].
  - destruct (Hcons "") as (c & s & E). cbn [append] in E.
    unfold Sanitize.maskEmail. rewrite E, <- E. unfold JS.split.
    rewrite (split_field "@" local Hl). reflexivity.
  - intros Hn. destruct local as [|c s]; [contradiction|].
    unfold Sanitize.maskEmail, JS.split.
    rewrite (split_last_field "@" _ Hl). reflexivity.
Qed.

(** ** The daily reset *)

(** C4, as the code has it: the stale date is handled when the schedule is
    loaded, not by [generateNextCallTime].  [scheduleHelper] is the state
    that [loadInitialData] holds (what [getScheduleHelper] answered), with a
    [daily_reset_date] other than the UTC date of the clock and a version
    token other than [0]; [row] is the user's one stored row.
    - When the stored token is the held one, the reset writes
      [calls_today = 0] and today's date, the stored token goes up by one,
      and [generateNextCallTime] on the state that the write returns (for a
      positive daily limit) is the strategy search, with its exceptions
      wrapped: it does not take the daily-limit branch.
    - When the stored token is another one, the reset is refused with the
      concurrent-modification error and the table is unchanged.
    - That second case is met through the cache: [getScheduleHelper] answers
      the row of a cache entry that has not expired, whatever the table
      holds, and the reset on that answer is refused as soon as the stored
      token has moved on.
    - [generateNextCallTime] never reads [daily_reset_date]: its outcome is
      the same for every date of the state. *)
Theorem stale_date_reset_on_load (rt : Runtime) (this : CallScheduler)
  (now : Z) (table : Table) (scheduleHelper row : ScheduleHelper)
  (blockedTimes : list BlockedTime) (w : World) :
  daily_reset_date scheduleHelper <> isoDate now ->
  lock_version scheduleHelper <> 0 ->
  rowsOf (id (user this)) table = [row] ->
  (lock_version row = lock_version scheduleHelper ->
   exists updated table',
     dailyReset now (user this) scheduleHelper table
       = (Returned updated, table') /\
     rowsOf (id (user this)) table' = [updated] /\
     calls_today updated = 0 /\
     daily_reset_date updated = isoDate now /\
     lock_version updated = lock_version scheduleHelper + 1 /\
     last_call_time updated = last_call_time row /\
     (0 < daily_call_limit (user this) ->
      generateNextCallTime rt this blockedTimes updated w
      = try_catch (strategySearch rt this blockedTimes updated)
          (fun _ => throw schedulingError) w)) /\
  (lock_version row <> lock_version scheduleHelper ->
   dailyReset now (user this) scheduleHelper table
   = (Thrown concurrentModificationError, table)) /\
  (forall (st : Service.State) (e : Service.CacheEntry),
     Service.table st = table ->
     Service.mapGet (Service.helperCacheKey (id (user this)))
       (Service.cache st) = Some e ->
     clock rt (reads (Service.world st)) - Service.timestamp e
       <= Service.ttl e ->
     Service.data e = scheduleHelper ->
     lock_version row <> lock_version scheduleHelper ->
     exists st',
       Service.getScheduleHelper rt (id (user this)) st
         = (Returned scheduleHelper, st') /\
       dailyReset now (user this) scheduleHelper (Service.table st')
         = (Thrown concurrentModificationError, table)) /\
  (forall date : string,
     generateNextCallTime rt this blockedTimes
       (withResetDate scheduleHelper date) w
     = generateNextCallTime rt this blockedTimes scheduleHelper w).
Proof.
  intros Hstale Hv Hrows.
  assert (Hreset : dailyReset now (user this) scheduleHelper
                   = updateScheduleHelper (id (user this))
                       (mkUpdates None None (Some 0) (Some (isoDate now)) None)
                       (Some (lock_version scheduleHelper))).
  { unfold dailyReset. apply String.eqb_neq in Hstale. rewrite Hstale.
    reflexivity. }
  assert (Hrefused : lock_version row <> lock_version scheduleHelper ->
            dailyReset now (user this) scheduleHelper table
            = (Thrown concurrentModificationError, table)).
  { intros Hother. rewrite Hreset.
    apply (update_conflicts table _ _ _ row Hrows Hother). }
  split; [|split; [exact Hrefused|split]].
  - intros Hsame. eexists; eexists. split.
    + rewrite Hreset.
      apply (update_succeeds table _ _ _ row Hv Hrows Hsame).
    + split.
      { apply (rows_after_update table _ _ _ row Hv Hrows Hsame). }
      cbn [applyUpdates calls_today daily_reset_date lock_version
           last_call_time orKeep set_calls_today set_daily_reset_date
           set_last_call_time].
      split; [reflexivity|]. split; [reflexivity|]. split; [reflexivity|].
      split; [reflexivity|].
      intros Hlimit. unfold generateNextCallTime.
      cbn [applyUpdates calls_today orKeep set_calls_today].
      assert (G : (0 >=? daily_call_limit (user this)) = false)
        by (rewrite Z.geb_leb; apply Z.leb_gt; lia).
      rewrite G. reflexivity.
  - intros st e Ht Hc Hfresh He Hother.
    eexists. split.
    + rewrite (get_hit rt (id (user this)) e st Hc Hfresh), He. reflexivity.
    + cbn [Service.table]. rewrite Ht. apply Hrefused. exact Hother.
  - intros date. apply generateNextCallTime_same; reflexivity.
Qed.

Lemma stale_date_reset_on_load_witness :
  (exists updated table',
     dailyReset t0900 (user sampleScheduler) staleHelper [staleHelper]
       = (Returned updated, table') /\
     rowsOf "user-1" table' = [updated] /\
     calls_today updated = 0 /\
     daily_reset_date updated = isoDate t0900 /\
     lock_version updated = 7 + 1 /\
     generateNextCallTime (tokyo t0900 (1 # 2)) sampleScheduler [lunch]
       updated start
     = try_catch (strategySearch (tokyo t0900 (1 # 2)) sampleScheduler [lunch]
                    updated)
         (fun _ => throw schedulingError) start) /\
  dailyReset t0900 (user sampleScheduler) staleHelper
    [applyUpdates (setCallsToday 1) (Some 8) staleHelper]
  = (Thrown concurrentModificationError,
     [applyUpdates (setCallsToday 1) (Some 8) staleHelper]).
Proof.
  split.
  - destruct (stale_date_reset_on_load (tokyo t0900 (1 # 2)) sampleScheduler
                t0900 [staleHelper] staleHelper staleHelper [lunch] start)
      as [H _].
    + vm_compute. discriminate.
    + vm_compute. discriminate.
    + reflexivity.
    + destruct (H eq_refl) as (updated & table' & H1 & H2 & H3 & H4 & H5 & _ & H7).
      exists updated, table'.
      repeat (split; [assumption|]).
      apply H7. vm_compute. reflexivity.
  - destruct (stale_date_reset_on_load (tokyo t0900 (1 # 2)) sampleScheduler
                t0900 [applyUpdates (setCallsToday 1) (Some 8) staleHelper]
                staleHelper
                (applyUpdates (setCallsToday 1) (Some 8) staleHelper)
                [lunch] start)
      as (_ & H & _).
    + vm_compute. discriminate.
    + vm_compute. discriminate.
    + reflexivity.
    + apply H. vm_compute. discriminate.
Defined.

(** ** The further properties at sample inputs *)

Lemma rejection_carries_suggestion_witness :
  exists why suggestion,
    mkValidation false (Some "blocked_team_meeting")
      (Some (findNextAvailableTimeAfterBlock (tokyo t0900 (1 # 2))
               sampleScheduler
               (At (t0900 + 3 * msPerHour + 30 * msPerMinute)) meeting))
    = mkValidation false (Some why) (Some suggestion) /\
    why <> "" /\ (why = "validation_error" -> False).
Proof.
  refine (proj1 (rejection_carries_suggestion (tokyo t0900 (1 # 2))
                   sampleScheduler
                   (At (t0900 + 3 * msPerHour + 30 * msPerMinute))
                   [meeting; lunch] sampleHelper start start _ _) _).
  - vm_compute. reflexivity.
  - reflexivity.
Defined.

Lemma valid_time_guarantees_witness :
  clock (tokyo (t0900 - 60000) (1 # 2)) (reads start) < t0900 /\
  (forall lastCall,
     last_call_time (calledAt (t0900 - 2 * msPerHour)) = Some (At lastCall) ->
     (minGapMinutes sampleScheduler * 60000
      <= inject_Z (t0900 - lastCall))%Q) /\
  (forall block, In block [lunch] -> is_active block = true ->
     isTimeInBlockedPeriod (tokyo (t0900 - 60000) (1 # 2)) (At t0900) block
     = false).
Proof.
  apply (valid_time_guarantees (tokyo (t0900 - 60000) (1 # 2))
           sampleScheduler t0900 [lunch] (calledAt (t0900 - 2 * msPerHour))
           start (mkWorld 1 0) accepted).
  - vm_compute. reflexivity.
  - reflexivity.
Defined.

Lemma adjustToTimeWindow_lands_witness :
  let sameDay :=
    startOfDay 540 (t0900 - msPerHour) + 9 * msPerHour + 0 * msPerMinute in
  outsideWindow (tokyo t0900 (1 # 2)) storedScheduler
    (At (t0900 - msPerHour)) = true /\
  adjustToTimeWindow (tokyo t0900 (1 # 2)) storedScheduler
    (At (t0900 - msPerHour)) = At sameDay /\
  (minuteOfDay 540 (t0900 - msPerHour) < 60 * 9 + 0 ->
   t0900 - msPerHour < sameDay) /\
  (minuteOfDay 540 (t0900 - msPerHour) = 60 * 9 + 0 ->
   sameDay <= t0900 - msPerHour).
Proof.
  cbv zeta.
  destruct (adjustToTimeWindow_lands (tokyo t0900 (1 # 2)) storedScheduler
              (t0900 - msPerHour) 9 0 21 0 (Some 0) (Some 0))
    as (_ & H & _).
  - unfold clockField. lia.
  - unfold clockField. lia.
  - reflexivity.
  - reflexivity.
  - lia.
  - apply H. vm_compute. reflexivity.
Defined.

Lemma getNextActiveDay_first_active_witness :
  exists k : nat,
    (1 <= k <= 7)%nat /\
    getNextActiveDay (tokyo t0900 (1 # 2)) sampleScheduler (At t0900)
    = At (startOfDay 540 t0900 + Z.of_nat k * msPerDay
          + 9 * msPerHour + 0 * msPerMinute) /\
    In (weekdayShort 540 (At (t0900 + Z.of_nat k * msPerDay))) allDays /\
    (forall j, (1 <= j < k)%nat ->
       ~ In (weekdayShort 540 (At (t0900 + Z.of_nat j * msPerDay))) allDays)
    /\
    inactiveDay (tokyo t0900 (1 # 2)) sampleScheduler
      (getNextActiveDay (tokyo t0900 (1 # 2)) sampleScheduler (At t0900))
    = false /\
    toTimeString5 540
      (getNextActiveDay (tokyo t0900 (1 # 2)) sampleScheduler (At t0900))
    = clock5 9 0.
Proof.
  apply (getNextActiveDay_first_active (tokyo t0900 (1 # 2)) sampleScheduler
           t0900 9 0 allDays).
  - unfold clockField. lia.
  - reflexivity.
  - reflexivity.
  - intros d H. simpl in *. tauto.
  - discriminate.
Defined.

Lemma findNextAvailableTimeAfterBlock_escapes_witness :
  findNextAvailableTimeAfterBlock (tokyo t0900 (1 # 2)) sampleScheduler
    (At (t0900 + 3 * msPerHour + 30 * msPerMinute)) lunch
  = At (startOfDay 540 (t0900 + 3 * msPerHour + 30 * msPerMinute)
        + (60 * 13 + 0 + 15) * msPerMinute) /\
  minuteOfDay 540
    (startOfDay 540 (t0900 + 3 * msPerHour + 30 * msPerMinute)
     + (60 * 13 + 0 + 15) * msPerMinute)
  = 60 * 13 + 0 + 15 /\
  isTimeInBlockedPeriod (tokyo t0900 (1 # 2))
    (findNextAvailableTimeAfterBlock (tokyo t0900 (1 # 2)) sampleScheduler
       (At (t0900 + 3 * msPerHour + 30 * msPerMinute)) lunch) lunch
  = false.
Proof.
  apply (findNextAvailableTimeAfterBlock_escapes (tokyo t0900 (1 # 2))
           sampleScheduler lunch (t0900 + 3 * msPerHour + 30 * msPerMinute)
           9 0 21 0 13 0).
  - unfold clockField. lia.
  - unfold clockField. lia.
  - unfold clockField. lia.
  - reflexivity.
  - reflexivity.
  - reflexivity.
  - lia.
  - lia.
Defined.

Lemma preferred_slots_ranked_witness :
  exists slots,
    getPreferredTimeSlots (tokyo t0900 (1 # 2)) sampleScheduler start
    = (Returned slots,
       mkWorld (reads start) (draws start + List.length slots)) /\
    Permutation (map hour slots)
      (filter (fun h =>
                 hourInWindow h
                   (fst (parseClock (morning_start (user sampleScheduler))))
                   (fst (parseClock (evening_end (user sampleScheduler)))))
         [10; 11; 14; 16; 19; 20]) /\
    Forall (fun s => 0 <= minute s <= 59) slots /\
    StronglySorted (fun a b => getTimeSlotScore b <= getTimeSlotScore a)
      slots /\
    (List.length slots <= 6)%nat.
Proof.
  apply (preferred_slots_ranked (tokyo t0900 (1 # 2)) sampleScheduler start).
  intros i. split.
  - vm_compute. discriminate.
  - vm_compute. reflexivity.
Defined.

Lemma generation_returns_within_budget_witness :
  exists r w',
    generateNextCallTime (tokyo t0900 (1 # 2)) sampleScheduler [lunch]
      sampleHelper start = (Returned r, w') /\
    (attemptsOf r <= 2 * maxAttempts sampleScheduler + 6)%nat /\
    (success r = true -> exists ms, nextCallTime r = Some (At ms)) /\
    (success r = false ->
     calls_today sampleHelper < daily_call_limit (user sampleScheduler) /\
     nextCallTime r = None /\
     error r = Some "Unable to find valid call time within constraints").
Proof.
  apply (generation_returns_within_budget (tokyo t0900 (1 # 2))
           sampleScheduler [lunch] sampleHelper start 9 0 21 0).
  - unfold clockField. lia.
  - unfold clockField. lia.
  - reflexivity.
  - reflexivity.
Defined.

Lemma generation_throws_without_colon_witness :
  generateNextCallTime (tokyo t0900 (1 # 2)) brokenScheduler [lunch]
    staleHelper start
  = (Thrown (mkError "AppError" "Failed to generate call time"
               "SCHEDULING_ERROR" 500),
     mkWorld (S (reads start)) (S (draws start))).
Proof.
  apply (generation_throws_without_colon (tokyo t0900 (1 # 2))
           brokenScheduler [lunch] staleHelper start).
  - vm_compute. discriminate.
  - vm_compute. reflexivity.
Defined.

Lemma search_result_guarantees_witness :
  exists ms, At 1698207300000 = At ms /\
    (exists n, clock (tokyo t0900 (1 # 2)) n < ms) /\
    (forall lastCall, last_call_time sampleHelper = Some (At lastCall) ->
       (minGapMinutes sampleScheduler * (1 # 2) * 60000
        <= inject_Z (ms - lastCall))%Q) /\
    (forall block, In block [lunch] -> is_active block = true ->
       priority block > 0 ->
       isTimeInBlockedPeriod (tokyo t0900 (1 # 2)) (At ms) block = false).
Proof.
  apply (search_result_guarantees (tokyo t0900 (1 # 2)) sampleScheduler
           [lunch] sampleHelper start (mkWorld 2 1)
           (found (At 1698207300000) 1 ["blocked_lunch"])
           (At 1698207300000) 21 0).
  - unfold clockField. lia.
  - reflexivity.
  - vm_compute. reflexivity.
  - vm_compute. reflexivity.
  - vm_compute. reflexivity.
  - reflexivity.
  - reflexivity.
Defined.

Lemma invalidation_misses_helper_key_witness :
  Service.mapGet (Service.helperCacheKey uuid)
    (Service.invalidateCache ("schedule_helper_" ++ uuid)
       (Service.cache serviceOld))
  = Service.mapGet (Service.helperCacheKey uuid) (Service.cache serviceOld).
Proof.
  apply (invalidation_misses_helper_key uuid uuid (Service.cache serviceOld)).
  - vm_compute. reflexivity.
  - discriminate.
  - vm_compute. reflexivity.
Defined.

Lemma cached_helper_outlives_update_witness :
  exists (st1 st2 st3 st4 : Service.State) (row' : ScheduleHelper),
    Service.getScheduleHelper (tokyo t0900 (1 # 2)) uuid serviceStart
      = (Returned uuidHelper, st1) /\
    Service.updateScheduleHelper (tokyo t0900 (1 # 2)) uuid
      (setCallsToday 1) (Some (lock_version uuidHelper)) st1
      = (Returned row', st2) /\
    lock_version row' = lock_version uuidHelper + 1 /\
    rowsOf uuid (Service.table st2) = [row'] /\
    Service.getScheduleHelper (tokyo t0900 (1 # 2)) uuid st2
      = (Returned uuidHelper, st3) /\
    Service.updateScheduleHelper (tokyo t0900 (1 # 2)) uuid
      (setCallsToday 1) (Some (lock_version uuidHelper)) st3
      = (Thrown concurrentModificationError, st4) /\
    Service.table st4 = Service.table st2.
Proof.
  apply (cached_helper_outlives_update (tokyo t0900 (1 # 2)) uuid uuidHelper
           (setCallsToday 1) serviceStart).
  - vm_compute. reflexivity.
  - discriminate.
  - vm_compute. reflexivity.
  - vm_compute. discriminate.
  - reflexivity.
  - vm_compute. discriminate.
Defined.

Lemma cache_entry_expires_witness :
  exists st' : Service.State,
    Service.getScheduleHelper (tokyo t0900 (1 # 2)) uuid serviceOld
    = (Returned uuidHelper, st')
    /\ Service.table st' = Service.table serviceOld
    /\ Service.mapGet (Service.helperCacheKey uuid) (Service.cache st')
       = Some (Service.mkEntry uuidHelper t0900 Service.CACHE_TTL).
Proof.
  apply (cache_entry_expires (tokyo t0900 (1 # 2)) uuid
           (Service.mkEntry staleHelper (t0900 - 400000) Service.CACHE_TTL)
           uuidHelper serviceOld).
  - vm_compute. reflexivity.
  - vm_compute. reflexivity.
Defined.

Lemma missing_helper_is_created_witness :
  exists st' st'' : Service.State,
    Service.getScheduleHelper (tokyo t0900 (1 # 2)) uuid serviceNew
      = (Returned uuidHelper, st') /\
    Service.table st' = (Service.table serviceNew ++ [uuidHelper])%list /\
    Service.cache st' = Service.cache serviceNew /\
    Service.getScheduleHelper (tokyo t0900 (1 # 2)) uuid st'
      = (Returned uuidHelper, st'') /\
    Service.table st'' = Service.table st' /\
    Service.mapGet (Service.helperCacheKey uuid) (Service.cache st'')
    = Some (Service.mkEntry uuidHelper t0900 Service.CACHE_TTL).
Proof.
  apply (missing_helper_is_created (tokyo t0900 (1 # 2)) uuid serviceNew).
  - left. reflexivity.
  - reflexivity.
  - reflexivity.
Defined.

Lemma update_keeps_other_rows_witness :
  Forall2 (fun old new =>
             user_id new = user_id old /\
             lock_version old <= lock_version new <= lock_version old + 1 /\
             (user_id old <> "user-1" -> new = old))
    [staleHelper; uuidHelper]
    [applyUpdates (setCallsToday 2) (Some 8) staleHelper; uuidHelper]
  /\ (forall e,
        Returned (applyUpdates (setCallsToday 2) (Some 8) staleHelper)
        = Thrown e ->
        [applyUpdates (setCallsToday 2) (Some 8) staleHelper; uuidHelper]
        = [staleHelper; uuidHelper]).
Proof.
  apply (update_keeps_other_rows "user-1" (setCallsToday 2) (Some 7)
           [staleHelper; uuidHelper]).
  vm_compute. reflexivity.
Defined.

Lemma dailyReset_idempotent_witness :
  let updated :=
    applyUpdates (mkUpdates None None (Some 0) (Some (isoDate t0900)) None)
      (Some 8) staleHelper in
  daily_reset_date updated = isoDate t0900 /\
  dailyReset t0900 sampleUser updated [updated]
  = (Returned updated, [updated]).
Proof.
  apply (dailyReset_idempotent t0900 sampleUser staleHelper _ [staleHelper]).
  vm_compute. reflexivity.
Defined.

Lemma recorded_attempt_holds_gap_witness :
  let updated :=
    applyUpdates (mkUpdates (Some None) (Some (Some (At t0900)))
                    (Some (3 + 1)) None None) (Some 8) staleHelper in
  next_call_due updated = None /\
  last_call_time updated = Some (At t0900) /\
  (true = true -> calls_today updated = 3 + 1) /\
  forall (rt : Runtime) (this : CallScheduler)
         (blockedTimes : list BlockedTime) (t : Z) (w w' : World),
    validateCallTime rt this (At t) blockedTimes updated w
      = (Returned accepted, w') ->
    (minGapMinutes this * 60000 <= inject_Z (t - t0900))%Q.
Proof.
  apply (recorded_attempt_holds_gap t0900 sampleUser staleHelper _ true 3
           [staleHelper]
           [applyUpdates (mkUpdates (Some None) (Some (Some (At t0900)))
                            (Some (3 + 1)) None None) (Some 8) staleHelper]).
  vm_compute. reflexivity.
Defined.

Lemma generateNextCall_stores_result_witness :
  exists (r : SchedulingResult) (w1 : World) (ms : Z)
    (updated : ScheduleHelper),
    generateNextCallTime (tokyo t0900 (1 # 2)) uuidScheduler [lunch]
      uuidHelper (Service.world serviceStart) = (Returned r, w1) /\
    fst generated = Returned r /\
    nextCallTime r = Some (At ms) /\
    In updated (Service.table (snd generated)) /\
    next_call_due updated = Some (At ms) /\
    lock_version updated = lock_version uuidHelper + 1.
Proof.
  destruct (generateNextCall_stores_result (tokyo t0900 (1 # 2))
              (Some uuidUser) (Some uuidScheduler) (Some uuidHelper) [lunch]
              serviceStart (snd generated) (fst generated))
    as (g & w1 & G & A & _).
  - vm_compute. reflexivity.
  - destruct g as [r|e]; [|vm_compute in G; discriminate].
    unfold generated in A. cbn [fst snd] in A.
    destruct A as (Hr & A). subst r. cbn [success nextCallTime] in A.
    destruct A as (ms & updated & Hn & Hin & _ & Hd & Hv).
    eexists. exists w1, ms, updated.
    split; [exact G|]. split; [reflexivity|].
    split; [cbn [nextCallTime]; now rewrite Hn|].
    split; [exact Hin|]. split; [exact Hd|].
    apply Hv. vm_compute. discriminate.
Defined.

Lemma rescheduleCall_stores_time_or_suggestion_witness :
  exists (chosen : Date) (v : CallValidationResult) (w' : World)
    (updated : ScheduleHelper),
    validateCallTime (tokyo t0900 (1 # 2)) uuidScheduler
      (At (t0900 + 210 * 60000)) [lunch] uuidHelper (mkWorld 1 0)
    = (Returned v, w') /\
    (if isValid v then Some (At (t0900 + 210 * 60000)) else suggestedTime v)
    = Some chosen /\
    fst rescheduled = Returned (chosen, updated) /\
    In updated (Service.table (snd rescheduled)) /\
    next_call_due updated = Some chosen.
Proof.
  destruct (rescheduleCall_stores_time_or_suggestion (tokyo t0900 (1 # 2))
              (Some uuidUser) (Some uuidScheduler)
              (Some (At (t0900 + msPerHour))) (Some uuidHelper) [lunch] 210
              serviceStart (snd rescheduled) (fst rescheduled))
    as (chosen & (v & w' & V & C) & O).
  - vm_compute. reflexivity.
  - unfold rescheduled in O. cbn [fst snd] in O.
    destruct O as (Hc & Hin & _ & Hd). subst chosen.
    eexists. exists v, w'. eexists.
    split; [exact V|]. split; [exact C|].
    split; [reflexivity|]. split; [exact Hin|exact Hd].
Defined.

Lemma due_time_texts_agree_witness :
  ScheduleUtils.getFriendlyTimeDescription (tokyo t0900 (1 # 2))
    (At (t0900 + 2 * msPerMinute)) start
  = (Returned "very soon", mkWorld 1 0) /\
  exists text : string,
    ScheduleUtils.getTimeUntilCall (tokyo t0900 (1 # 2))
      (At (t0900 + 2 * msPerMinute)) start
    = (Returned text, mkWorld 1 0) /\
    (text = "Time to call!" \/
     exists minutes, 0 <= minutes <= 5 /\
                     text = ScheduleUtils.showInt minutes ++ "m").
Proof.
  apply (due_time_texts_agree (tokyo t0900 (1 # 2)) (t0900 + 2 * msPerMinute)
           start start start (mkWorld 1 0)).
  - reflexivity.
  - reflexivity.
  - vm_compute. reflexivity.
Defined.

Lemma phone_mask_shows_last_four_witness :
  let digits := Sanitize.removeNonDigits "+1 (555) 123-4567" in
  ((String.length digits < 4)%nat ->
   Sanitize.maskPhoneNumber (Some "+1 (555) 123-4567") = "***")
  /\ (forall before d,
        digits = before ++ d -> String.length d = 4%nat ->
        Sanitize.maskPhoneNumber (Some "+1 (555) 123-4567")
        = "***-***-" ++ d)
  /\ Sanitize.maskPhoneNumber
       (Some (Sanitize.maskPhoneNumber (Some "+1 (555) 123-4567")))
     = Sanitize.maskPhoneNumber (Some "+1 (555) 123-4567").
Proof.
  apply (phone_mask_shows_last_four "+1 (555) 123-4567"). discriminate.
Defined.

Lemma email_mask_hides_local_part_witness :
  Sanitize.maskEmail (Some ("alice" ++ "@" ++ "example.com"))
  = "***@" ++ "example.com" /\
  (forall rest,
     Sanitize.maskEmail
       (Some ("alice" ++ "@" ++ "example.com" ++ "@" ++ rest))
     = "***@" ++ "example.com") /\
  Sanitize.maskEmail (Some ("alice" ++ "@")) = "***@***" /\
  ("alice" <> "" -> Sanitize.maskEmail (Some "alice") = "***@***").
Proof.
  apply (email_mask_hides_local_part "alice" "example.com").
  - vm_compute. reflexivity.
  - vm_compute. reflexivity.
  - discriminate.
Defined.
